(** * AgriCare: crop-image analysis pipeline

    A shallow embedding of the request handlers of the AgriCare
    application (the Express server [server.js], the Netlify functions
    [analyze.js] and [save-report.js]) and of the page's script
    [script.js], together with the properties of the upload, analysis,
    rendering and report-store steps.

    JavaScript strings are sequences of UTF-16 code units; they are
    modelled as lists of code-unit numbers, so that every JavaScript
    string has a counterpart here. *)

From Stdlib Require Import ZArith NArith Ascii String List Lia Bool.
From Stdlib Require Import QArith Qabs Qpower Lqa Floats Uint63.
From stdpp Require Import base option list gmap.

Local Open Scope N_scope.
Set Warnings "-register-all".

(** ** Strings *)

Abbreviation jsstr := (list N).

Module Str.

(** A string literal given as its Latin-1 characters. *)
Definition lit (s : string) : jsstr :=
  map N_of_ascii (list_ascii_of_string s).

(** The same, with every apostrophe standing for a double quote
    (code unit 34), to write JSON texts. *)
Definition json_lit (s : string) : jsstr :=
  map (fun c => if c =? 39 then 34 else c) (lit s).

Definition eqb (a b : jsstr) : bool := bool_decide (a = b).

(** [s.startsWith(p)] *)
Fixpoint startsWith (p s : jsstr) : bool :=
  match p, s with
  | [], _ => true
  | _ :: _, [] => false
  | a :: p', b :: s' => (a =? b) && startsWith p' s'
  end.

(** [s.replace(p, r)] for a string pattern [p]: the leftmost
    occurrence of [p] is replaced, the rest is copied. *)
Fixpoint replace_first (p r s : jsstr) : jsstr :=
  if startsWith p s then r ++ drop (length p) s
  else match s with
       | [] => []
       | c :: s' => c :: replace_first p r s'
       end.

(** WhiteSpace and LineTerminator code points of ECMAScript, the
    ones [String.prototype.trim] removes. *)
Definition is_space (c : N) : bool :=
  (c =? 9) || (c =? 10) || (c =? 11) || (c =? 12) || (c =? 13) ||
  (c =? 32) || (c =? 160) || (c =? 5760) ||
  ((8192 <=? c) && (c <=? 8202)) ||
  (c =? 8232) || (c =? 8233) || (c =? 8239) || (c =? 8287) ||
  (c =? 12288) || (c =? 65279).

Fixpoint trimStart (s : jsstr) : jsstr :=
  match s with
  | c :: s' => if is_space c then trimStart s' else s
  | [] => []
  end.

Definition trimEnd (s : jsstr) : jsstr := rev (trimStart (rev s)).

(** [s.trim()] *)
Definition trim (s : jsstr) : jsstr := trimEnd (trimStart s).

(** The character class [a-zA-Z0-9_.-]. *)
Definition is_safe_char (c : N) : bool :=
  ((97 <=? c) && (c <=? 122)) || ((65 <=? c) && (c <=? 90)) ||
  ((48 <=? c) && (c <=? 57)) || (c =? 95) || (c =? 46) || (c =? 45).

(** [s.replace(/[^a-zA-Z0-9_.-]/g, "_")]: without the [u] flag the
    class is matched against single code units. *)
Definition sanitize (s : jsstr) : jsstr :=
  map (fun c => if is_safe_char c then c else 95) s.

(** Decimal digits of a natural number, least significant first;
    [fuel] bounds the number of digits. *)
Fixpoint digits_rev (fuel : nat) (n : N) : jsstr :=
  match fuel with
  | O => []
  | S fuel' =>
      (48 + n mod 10) ::
      (if n / 10 =? 0 then [] else digits_rev fuel' (n / 10))
  end.

Definition of_N (n : N) : jsstr :=
  rev (digits_rev (S (N.to_nat (N.log2 n))) n).

(** [String(z)] for an integral Number below 10^21 in magnitude
    (every time value is): the decimal numeral, with a minus sign
    when negative. *)
Definition of_Z (z : Z) : jsstr :=
  match z with
  | Zneg p => 45 :: of_N (Npos p)
  | _ => of_N (Z.to_N z)
  end.

End Str.

(** ** JSON values *)

(** A value produced by [JSON.parse]. A number is kept as the decimal
    it was written as, [mantissa * 10 ^ exponent]; an object keeps its
    members in the order of the text. *)
Inductive JSON :=
| JNull
| JBool (b : bool)
| JNum (mantissa exponent : Z)
| JStr (s : jsstr)
| JArr (items : list JSON)
| JObj (members : list (jsstr * JSON)).

(** A JavaScript value held in a variable bound from JSON data:
    [None] is [undefined]. *)
Abbreviation jsval := (option JSON).

(** The errors the engine and its built-ins throw on their own. *)
Inductive engine_error :=
| NullProperty (prop : jsstr)     (* TypeError: reading a property of null *)
| NotAFunction (method : jsstr)   (* TypeError: calling what is no function *)
| InvalidArgument                 (* TypeError: a built-in refusing its argument *)
| JsonSyntax.                     (* SyntaxError of JSON.parse *)

Inductive js_error :=
| Error (message : jsstr)             (* new Error(message) *)
| Thrown (why : engine_error)         (* thrown by the engine *)
| CodedError (code message : jsstr).  (* thrown by fs, the blob store, multer *)

Module Js.

(** The value of a property among the members of an object: when a
    name is repeated in the text, [JSON.parse] keeps the last one. *)
Fixpoint lookup_member (k : jsstr) (ms : list (jsstr * JSON)) : jsval :=
  match ms with
  | [] => None
  | (k', v) :: ms' =>
      match lookup_member k ms' with
      | Some v' => Some v'
      | None => if Str.eqb k k' then Some v else None
      end
  end.

(** [v.k], for the property names this program reads (none of them
    is a property of a built-in prototype): reading a property of
    [null] throws, a primitive or an array has no such property. *)
Definition get (v : JSON) (k : jsstr) : js_error + jsval :=
  match v with
  | JNull => inl (Thrown (NullProperty k))
  | JObj ms => inr (lookup_member k ms)
  | _ => inr None
  end.

(** A Number is zero when its decimal rounds to a zero double:
    when it is at most 2^-1075 in magnitude. *)
Definition num_is_zero (m e : Z) : bool :=
  ((m =? 0) || ((e <? 0) && (Z.abs m * 2 ^ 1075 <=? 10 ^ (- e))))%Z.

(** ToBoolean *)
Definition truthy (v : jsval) : bool :=
  match v with
  | None | Some JNull => false
  | Some (JBool b) => b
  | Some (JNum m e) => negb (num_is_zero m e)
  | Some (JStr s) => negb (Str.eqb s [])
  | Some (JArr _) | Some (JObj _) => true
  end.

End Js.

(** ** JSON.parse

    The built-in parser, after the JSON grammar (ECMA-404): a scanner
    that runs over the code units once, and a parser of the tokens. *)

Inductive token :=
| TLBrace | TRBrace | TLBracket | TRBracket | TColon | TComma
| TString (s : jsstr)
| TNumber (mantissa exponent : Z)
| TTrue | TFalse | TNull.

(** Where the scanner is: between tokens, inside a string literal
    (with the characters read so far, last first), after a backslash,
    inside a [\u] escape (digits read, their value), inside a number
    or inside a word; the last two keep their characters, last first. *)
Inductive mode :=
| Out
| InStr (acc : jsstr)
| InEsc (acc : jsstr)
| InHex (acc : jsstr) (k : nat) (v : N)
| InNum (lexeme : jsstr)
| InWord (lexeme : jsstr).

Module Json.

Definition is_ws (c : N) : bool :=
  (c =? 32) || (c =? 9) || (c =? 10) || (c =? 13).

Definition is_digit (c : N) : bool := (48 <=? c) && (c <=? 57).

Definition is_lower (c : N) : bool := (97 <=? c) && (c <=? 122).

(** A character that may occur in a number: digit, sign, point, e, E. *)
Definition is_num_char (c : N) : bool :=
  is_digit c || (c =? 45) || (c =? 43) || (c =? 46) || (c =? 101) || (c =? 69).

Definition hex_value (c : N) : option N :=
  if is_digit c then Some (c - 48)
  else if (97 <=? c) && (c <=? 102) then Some (c - 87)
  else if (65 <=? c) && (c <=? 70) then Some (c - 55)
  else None.

(** The character denoted by a one-letter escape. *)
Definition escape (c : N) : option N :=
  if c =? 34 then Some 34 else if c =? 92 then Some 92
  else if c =? 47 then Some 47 else if c =? 98 then Some 8
  else if c =? 102 then Some 12 else if c =? 110 then Some 10
  else if c =? 114 then Some 13 else if c =? 116 then Some 9
  else None.

Fixpoint span_digits (s : jsstr) : jsstr * jsstr :=
  match s with
  | c :: s' =>
      if is_digit c
      then let '(ds, r) := span_digits s' in (c :: ds, r)
      else ([], s)
  | [] => ([], [])
  end.

Definition digits_value (ds : jsstr) : Z :=
  fold_left (fun acc c => (acc * 10 + Z.of_N (c - 48))%Z) ds 0%Z.

(** The exponent part: nothing, or e/E, an optional sign and digits. *)
Definition number_exponent (s : jsstr) : option Z :=
  match s with
  | [] => Some 0%Z
  | c :: r =>
      if (c =? 101) || (c =? 69) then
        let '(neg, r1) :=
          match r with
          | 45 :: r' => (true, r')
          | 43 :: r' => (false, r')
          | _ => (false, r)
          end in
        match span_digits r1 with
        | ((_ :: _) as es, []) =>
            Some (if neg : bool then (- digits_value es)%Z else digits_value es)
        | _ => None
        end
      else None
  end.

(** A number: an optional minus sign, an integer part without a
    leading zero (unless it is 0), an optional fraction (a point
    and digits) and an optional exponent. *)
Definition number (s : jsstr) : option token :=
  let '(neg, s1) := match s with 45 :: r => (true, r) | _ => (false, s) end in
  match span_digits s1 with
  | ([], _) => None
  | ((d :: ds') as ds, r) =>
      if (d =? 48) && negb (Str.eqb ds' []) then None
      else
        let '(fs, r1) :=
          match r with
          | 46 :: r' => let '(fs, r1) := span_digits r' in (Some fs, r1)
          | _ => (None, r)
          end in
        match fs with
        | Some [] => None
        | _ =>
            let fs := default [] fs in
            match number_exponent r1 with
            | Some e =>
                let m := digits_value (ds ++ fs) in
                Some (TNumber (if neg : bool then (- m)%Z else m)
                              (e - Z.of_nat (length fs))%Z)
            | None => None
            end
        end
  end.

Definition word (s : jsstr) : option token :=
  if Str.eqb s (Str.lit "true") then Some TTrue
  else if Str.eqb s (Str.lit "false") then Some TFalse
  else if Str.eqb s (Str.lit "null") then Some TNull
  else None.

(** One character read between tokens. *)
Definition step_out (c : N) : option (mode * list token) :=
  if is_ws c then Some (Out, [])
  else if c =? 123 then Some (Out, [TLBrace])
  else if c =? 125 then Some (Out, [TRBrace])
  else if c =? 91 then Some (Out, [TLBracket])
  else if c =? 93 then Some (Out, [TRBracket])
  else if c =? 58 then Some (Out, [TColon])
  else if c =? 44 then Some (Out, [TComma])
  else if c =? 34 then Some (InStr [], [])
  else if is_digit c || (c =? 45) then Some (InNum [c], [])
  else if is_lower c then Some (InWord [c], [])
  else None.

(** A number or a word ends at the first character that cannot
    continue it; that character is then read between tokens. *)
Definition close_then (t : option token) (c : N) : option (mode * list token) :=
  match t, step_out c with
  | Some t, Some (m, ts) => Some (m, t :: ts)
  | _, _ => None
  end.

Definition step (m : mode) (c : N) : option (mode * list token) :=
  match m with
  | Out => step_out c
  | InStr acc =>
      if c =? 34 then Some (Out, [TString (rev acc)])
      else if c =? 92 then Some (InEsc acc, [])
      else if c <? 32 then None
      else Some (InStr (c :: acc), [])
  | InEsc acc =>
      if c =? 117 then Some (InHex acc 0 0, [])
      else match escape c with
           | Some d => Some (InStr (d :: acc), [])
           | None => None
           end
  | InHex acc k v =>
      match hex_value c with
      | Some d =>
          if (k =? 3)%nat then Some (InStr ((v * 16 + d) :: acc), [])
          else Some (InHex acc (S k) (v * 16 + d), [])
      | None => None
      end
  | InNum l =>
      if is_num_char c then Some (InNum (c :: l), [])
      else close_then (number (rev l)) c
  | InWord l =>
      if is_lower c then Some (InWord (c :: l), [])
      else close_then (word (rev l)) c
  end.

Definition finish (m : mode) : option (list token) :=
  match m with
  | Out => Some []
  | InNum l => option_map (fun t => [t]) (number (rev l))
  | InWord l => option_map (fun t => [t]) (word (rev l))
  | _ => None
  end.

Fixpoint scan (m : mode) (s : jsstr) : option (list token) :=
  match s with
  | [] => finish m
  | c :: s' =>
      match step m c with
      | Some (m', ts) => option_map (app ts) (scan m' s')
      | None => None
      end
  end.

(** Recursive descent over the tokens. [fuel] bounds the number of
    nested calls; twice the number of tokens is enough. *)
Fixpoint value (fuel : nat) (ts : list token) : option (JSON * list token) :=
  match fuel with
  | O => None
  | S fuel =>
      match ts with
      | TNull :: r => Some (JNull, r)
      | TTrue :: r => Some (JBool true, r)
      | TFalse :: r => Some (JBool false, r)
      | TString s :: r => Some (JStr s, r)
      | TNumber m e :: r => Some (JNum m e, r)
      | TLBracket :: TRBracket :: r => Some (JArr [], r)
      | TLBracket :: r => elements fuel r []
      | TLBrace :: TRBrace :: r => Some (JObj [], r)
      | TLBrace :: r => members fuel r []
      | _ => None
      end
  end
with elements (fuel : nat) (ts : list token) (acc : list JSON)
  : option (JSON * list token) :=
  match fuel with
  | O => None
  | S fuel =>
      match value fuel ts with
      | Some (v, TComma :: r) => elements fuel r (v :: acc)
      | Some (v, TRBracket :: r) => Some (JArr (rev (v :: acc)), r)
      | _ => None
      end
  end
with members (fuel : nat) (ts : list token) (acc : list (jsstr * JSON))
  : option (JSON * list token) :=
  match fuel with
  | O => None
  | S fuel =>
      match ts with
      | TString k :: TColon :: r =>
          match value fuel r with
          | Some (v, TComma :: r') => members fuel r' ((k, v) :: acc)
          | Some (v, TRBrace :: r') => Some (JObj (rev ((k, v) :: acc)), r')
          | _ => None
          end
      | _ => None
      end
  end.

(** [JSON.parse(text)]: [None] when it throws a SyntaxError. *)
Definition parse (text : jsstr) : option JSON :=
  match scan Out text with
  | Some ts =>
      match value (2 * length ts + 2) ts with
      | Some (v, []) => Some v
      | _ => None
      end
  | None => None
  end.

End Json.

(** ** The normalized analysis *)

Record AnalysisResult := {
  disease : jsstr;
  medicines : list JSON;
  description : jsstr;
  causes : list JSON
}.

Module Analysis.

Definition Unknown : jsstr := Eval vm_compute in Str.lit "Unknown".
Definition k_disease : jsstr := Eval vm_compute in Str.lit "disease".
Definition k_medicines : jsstr := Eval vm_compute in Str.lit "medicines".
Definition k_description : jsstr := Eval vm_compute in Str.lit "description".
Definition k_causes : jsstr := Eval vm_compute in Str.lit "causes".

(** [typeof x === "string" ? x : dflt] *)
Definition string_or (dflt : jsstr) (x : jsval) : jsstr :=
  match x with Some (JStr s) => s | _ => dflt end.

(** [Array.isArray(x) ? x : []] *)
Definition array_or_empty (x : jsval) : list JSON :=
  match x with Some (JArr l) => l | _ => [] end.

(** The validation and normalization step of [analyzeWithGemini]
    (and of the Netlify [analyze] handler): the four property reads
    happen in this order, and the first one throws on [null]. *)
Definition normalize (parsed : JSON) : js_error + AnalysisResult :=
  match Js.get parsed k_disease with
  | inl e => inl e
  | inr d =>
  match Js.get parsed k_medicines with
  | inl e => inl e
  | inr m =>
  match Js.get parsed k_description with
  | inl e => inl e
  | inr ds =>
  match Js.get parsed k_causes with
  | inl e => inl e
  | inr c =>
      inr {| disease := string_or Unknown d;
             medicines := array_or_empty m;
             description := string_or [] ds;
             causes := array_or_empty c |}
  end end end end.

(** The analysis as the JSON object literal
    [{ disease, medicines, description, causes }]. *)
Definition to_json (a : AnalysisResult) : JSON :=
  JObj [ (k_disease, JStr (disease a));
         (k_medicines, JArr (medicines a));
         (k_description, JStr (description a));
         (k_causes, JArr (causes a)) ].

Definition is_string (v : JSON) : bool :=
  match v with JStr _ => true | _ => false end.

(** Both list fields hold strings only. *)
Definition lists_of_strings (a : AnalysisResult) : bool :=
  forallb is_string (medicines a) && forallb is_string (causes a).

End Analysis.

(** ** Fenced blocks in the model's answer *)

Module Fence.

Definition ticks : jsstr := [96; 96; 96].

(** A line feed and three backticks: what ends the fenced text. *)
Definition closing : jsstr := [10; 96; 96; 96].

(** A letter of the pattern against a character of the text, under
    the [i] flag: the letter itself or its capital. *)
Definition ci (letter c : N) : bool := (c =? letter) || (c =? letter - 32).

(** The optional group [(?:json)?] taken: the text after it. *)
Definition strip_json (s : jsstr) : option jsstr :=
  match s with
  | j :: s1 :: o :: n :: r =>
      if ci 106 j && ci 115 s1 && ci 111 o && ci 110 n then Some r else None
  | _ => None
  end.

(** The lazy group followed by the closing fence: the shortest
    prefix of [s] that the closing fence follows. *)
Fixpoint lazy_body (s : jsstr) : option jsstr :=
  if Str.startsWith closing s then Some []
  else match s with
       | [] => None
       | c :: s' => option_map (cons c) (lazy_body s')
       end.

(** The rest of the pattern after the optional group: a line feed,
    the captured text, the closing fence. *)
Definition after_tag (s : jsstr) : option jsstr :=
  match s with
  | c :: body => if c =? 10 then lazy_body body else None
  | [] => None
  end.

(** The pattern matched at the start of [s]; the optional group is
    greedy: it is tried taken first, then skipped. The result is the
    captured group. *)
Definition match_at (s : jsstr) : option jsstr :=
  if Str.startsWith ticks s then
    let r := drop 3 s in
    match strip_json r with
    | Some r' =>
        match after_tag r' with
        | Some body => Some body
        | None => after_tag r
        end
    | None => after_tag r
    end
  else None.

(** [s.match(re)] for the fence pattern of the source: the match
    that starts leftmost; its first group. *)
Fixpoint search (s : jsstr) : option jsstr :=
  match match_at s with
  | Some body => Some body
  | None =>
      match s with
      | [] => None
      | _ :: s' => search s'
      end
  end.

(** The text handed to [JSON.parse]: the fenced text when the
    trimmed answer holds a fenced block, the trimmed answer if not. *)
Definition extract (text : jsstr) : jsstr :=
  let jsonText := Str.trim text in
  match search jsonText with
  | Some body => Str.trim body
  | None => jsonText
  end.

(** The answer [t] put in a fenced block with the tag [tag]. *)
Definition wrap (tag t : jsstr) : jsstr :=
  ticks ++ tag ++ [10] ++ t ++ closing.

(** No tag, or the word json in any case of letters. *)
Definition json_tag (tag : jsstr) : bool :=
  match tag with
  | [] => true
  | _ => match strip_json tag with Some [] => true | _ => false end
  end.

End Fence.

Module AnalysisText.

Definition parse_failure_message : jsstr :=
  Eval vm_compute in Str.lit "Failed to parse AI response as JSON".

Definition parse_failure : js_error := Error parse_failure_message.

(** Parsing, with the error of the source for a text that is no
    JSON, then normalization. *)
Definition of_json_text (jsonText : jsstr) : js_error + AnalysisResult :=
  match Json.parse jsonText with
  | None => inl parse_failure
  | Some parsed => Analysis.normalize parsed
  end.

(** From the text of the model's answer to the analysis: the second
    half of [analyzeWithGemini]. *)
Definition interpret (text : jsstr) : js_error + AnalysisResult :=
  of_json_text (Fence.extract text).

End AnalysisText.

(** ** Property names and texts of the source *)

Module Keys.
Definition error : jsstr := Eval vm_compute in Str.lit "error".
Definition details : jsstr := Eval vm_compute in Str.lit "details".
Definition success : jsstr := Eval vm_compute in Str.lit "success".
Definition imageFilename : jsstr := Eval vm_compute in Str.lit "imageFilename".
Definition imageUrl : jsstr := Eval vm_compute in Str.lit "imageUrl".
Definition analysis : jsstr := Eval vm_compute in Str.lit "analysis".
Definition reportUrl : jsstr := Eval vm_compute in Str.lit "reportUrl".
Definition pdfDataUrl : jsstr := Eval vm_compute in Str.lit "pdfDataUrl".
Definition baseName : jsstr := Eval vm_compute in Str.lit "baseName".
Definition imageDataUrl : jsstr := Eval vm_compute in Str.lit "imageDataUrl".
Definition mimeType : jsstr := Eval vm_compute in Str.lit "mimeType".
Definition originalName : jsstr := Eval vm_compute in Str.lit "originalName".
End Keys.

Module Texts.
Definition only_images : jsstr := Eval vm_compute in Str.lit "Only JPG, JPEG, PNG are allowed".
Definition no_image : jsstr := Eval vm_compute in Str.lit "No image uploaded".
Definition analysis_failed : jsstr := Eval vm_compute in Str.lit "Analysis failed".
Definition no_key : jsstr :=
  Eval vm_compute in Str.lit "Gemini API key not configured. Set GEMINI_API_KEY in .env".
Definition invalid_pdf : jsstr := Eval vm_compute in Str.lit "Invalid or missing PDF data".
Definition save_failed : jsstr := Eval vm_compute in Str.lit "Failed to save report".
Definition pdf_prefix : jsstr := Eval vm_compute in Str.lit "data:application/pdf;base64,".
Definition analysis_ : jsstr := Eval vm_compute in Str.lit "analysis_".
Definition crop_ : jsstr := Eval vm_compute in Str.lit "crop_".
Definition dot_pdf : jsstr := Eval vm_compute in Str.lit ".pdf".
Definition dot_json : jsstr := Eval vm_compute in Str.lit ".json".
Definition dot_jpg : jsstr := Eval vm_compute in Str.lit ".jpg".
Definition dot_png : jsstr := Eval vm_compute in Str.lit ".png".
Definition POST : jsstr := Eval vm_compute in Str.lit "POST".
Definition method_not_allowed : jsstr := Eval vm_compute in Str.lit "Method Not Allowed".
Definition empty_object : jsstr := Eval vm_compute in Str.lit "{}".
Definition content_type : jsstr := Eval vm_compute in Str.lit "Content-Type".
Definition application_json : jsstr := Eval vm_compute in Str.lit "application/json".
Definition expected_json : jsstr := Eval vm_compute in Str.lit "Expected JSON body".
Definition missing_image : jsstr := Eval vm_compute in Str.lit "Missing imageDataUrl or mimeType".
Definition image_jpeg : jsstr := Eval vm_compute in Str.lit "image/jpeg".
Definition image_jpg : jsstr := Eval vm_compute in Str.lit "image/jpg".
Definition image_png : jsstr := Eval vm_compute in Str.lit "image/png".
Definition LIMIT_FILE_SIZE : jsstr := Eval vm_compute in Str.lit "LIMIT_FILE_SIZE".
Definition file_too_large : jsstr := Eval vm_compute in Str.lit "File too large".
Definition uploads_url : jsstr := Eval vm_compute in Str.lit "/uploads/".
Definition reports_url : jsstr := Eval vm_compute in Str.lit "/reports/".
Definition blobs_url : jsstr := Eval vm_compute in Str.lit "/.netlify/blobs/".
Definition uploads_ : jsstr := Eval vm_compute in Str.lit "uploads/".
Definition reports_ : jsstr := Eval vm_compute in Str.lit "reports/".
Definition meta_ : jsstr := Eval vm_compute in Str.lit "meta/".
Definition data_ : jsstr := Eval vm_compute in Str.lit "data:".
Definition base64_ : jsstr := Eval vm_compute in Str.lit ";base64,".
Definition ENOENT : jsstr := Eval vm_compute in Str.lit "ENOENT".
Definition no_such_file : jsstr :=
  Eval vm_compute in Str.lit "ENOENT: no such file or directory".
Definition startsWith : jsstr := Eval vm_compute in Str.lit "startsWith".
Definition replace : jsstr := Eval vm_compute in Str.lit "replace".
End Texts.

(** ** The world outside and the state of a request *)

(** What is kept in the archive under a path or a blob name. *)
Inductive content :=
| Bytes (bytes : list N)            (* the bytes of an uploaded file *)
| Base64 (text : jsstr)             (* Buffer.from(text, "base64") *)
| AnalysisMeta (timestamp : Z) (imageFilename : jsstr) (analysis : AnalysisResult)
                                    (* JSON.stringify of the analysis record *)
| ReportMeta (analysis : JSON) (imageFilename : jsval).
                                    (* JSON.stringify({ analysis, imageFilename }) *)

Inductive log_entry :=
| LogError (e : js_error)           (* console.error(err) *)
| LogWarn (e : js_error)            (* console.warn(label, err) *)
| LogText (text : jsstr).

(** Everything a handler asks of its environment: the clock (the
    n-th reading of the time, in milliseconds), whether the API key is
    configured, the answer of the model to a prompt, an image and a
    MIME type, the error (if any) that a write to a path or blob name
    ends with, the wording of the engine's own error messages, and
    [Buffer.from(s, "base64").toString("utf8")]. *)
Record world := {
  clock : nat -> Z;
  api_key_set : bool;
  generateContent : jsstr -> content -> jsstr -> js_error + jsstr;
  write_error : jsstr -> option js_error;
  error_text : engine_error -> jsstr;
  utf8_of_base64 : jsstr -> jsstr
}.

(** What a request changes: the archive (files on disk, or blobs),
    the writes made to it, in order, the console, the number of calls
    made to the model and the number of readings of the clock. *)
Record state := {
  files : gmap jsstr content;
  written : list (jsstr * content);
  console : list log_entry;
  model_calls : nat;
  clock_reads : nat
}.

(** A computation that reads and changes the state and either
    returns or throws. *)
Definition M (A : Type) : Type := state -> (js_error + A) * state.

#[global] Instance M_ret : MRet M := fun A (a : A) st => (inr a, st).

#[global] Instance M_bind : MBind M := fun A B (k : A -> M B) (m : M A) st =>
  match m st with
  | (inr a, st') => k a st'
  | (inl e, st') => (inl e, st')
  end.

Module Run.

Definition throw {A} (e : js_error) : M A := fun st => (inl e, st).

(** [try { m } catch (err) { handler(err) }] *)
Definition try_catch {A} (m : M A) (handler : js_error -> M A) : M A :=
  fun st =>
    match m st with
    | (inr a, st') => (inr a, st')
    | (inl e, st') => handler e st'
    end.

(** A pure step that may throw. *)
Definition lift {A} (r : js_error + A) : M A := fun st => (r, st).

(** [fs.unlink(path)] of a file just written. *)
Definition remove (path : jsstr) : M unit := fun st =>
  (inr tt, {| files := delete path (files st); written := written st;
              console := console st;
              model_calls := model_calls st; clock_reads := clock_reads st |}).

Definition log (l : log_entry) : M unit := fun st =>
  (inr tt, {| files := files st; written := written st;
              console := console st ++ [l];
              model_calls := model_calls st; clock_reads := clock_reads st |}).

Section World.

Variable w : world.

(** [Date.now()], [new Date()] *)
Definition now : M Z := fun st =>
  (inr (clock w (clock_reads st)),
   {| files := files st; written := written st; console := console st;
      model_calls := model_calls st; clock_reads := S (clock_reads st) |}).

(** [fs.writeFileSync(path, c)], [await createBlob({ name: path, data: c })] *)
Definition write (path : jsstr) (c : content) : M unit := fun st =>
  match write_error w path with
  | Some e => (inl e, st)
  | None =>
      (inr tt, {| files := <[path := c]> (files st);
                  written := written st ++ [(path, c)];
                  console := console st;
                  model_calls := model_calls st; clock_reads := clock_reads st |})
  end.

(** [fs.readFileSync(path)] *)
Definition read (path : jsstr) : M content := fun st =>
  match files st !! path with
  | Some c => (inr c, st)
  | None =>
      (inl (CodedError Texts.ENOENT Texts.no_such_file), st)
  end.

(** [await model.generateContent([{ text: prompt }, { inlineData }])],
    then the text of the response. *)
Definition ask_model (prompt : jsstr) (image : content) (mimeType : jsstr) : M jsstr :=
  fun st =>
    (generateContent w prompt image mimeType,
     {| files := files st; written := written st; console := console st;
        model_calls := S (model_calls st); clock_reads := clock_reads st |}).

(** [err.message] *)
Definition message (e : js_error) : jsstr :=
  match e with
  | Error m => m
  | Thrown t => error_text w t
  | CodedError _ m => m
  end.

End World.

(** [x || dflt] on strings *)
Definition or_text (x dflt : jsstr) : jsstr :=
  match x with [] => dflt | _ => x end.

End Run.

(** ** Paths *)

Module Path.

(** [path.join(dir, name)] for a name that has no separator and is
    neither [.] nor [..]: the names joined below all end in an
    extension that follows a sanitized base. *)
Definition join (dir name : jsstr) : jsstr := dir ++ [47] ++ name.

Fixpoint span_no_dot (s : jsstr) : jsstr * jsstr :=
  match s with
  | c :: s' =>
      if c =? 46 then ([], s)
      else let '(a, r) := span_no_dot s' in (c :: a, r)
  | [] => ([], [])
  end.

(** [path.extname(name)] for a name without separator: from the last
    point on; nothing when there is no point, when the only point
    comes first, or when the name is two points. *)
Definition extname (name : jsstr) : jsstr :=
  match span_no_dot (rev name) with
  | (_, []) => []
  | (_, [_]) => []
  | ([], [_; 46]) => []
  | (after, _ :: _) => 46 :: rev after
  end.

(** [path.parse(name).name]: the name without its extension. *)
Definition name_of (name : jsstr) : jsstr :=
  take (length name - length (extname name)) name.

End Path.

(** ** Requests and responses *)

(** The file part of a multipart request. *)
Record upload := {
  originalname : jsstr;
  mimetype : jsstr;
  bytes : list N
}.

(** [req.file], as multer's disk storage leaves it. *)
Record req_file := {
  path : jsstr;
  file_mimetype : jsstr;
  filename : jsstr
}.

(** How Express ends a request: a handler sent a status and a JSON
    body, or a middleware passed an error on, which Express's own
    error handler answers. *)
Inductive outcome :=
| Sent (status : N) (body : JSON)
| Unhandled (e : js_error).

(** The event of a Netlify function and what the function returns. *)
Record event := {
  httpMethod : jsstr;
  isBase64Encoded : bool;
  event_body : option jsstr
}.

Inductive response_body :=
| Text (s : jsstr)
| Stringified (v : JSON).      (* JSON.stringify(v) *)

Record response := {
  statusCode : N;
  headers : list (jsstr * jsstr);
  body : response_body
}.


Module Call.

(** The receiver of a call [x.method(...)] of a String method: a
    string goes through, on [undefined] and [null] the property read
    throws, any other value has no such function. *)
Definition string_method (method : jsstr) (x : jsval) : js_error + jsstr :=
  match x with
  | Some (JStr s) => inr s
  | None | Some JNull => inl (Thrown (NullProperty method))
  | Some _ => inl (Thrown (NotAFunction method))
  end.

(** [{ error: text }] *)
Definition error_body (text : jsstr) : JSON := JObj [(Keys.error, JStr text)].

End Call.

(** ** server.js *)

Module Server.

Definition uploadsDir : jsstr := Eval vm_compute in Str.lit "uploads".
Definition reportsDir : jsstr := Eval vm_compute in Str.lit "reports".
Definition metaDir : jsstr := Eval vm_compute in Path.join reportsDir (Str.lit "meta").

Definition allowedMimeTypes : gset jsstr :=
  {[ Texts.image_jpeg; Texts.image_jpg; Texts.image_png ]}.

(** [limits: { fileSize: 10 * 1024 * 1024 }] *)
Definition fileSize : N := 10 * 1024 * 1024.

(** The bytes of a file that arrive before the limit stops it. *)
Definition truncated (bytes : list N) : list N :=
  take (N.to_nat fileSize) bytes.

(** The [filename] callback of the disk storage. *)
Definition storage_filename (time : Z) (file : upload) : jsstr :=
  let safeOriginal := Str.sanitize (originalname file) in
  let ext := Run.or_text (Path.extname safeOriginal) Texts.dot_jpg in
  Texts.crop_ ++ Str.of_Z time ++ ext.

(** [fileFilter]: [cb(null, true)] or [cb(new Error(...))]. *)
Definition fileFilter (file : upload) : js_error + bool :=
  if bool_decide (mimetype file ∈ allowedMimeTypes) then inr true
  else inl (Error Texts.only_images).

Definition buildAnalysisPrompt : jsstr :=
  Eval vm_compute in
  Str.lit "You are an expert agronomist. Analyze the provided crop image for disease detection. " ++
  Str.lit "Identify the most likely disease, list practical treatments/medicines (brand-agnostic when possible), " ++
  Str.lit "provide a concise description, and list likely causes. " ++
  Str.lit "Return a STRICT JSON object with keys: disease (string), medicines (string[]), description (string), causes (string[]). " ++
  Str.lit "No markdown or extra commentary.".

Section World.

Variable w : world.

(** [upload.single("image")], multer's middleware with the options
    of the source. A request without a file part goes on with no
    [req.file]. The file filter is asked before anything is
    stored, and its error ends the request. The storage then names
    the file and writes it under the uploads directory; of a
    file longer than the size limit only the first [fileSize]
    bytes arrive, the request ends with multer's LIMIT_FILE_SIZE
    error and the truncated file is removed again. *)
Definition upload_single (part : option upload) : M (option req_file) :=
  match part with
  | None => mret None
  | Some file =>
      _ ← Run.lift (fileFilter file);
      time ← Run.now w;
      let filename := storage_filename time file in
      let path := Path.join uploadsDir filename in
      if fileSize <? N.of_nat (length (bytes file)) then
        Run.write w path (Bytes (truncated (bytes file)));;
        Run.remove path;;
        Run.throw (CodedError Texts.LIMIT_FILE_SIZE Texts.file_too_large)
      else
        Run.write w path (Bytes (bytes file));;
        mret (Some {| path := path; file_mimetype := mimetype file;
                      filename := filename |})
  end.

Definition analyzeWithGemini (imagePath mimeType : jsstr) : M AnalysisResult :=
  if api_key_set w then
    imageBuffer ← Run.read imagePath;
    text ← Run.ask_model w buildAnalysisPrompt imageBuffer mimeType;
    Run.lift (AnalysisText.interpret text)
  else Run.throw (Error Texts.no_key).

(** The handler of POST /api/analyze. *)
Definition analyze_handler (file : option req_file) : M (N * JSON) :=
  Run.try_catch
    (match file with
     | None => mret (400, Call.error_body Texts.no_image)
     | Some f =>
         analysis ← analyzeWithGemini (path f) (file_mimetype f);
         timestamp ← Run.now w;
         let metaFile :=
           Path.join metaDir (Path.name_of (filename f) ++ Texts.dot_json) in
         Run.write w metaFile (AnalysisMeta timestamp (filename f) analysis);;
         mret (200,
               JObj [ (Keys.success, JBool true);
                      (Keys.imageFilename, JStr (filename f));
                      (Keys.imageUrl, JStr (Texts.uploads_url ++ filename f));
                      (Keys.analysis, Analysis.to_json analysis) ])
     end)
    (fun err =>
       Run.log (LogError err);;
       mret (500, Call.error_body
                    (Run.or_text (Run.message w err) Texts.analysis_failed))).

(** POST /api/analyze: the middleware, then the handler. *)
Definition post_analyze (part : option upload) (st : state) : outcome * state :=
  match upload_single part st with
  | (inl e, st') => (Unhandled e, st')
  | (inr file, st') =>
      match analyze_handler file st' with
      | (inr (status, body), st'') => (Sent status body, st'')
      | (inl e, st'') => (Unhandled e, st'')
      end
  end.

(** [(baseName || `analysis_${Date.now()}`)]: the clock is read
    only when no base name is given. *)
Definition base_name_or_generated (baseName : jsval) : M jsval :=
  if Js.truthy baseName then mret baseName
  else (t ← Run.now w; mret (Some (JStr (Texts.analysis_ ++ Str.of_Z t)))).

(** [const safeBase = (baseName || ...).replace(/[^a-zA-Z0-9_.-]/g, "_")] *)
Definition safeBase (baseName : jsval) : M jsstr :=
  name ← base_name_or_generated baseName;
  name ← Run.lift (Call.string_method Texts.replace name);
  mret (Str.sanitize name).

(** The handler of POST /api/save-report; [reqBody] is [req.body]. *)
Definition save_report_handler (reqBody : jsval) : M (N * JSON) :=
  Run.try_catch
    (let payload := if Js.truthy reqBody then default (JObj []) reqBody else JObj [] in
     pdfDataUrl ← Run.lift (Js.get payload Keys.pdfDataUrl);
     baseName ← Run.lift (Js.get payload Keys.baseName);
     analysis ← Run.lift (Js.get payload Keys.analysis);
     imageFilename ← Run.lift (Js.get payload Keys.imageFilename);
     if negb (Js.truthy pdfDataUrl) then mret (400, Call.error_body Texts.invalid_pdf)
     else
       url ← Run.lift (Call.string_method Texts.startsWith pdfDataUrl);
       if negb (Str.startsWith Texts.pdf_prefix url)
       then mret (400, Call.error_body Texts.invalid_pdf)
       else
         let base64 := Str.replace_first Texts.pdf_prefix [] url in
         safeBase ← safeBase baseName;
         let pdfPath := Path.join reportsDir (safeBase ++ Texts.dot_pdf) in
         Run.write w pdfPath (Base64 base64);;
         match analysis with
         | Some a =>
             if Js.truthy analysis then
               Run.write w (Path.join metaDir (safeBase ++ Texts.dot_json))
                         (ReportMeta a imageFilename)
             else mret tt
         | None => mret tt
         end;;
         mret (200,
               JObj [ (Keys.success, JBool true);
                      (Keys.reportUrl,
                       JStr (Texts.reports_url ++ safeBase ++ Texts.dot_pdf)) ]))
    (fun err =>
       Run.log (LogError err);;
       mret (500, Call.error_body Texts.save_failed)).

End World.

End Server.

(** ** netlify/functions *)

Module Netlify.

Definition json_headers : list (jsstr * jsstr) :=
  [(Texts.content_type, Texts.application_json)].

(** [event.isBase64Encoded ? Buffer.from(body, "base64").toString("utf8") : body],
    where [Buffer.from] refuses [null]. *)
Definition raw_body (w : world) (ev : event) (body : option jsstr)
  : js_error + option jsstr :=
  if isBase64Encoded ev then
    match body with
    | Some b => inr (Some (utf8_of_base64 w b))
    | None => inl (Thrown InvalidArgument)
    end
  else inr body.

(** [JSON.parse(text)] with its SyntaxError. *)
Definition JSON_parse (text : jsstr) : js_error + JSON :=
  match Json.parse text with
  | Some v => inr v
  | None => inl (Thrown JsonSyntax)
  end.

Fixpoint span_no_semicolon (s : jsstr) : jsstr * jsstr :=
  match s with
  | c :: s' =>
      if c =? 59 then ([], s)
      else let '(a, r) := span_no_semicolon s' in (c :: a, r)
  | [] => ([], [])
  end.

(** [s.replace(/^data:[^;]+;base64,/, '')]: the greedy class stops
    at the first semicolon, which has to start [;base64,]. *)
Definition strip_data_url (s : jsstr) : jsstr :=
  if Str.startsWith Texts.data_ s then
    match span_no_semicolon (drop 5 s) with
    | (_ :: _, r) =>
        if Str.startsWith Texts.base64_ r then drop 8 r else s
    | ([], _) => s
    end
  else s.

(** [s.replace(/\.[^.]+$/, '')]: the last point and what follows it
    are removed, when something follows it. *)
Definition strip_extension (s : jsstr) : jsstr :=
  match Path.span_no_dot (rev s) with
  | (_ :: _, 46 :: before) => rev before
  | _ => s
  end.

(** *** analyze.js *)
Module Analyze.

Definition allowed : gset jsstr :=
  {[ Texts.image_jpeg; Texts.image_jpg; Texts.image_png ]}.

(** [allowed.has(mimeType)] *)
Definition allowed_has (mimeType : jsval) : bool :=
  match mimeType with
  | Some (JStr m) => bool_decide (m ∈ allowed)
  | _ => false
  end.

Definition buildPrompt : jsstr :=
  Eval vm_compute in
  Str.lit "You are an expert agronomist. Analyze the provided crop image for disease detection. " ++
  Str.lit "Identify the most likely disease, list practical treatments/medicines, " ++
  Str.lit "provide a concise description, and list likely causes. " ++
  Str.lit "Return STRICT JSON with keys: disease (string), medicines (string[]), description (string), causes (string[]).".

(** The text handed to [JSON.parse]: here the answer is trimmed
    first, and the fenced text or the answer is trimmed again. *)
Definition extract (text : jsstr) : jsstr :=
  let text := Str.trim text in
  Str.trim (match Fence.search text with
            | Some body => body
            | None => text
            end).

Section World.

Variable w : world.

(** [(originalName || `crop_${timestamp}.png`)] *)
Definition original_or_generated (originalName : jsval) (timestamp : Z) : jsval :=
  if Js.truthy originalName then originalName
  else Some (JStr (Texts.crop_ ++ Str.of_Z timestamp ++ Texts.dot_png)).

Definition bad_request (text : jsstr) : response :=
  {| statusCode := 400; headers := json_headers;
     body := Stringified (Call.error_body text) |}.

(** The part of the handler after the request body is parsed. *)
Definition analyze_payload (payload : JSON) : M response :=
  let payload := if Js.truthy (Some payload) then payload else JObj [] in
  imageDataUrl ← Run.lift (Js.get payload Keys.imageDataUrl);
  mimeType ← Run.lift (Js.get payload Keys.mimeType);
  originalName ← Run.lift (Js.get payload Keys.originalName);
  if negb (Js.truthy imageDataUrl) || negb (Js.truthy mimeType)
  then mret (bad_request Texts.missing_image)
  else if negb (allowed_has mimeType)
  then mret (bad_request Texts.only_images)
  else
    url ← Run.lift (Call.string_method Texts.replace imageDataUrl);
    let base64 := strip_data_url url in
    text ← Run.ask_model w buildPrompt (Base64 base64)
             (Analysis.string_or [] mimeType);
    analysis ← Run.lift (AnalysisText.of_json_text (extract text));
    timestamp ← Run.now w;
    name ← Run.lift (Call.string_method Texts.replace
                       (original_or_generated originalName timestamp));
    let safeName := Str.sanitize name in
    Run.try_catch
      (Run.write w (Texts.uploads_ ++ safeName) (Base64 base64);;
       stamp ← Run.now w;
       Run.write w (Texts.meta_ ++ strip_extension safeName ++ Texts.dot_json)
                 (AnalysisMeta stamp safeName analysis))
      (fun e => Run.log (LogWarn e));;
    mret {| statusCode := 200; headers := json_headers;
            body := Stringified
                      (JObj [ (Keys.success, JBool true);
                              (Keys.imageFilename, JStr safeName);
                              (Keys.analysis, Analysis.to_json analysis) ]) |}.

Definition handler (ev : event) : M response :=
  Run.try_catch
    (if negb (Str.eqb (httpMethod ev) Texts.POST)
     then mret {| statusCode := 405; headers := [];
                  body := Text Texts.method_not_allowed |}
     else
       raw ← Run.lift (raw_body w ev (Some (default [] (event_body ev))));
       let raw := default [] raw in
       match Json.parse raw with
       | None =>
           Run.log (LogError (Thrown JsonSyntax));;
           Run.log (LogText (take 200 raw));;
           mret {| statusCode := 400; headers := json_headers;
                   body := Stringified
                             (JObj [ (Keys.error, JStr Texts.expected_json);
                                     (Keys.details,
                                      JStr (error_text w JsonSyntax)) ]) |}
       | Some payload => analyze_payload payload
       end)
    (fun err =>
       mret {| statusCode := 500; headers := [];
               body := Stringified
                         (Call.error_body
                            (Run.or_text (Run.message w err)
                                         Texts.analysis_failed)) |}).

End World.

End Analyze.

(** *** save-report.js *)
Module SaveReport.

Section World.

Variable w : world.

(** [(baseName || `analysis_${Date.now()}`)] *)
Definition base_name_or_generated (baseName : jsval) : M jsval :=
  if Js.truthy baseName then mret baseName
  else (t ← Run.now w; mret (Some (JStr (Texts.analysis_ ++ Str.of_Z t)))).

(** [const safeBase = (baseName || ...).replace(/[^a-zA-Z0-9_.-]/g, "_")] *)
Definition safeBase (baseName : jsval) : M jsstr :=
  name ← base_name_or_generated baseName;
  name ← Run.lift (Call.string_method Texts.replace name);
  mret (Str.sanitize name).

(** The inner try block: the document, then the metadata. *)
Definition save_blobs (pdfPath safeBase base64 : jsstr)
           (analysis imageFilename : jsval) : M unit :=
  Run.write w pdfPath (Base64 base64);;
  match analysis with
  | Some a =>
      if Js.truthy analysis then
        Run.write w (Texts.meta_ ++ safeBase ++ Texts.dot_json)
                  (ReportMeta a imageFilename)
      else mret tt
  | None => mret tt
  end.

Definition handler (ev : event) : M response :=
  Run.try_catch
    (if negb (Str.eqb (httpMethod ev) Texts.POST)
     then mret {| statusCode := 405; headers := [];
                  body := Text Texts.method_not_allowed |}
     else
       bodyRaw ← Run.lift (raw_body w ev (event_body ev));
       payload ← Run.lift
                   (JSON_parse (Run.or_text (default [] bodyRaw) Texts.empty_object));
       pdfDataUrl ← Run.lift (Js.get payload Keys.pdfDataUrl);
       baseName ← Run.lift (Js.get payload Keys.baseName);
       analysis ← Run.lift (Js.get payload Keys.analysis);
       imageFilename ← Run.lift (Js.get payload Keys.imageFilename);
       if negb (Js.truthy pdfDataUrl)
       then mret {| statusCode := 400; headers := [];
                    body := Stringified (Call.error_body Texts.invalid_pdf) |}
       else
         url ← Run.lift (Call.string_method Texts.startsWith pdfDataUrl);
         if negb (Str.startsWith Texts.pdf_prefix url)
         then mret {| statusCode := 400; headers := [];
                      body := Stringified (Call.error_body Texts.invalid_pdf) |}
         else
           let base64 := Str.replace_first Texts.pdf_prefix [] url in
           safeBase ← safeBase baseName;
           let pdfPath := Texts.reports_ ++ safeBase ++ Texts.dot_pdf in
           Run.try_catch
             (save_blobs pdfPath safeBase base64 analysis imageFilename)
             (fun e => Run.log (LogWarn e));;
           mret {| statusCode := 200; headers := json_headers;
                   body := Stringified
                             (JObj [ (Keys.success, JBool true);
                                     (Keys.reportUrl,
                                      JStr (Texts.blobs_url ++ pdfPath)) ]) |})
    (fun err =>
       mret {| statusCode := 500; headers := [];
               body := Stringified (Call.error_body Texts.save_failed) |}).

End World.

End SaveReport.

End Netlify.

(** ** Properties stated of the handlers *)

Module Spec.

(** [v.k] when [v] is not [null]. *)
Definition field (v : JSON) (k : jsstr) : jsval :=
  match v with
  | JObj ms => Js.lookup_member k ms
  | _ => None
  end.

(** A parsed field is absent, no array, or an array of strings. *)
Definition strings_only (x : jsval) : bool :=
  match x with
  | Some (JArr l) => forallb Analysis.is_string l
  | _ => true
  end.

(** Normalization returns an analysis whose two lists hold strings. *)
Definition normalizes_to_strings (v : JSON) : Prop :=
  exists r, Analysis.normalize v = inr r /\ Analysis.lists_of_strings r = true.

(** [req.body || {}] *)
Definition body_or_empty (reqBody : jsval) : JSON :=
  if Js.truthy reqBody then default (JObj []) reqBody else JObj [].

(** The document payload is a string that begins with the PDF
    data-URL prefix. *)
Definition pdf_payload (x : jsval) : bool :=
  match x with
  | Some (JStr s) => Str.startsWith Texts.pdf_prefix s
  | _ => false
  end.

(** The document payload is missing or falsy, or it is a string. *)
Definition text_or_missing (x : jsval) : bool :=
  match x with
  | Some (JStr _) => true
  | _ => negb (Js.truthy x)
  end.

(** The base of the document's name: the base name of the request
    with every character outside [a-zA-Z0-9_.-] replaced by an
    underscore, or [analysis_] and the time when the request names
    none; [None] when the base name is neither a string nor falsy. *)
Definition expected_base (baseName : jsval) (time : Z) : option jsstr :=
  if Js.truthy baseName then
    match baseName with
    | Some (JStr n) => Some (Str.sanitize n)
    | _ => None
    end
  else Some (Texts.analysis_ ++ Str.of_Z time).

(** The names under which the Express server stores a report and
    its metadata. *)
Definition pdf_key (base : jsstr) : jsstr :=
  Path.join Server.reportsDir (base ++ Texts.dot_pdf).

Definition meta_key (base : jsstr) : jsstr :=
  Path.join Server.metaDir (base ++ Texts.dot_json).

(** The payload of a Netlify event: the request is a POST, its
    body can be read and is a JSON text. *)
Definition event_payload (w : world) (ev : event) : option JSON :=
  if Str.eqb (httpMethod ev) Texts.POST then
    match Netlify.raw_body w ev (event_body ev) with
    | inr bodyRaw => Json.parse (Run.or_text (default [] bodyRaw) Texts.empty_object)
    | inl _ => None
    end
  else None.

(** The names of the blobs of a report and of its metadata. *)
Definition pdf_blob (base : jsstr) : jsstr :=
  Texts.reports_ ++ base ++ Texts.dot_pdf.

Definition meta_blob (base : jsstr) : jsstr :=
  Texts.meta_ ++ base ++ Texts.dot_json.

(** What a save-report request does to the archive: nothing, or it
    stores the document, or the document and then the metadata. *)
Inductive archive_change (before after : state) (pdfPath metaPath : jsstr) : Prop :=
| Unchanged :
    files after = files before ->
    written after = written before ->
    archive_change before after pdfPath metaPath
| DocumentOnly (base64 : jsstr) :
    files after = <[pdfPath := Base64 base64]> (files before) ->
    written after = written before ++ [(pdfPath, Base64 base64)] ->
    archive_change before after pdfPath metaPath
| DocumentAndMeta (base64 : jsstr) (a : JSON) (i : jsval) :
    files after =
      <[metaPath := ReportMeta a i]> (<[pdfPath := Base64 base64]> (files before)) ->
    written after =
      written before ++ [(pdfPath, Base64 base64); (metaPath, ReportMeta a i)] ->
    archive_change before after pdfPath metaPath.

(** The request stored a document under [p]. *)
Definition stores_document (before after : state) (p : jsstr) : Prop :=
  exists new text,
    written after = written before ++ new /\ (p, Base64 text) ∈ new.

(** The scanner of [JSON.parse], started in mode [m], reads all of
    [s] without refusing a character. *)
Fixpoint alive (m : mode) (s : jsstr) : bool :=
  match s with
  | [] => true
  | c :: s' =>
      match Json.step m c with
      | Some (m', _) => alive m' s'
      | None => false
      end
  end.

(** Some mode of the scanner reads all of [s]: [s] is a piece of a
    text that the scanner accepts. *)
Definition scannable (s : jsstr) : Prop := exists m, alive m s = true.

End Spec.

(** ** Sample requests *)

Module Sample.

(** A world in which the model answers [{}] and the metadata
    directory cannot be written. *)
Definition meta_path : jsstr :=
  Eval vm_compute in Str.lit "reports/meta/crop_1700000000000.json".

Definition EACCES : js_error :=
  CodedError (Str.lit "EACCES") (Str.lit "EACCES: permission denied").

Definition read_only_meta : world :=
  {| clock := fun n => (1700000000000 + Z.of_nat n)%Z;
     api_key_set := true;
     generateContent := fun _ _ _ => inr (Str.lit "{}");
     write_error := fun p => if Str.eqb p meta_path then Some EACCES else None;
     error_text := fun _ => Str.lit "TypeError";
     utf8_of_base64 := fun s => s |}.

(** A world in which nothing fails; the model answers [answer]. *)
Definition healthy (answer : jsstr) : world :=
  {| clock := fun n => (1700000000000 + Z.of_nat n)%Z;
     api_key_set := true;
     generateContent := fun _ _ _ => inr answer;
     write_error := fun _ => None;
     error_text := fun _ => Str.lit "TypeError";
     utf8_of_base64 := fun s => s |}.

(** A world in which no blob can be written. *)
Definition no_blobs (answer : jsstr) : world :=
  {| clock := fun n => (1700000000000 + Z.of_nat n)%Z;
     api_key_set := true;
     generateContent := fun _ _ _ => inr answer;
     write_error := fun _ => Some (Error (Str.lit "Blobs unavailable"));
     error_text := fun _ => Str.lit "TypeError";
     utf8_of_base64 := fun s => s |}.

Definition leaf : upload :=
  {| originalname := Str.lit "leaf.jpg"; mimetype := Str.lit "image/jpeg";
     bytes := [255; 216; 255; 224] |}.

Definition gif : upload :=
  {| originalname := Str.lit "notes.gif"; mimetype := Str.lit "image/gif";
     bytes := [71; 73; 70] |}.

(** A PNG of 10 MB and one byte. *)
Definition big : upload :=
  {| originalname := Str.lit "field.png"; mimetype := Str.lit "image/png";
     bytes := replicate (N.to_nat 10485761) 0%N |}.

(** [req.file] and the state after multer stored a JPEG. *)
Definition stored_leaf : req_file :=
  {| path := Str.lit "uploads/crop_1700000000000.jpg";
     file_mimetype := Str.lit "image/jpeg";
     filename := Str.lit "crop_1700000000000.jpg" |}.

Definition after_upload : state :=
  {| files := {[ Str.lit "uploads/crop_1700000000000.jpg" := Bytes [255; 216; 255; 224] ]};
     written := [(Str.lit "uploads/crop_1700000000000.jpg", Bytes [255; 216; 255; 224])];
     console := []; model_calls := 0; clock_reads := 1 |}.

Definition png : upload :=
  {| originalname := Str.lit "my field.PNG"; mimetype := Str.lit "image/png";
     bytes := [137; 80; 78; 71] |}.

(** The fenced answer of the first scenario of the specification. *)
Definition blight_text : jsstr :=
  Eval vm_compute in
  Str.json_lit "{'disease':'Leaf Blight','medicines':['Copper spray'],'description':'Fungal infection','causes':['High humidity']}".

Definition blight_answer : jsstr :=
  Eval vm_compute in [96; 96; 96] ++ Str.lit "json" ++ [10] ++ blight_text ++ [10; 96; 96; 96].

Definition blight : AnalysisResult :=
  {| disease := Str.lit "Leaf Blight";
     medicines := [JStr (Str.lit "Copper spray")];
     description := Str.lit "Fungal infection";
     causes := [JStr (Str.lit "High humidity")] |}.

Definition fresh : state :=
  {| files := ∅; written := []; console := []; model_calls := 0; clock_reads := 0 |}.

Definition defaults : AnalysisResult :=
  {| disease := Analysis.Unknown; medicines := []; description := []; causes := [] |}.

Definition post (text : jsstr) : event :=
  {| httpMethod := Texts.POST; isBase64Encoded := false; event_body := Some text |}.

(** A save-report request with a document, a base name that needs
    sanitizing and an analysis. *)
Definition report_text : jsstr :=
  Eval vm_compute in
  Str.json_lit "{'pdfDataUrl':'data:application/pdf;base64,JVBERi0=','baseName':'my report/1','analysis':{'disease':'Rust'},'imageFilename':'crop_1.jpg'}".

Definition report_request : JSON :=
  JObj [ (Keys.pdfDataUrl, JStr (Str.lit "data:application/pdf;base64,JVBERi0="));
         (Keys.baseName, JStr (Str.lit "my report/1"));
         (Keys.analysis, JObj [(Analysis.k_disease, JStr (Str.lit "Rust"))]);
         (Keys.imageFilename, JStr (Str.lit "crop_1.jpg")) ].

(** A save-report request whose document payload is the number 5. *)
Definition number_request : JSON := JObj [(Keys.pdfDataUrl, JNum 5 0)].

Definition number_text : jsstr :=
  Eval vm_compute in Str.json_lit "{'pdfDataUrl':5}".

(** The scenario of the specification: a plain-text data URL. *)
Definition plain_text_request : JSON :=
  JObj [(Keys.pdfDataUrl, JStr (Str.lit "data:text/plain;base64,AAAA"))].

End Sample.

(** ** Changes of the state, and names in the archive *)

Module Store.

(** The state after [path] is written with [c]. *)
Definition put (path : jsstr) (c : content) (st : state) : state :=
  {| files := <[path := c]> (files st);
     written := written st ++ [(path, c)];
     console := console st;
     model_calls := model_calls st; clock_reads := clock_reads st |}.

(** The state after a line on the console. *)
Definition logged (l : log_entry) (st : state) : state :=
  {| files := files st; written := written st;
     console := console st ++ [l];
     model_calls := model_calls st; clock_reads := clock_reads st |}.

(** The state after a reading of the clock. *)
Definition tick (st : state) : state :=
  {| files := files st; written := written st; console := console st;
     model_calls := model_calls st; clock_reads := S (clock_reads st) |}.

(** The state after a call of the model. *)
Definition asked (st : state) : state :=
  {| files := files st; written := written st; console := console st;
     model_calls := S (model_calls st); clock_reads := clock_reads st |}.

(** The state after the base of a report's name is chosen: the
    clock is read when the request names none. *)
Definition after_base (baseName : jsval) (st : state) : state :=
  if Js.truthy baseName then st else tick st.

(** Where the Express server stores an upload received at [t], and
    the metadata of its analysis. *)
Definition upload_path (t : Z) (file : upload) : jsstr :=
  Path.join Server.uploadsDir (Server.storage_filename t file).

Definition analysis_meta_path (t : Z) : jsstr :=
  Path.join Server.metaDir (Texts.crop_ ++ Str.of_Z t ++ Texts.dot_json).

(** The bytes of the document of a save-report request. *)
Definition document (url : jsstr) : content :=
  Base64 (drop (length Texts.pdf_prefix) url).

(** The request is within what the upload receiver accepts. *)
Definition acceptable (file : upload) : Prop :=
  mimetype file ∈ Server.allowedMimeTypes
  /\ (N.of_nat (length (bytes file)) <= Server.fileSize)%N.

End Store.

(** ** An image beyond the size limit, as the Netlify function gets it *)

Module Oversized.

(** [Buffer.from(s, "base64").length] for a text of base64 digits
    without padding whose length is a multiple of four: three bytes
    for every four digits. *)
Definition decoded_length (s : jsstr) : N := N.of_nat (length s) / 4 * 3.

(** 13981016 times the digit [A]: 10 MB and two bytes, all zero. *)
Definition base64 : jsstr := replicate (N.to_nat 13981016) 65.

Definition url : jsstr := Str.lit "data:image/png;base64," ++ base64.

(** The parsed body of the request. *)
Definition members : list (jsstr * JSON) :=
  [ (Keys.imageDataUrl, JStr url);
    (Keys.mimeType, JStr Texts.image_png);
    (Keys.originalName, JStr (Str.lit "field.png")) ].

End Oversized.

(** ** Save-report requests with and without a base name *)

Module Report.

Definition pdf_url : jsstr :=
  Eval vm_compute in Str.lit "data:application/pdf;base64,JVBERi0=".

(** A request that names no base. *)
Definition unnamed : JSON := JObj [(Keys.pdfDataUrl, JStr pdf_url)].

Definition unnamed_text : jsstr :=
  Eval vm_compute in
  Str.json_lit "{'pdfDataUrl':'data:application/pdf;base64,JVBERi0='}".

End Report.

(** ** public/script.js *)

Module Client.

(** [isAllowed(file)]: the type of the chosen file is one of the
    three of the array literal. *)
Definition isAllowed (type : jsstr) : bool :=
  existsb (Str.eqb type) [Texts.image_jpeg; Texts.image_jpg; Texts.image_png].

End Client.

(** ** public/script.js: the image of the report *)

Module Pdf.

(** [const margin = 40] *)
Definition margin : float := 40%float.

(** [const maxW = 555 - margin], [const maxH = 260] *)
Definition maxW : float := (555 - margin)%float.
Definition maxH : float := 260%float.

(** [Math.min(a, b)]: [NaN] when one of the two is; the smaller one
    if not, where the negative zero counts as smaller than the
    positive one. *)
Definition min (a b : float) : float :=
  if PrimFloat.is_nan a || PrimFloat.is_nan b then PrimFloat.nan
  else if PrimFloat.ltb a b then a
  else if PrimFloat.ltb b a then b
  else if PrimFloat.is_zero a && PrimFloat.get_sign a then a
  else b.

(** [img.width], [img.height]: an unsigned long, as a Number. *)
Definition number (n : Z) : float := PrimFloat.of_uint63 (Uint63.of_Z n).

(** [const scale = Math.min(maxW / imgW, maxH / imgH)] *)
Definition scale (imgW imgH : float) : float :=
  min (maxW / imgW)%float (maxH / imgH)%float.

(** [imgW = imgW * scale; imgH = imgH * scale]: the width and the
    height handed to [doc.addImage]. *)
Definition drawn (imgW imgH : float) : float * float :=
  let scale := scale imgW imgH in
  ((imgW * scale)%float, (imgH * scale)%float).

(** The rational number that a finite Number is. *)
Definition SFvalue (x : spec_float) : Q :=
  match x with
  | S754_finite s m e =>
      ((if s then - inject_Z (Z.pos m) else inject_Z (Z.pos m)) * 2 ^ e)%Q
  | _ => 0%Q
  end.

Definition value (x : float) : Q := SFvalue (Prim2SF x).

(** A positive Number of the normal range: a mantissa of 53 bits
    and an exponent. *)
Definition normal (x : float) (m : positive) (e : Z) : Prop :=
  Prim2SF x = S754_finite false m e /\ Z.pos (digits2_pos m) = 53%Z.

(** 2^-51: two roundings of binary64. *)
Definition eps : Q := (1 # 2251799813685248)%Q.

End Pdf.

(** ** Rounding to binary64: what the records of the rounding stand for *)

Module Binary64.

Local Open Scope Q_scope.

(** What a shift record stands for: the number [x] lies at its
    mantissa, plus one half when the round bit is set, plus less than
    one half, and nothing more exactly when the sticky bit is clear. *)
Definition Rep (rec : shr_record) (x : Q) : Prop :=
  exists sigma : Q,
    0 <= sigma /\ sigma < 1 # 2
    /\ (shr_s rec = false <-> sigma == 0)
    /\ x == inject_Z (shr_m rec) + (if shr_r rec then 1 # 2 else 0) + sigma.

(** The record [rec] with the exponent [e] stands for [X]. *)
Definition RepAt (rec : shr_record) (e : Z) (X : Q) : Prop :=
  (0 <= shr_m rec)%Z /\ exists x, Rep rec x /\ X == x * 2 ^ e.

(** Where the exact value lies between a mantissa and the next. *)
Definition Loc (l : location) (theta : Q) : Prop :=
  match l with
  | loc_Exact => theta == 0
  | loc_Inexact Lt => 0 < theta /\ theta < 1 # 2
  | loc_Inexact Eq => theta == 1 # 2
  | loc_Inexact Gt => 1 # 2 < theta /\ theta < 1
  end.

(** Half a unit in the last place of a number of 53 bits. *)
Definition u53 : Q := 1 # 9007199254740992.

End Binary64.

(** ** Worlds that differ in their storage *)

Module Env.

(** The world [w] with another answer to every write. *)
Definition with_write_error (w : world) (failing : jsstr -> option js_error) : world :=
  {| clock := clock w;
     api_key_set := api_key_set w;
     generateContent := generateContent w;
     write_error := failing;
     error_text := error_text w;
     utf8_of_base64 := utf8_of_base64 w |}.

(** The world [w] without the API key. *)
Definition without_key (w : world) : world :=
  {| clock := clock w;
     api_key_set := false;
     generateContent := generateContent w;
     write_error := write_error w;
     error_text := error_text w;
     utf8_of_base64 := utf8_of_base64 w |}.

(** The world [w] with a model whose every call ends with [e]. *)
Definition with_model_error (w : world) (e : js_error) : world :=
  {| clock := clock w;
     api_key_set := api_key_set w;
     generateContent := fun _ _ _ => inl e;
     write_error := write_error w;
     error_text := error_text w;
     utf8_of_base64 := utf8_of_base64 w |}.

(** Writes fail with [e] at [path], and nowhere else. *)
Definition failing_at (path : jsstr) (e : js_error) : jsstr -> option js_error :=
  fun p => if Str.eqb p path then Some e else None.

(** Every write fails with [e]. *)
Definition failing_always (e : js_error) : jsstr -> option js_error :=
  fun _ => Some e.

End Env.

(** Unfolds the monad of the handlers. *)
Ltac run :=
  unfold mbind, mret, M_bind, M_ret, Run.lift, Run.throw, Run.try_catch,
    Run.log, Run.now, Run.write, Run.read, Run.remove, Run.ask_model in *.

(** Closes a goal that asks for the answer of a handler and for
    facts about it, once the handler has run to an answer. *)
Ltac answered :=
  repeat (match goal with |- ex _ => eexists end);
  split; [reflexivity|]; cbn -[app];
  repeat split; auto; intros;
  try discriminate; try contradiction; try congruence.

(** The string functions are not unfolded on literals by [simpl]. *)
Arguments Str.lit : simpl never.
Arguments Str.startsWith : simpl never.
Arguments Str.replace_first : simpl never.
Arguments Str.sanitize : simpl never.
Arguments Str.trim : simpl never.
Arguments Str.of_Z : simpl never.
Arguments Str.eqb : simpl never.
Arguments Json.parse : simpl never.
Arguments Fence.extract : simpl never.
Arguments Fence.search : simpl never.
Arguments Path.join : simpl never.
Arguments Path.name_of : simpl never.
Arguments Netlify.strip_data_url : simpl never.
Arguments Netlify.strip_extension : simpl never.
Arguments Js.truthy : simpl never.
Arguments Server.truncated : simpl never.

(** * Checks of the string functions and of the parser *)

Example of_Z_time : Str.of_Z 1700000000123 = Str.lit "1700000000123".
Proof. vm_compute. reflexivity. Qed.

Example of_Z_zero : Str.of_Z 0 = Str.lit "0".
Proof. vm_compute. reflexivity. Qed.

Example of_Z_negative : Str.of_Z (-1050) = Str.lit "-1050".
Proof. vm_compute. reflexivity. Qed.

Example trim_both_ends : Str.trim (Str.lit "  ab c ") = Str.lit "ab c".
Proof. vm_compute. reflexivity. Qed.

Example sanitize_name :
  Str.sanitize (Str.lit "my report/1 (final).v2") = Str.lit "my_report_1__final_.v2".
Proof. vm_compute. reflexivity. Qed.

Example parse_object :
  Json.parse
    (Str.json_lit
       "{'disease':'Leaf Blight','medicines':['Copper spray'],'n':[-1.50e2, 0, true, null, {}], 'e':'aA\n'}")
  = Some (JObj [ (Str.lit "disease", JStr (Str.lit "Leaf Blight"));
                 (Str.lit "medicines", JArr [JStr (Str.lit "Copper spray")]);
                 (Str.lit "n",
                  JArr [JNum (-150) 0; JNum 0 0; JBool true; JNull; JObj []]);
                 (Str.lit "e", JStr (Str.lit "aA" ++ [10])) ]).
Proof. vm_compute. reflexivity. Qed.

Example parse_accepts :
  Json.parse (Str.lit " 12 ") = Some (JNum 12 0)
  /\ Json.parse (Str.lit "{}") = Some (JObj [])
  /\ Json.parse (Str.lit "null") = Some JNull
  /\ Json.parse (Str.lit "[[],[[]]]") = Some (JArr [JArr []; JArr [JArr []]])
  /\ Json.parse (Str.lit "1e5") = Some (JNum 1 5)
  /\ Json.parse (Str.lit "1.25E-2") = Some (JNum 125 (-4))
  /\ Json.parse (Str.json_lit "{'a':1,'a':2}")
     = Some (JObj [(Str.lit "a", JNum 1 0); (Str.lit "a", JNum 2 0)])
  /\ Json.parse (Str.json_lit "'a`bA'") = Some (JStr (Str.lit "a`bA")).
Proof. vm_compute. repeat split. Qed.

Example parse_refuses :
  Json.parse (Str.lit "not json") = None
  /\ Json.parse [] = None
  /\ Json.parse (Str.lit " [1,] ") = None
  /\ Json.parse (Str.lit "01") = None
  /\ Json.parse (Str.lit "1 2") = None
  /\ Json.parse (Str.lit "1.") = None
  /\ Json.parse (Str.lit "-") = None
  /\ Json.parse (Str.lit "nulll") = None
  /\ Json.parse (Str.lit "truefalse") = None
  /\ Json.parse (Str.lit "[true false]") = None
  /\ Json.parse (Str.lit "{'a':1}") = None
  /\ Json.parse (Str.json_lit "{'a' 1}") = None
  /\ Json.parse (Str.json_lit "'a" ++ [10] ++ Str.json_lit "b'") = None.
Proof. vm_compute. repeat split. Qed.

Example lookup_last_wins :
  Js.get (JObj [(Str.lit "a", JNum 1 0); (Str.lit "a", JNum 2 0)]) (Str.lit "a")
  = inr (Some (JNum 2 0)).
Proof. vm_compute. reflexivity. Qed.

Example extract_tagged :
  Fence.extract (Fence.wrap (Str.lit "json") (Str.lit "{}")) = Str.lit "{}".
Proof. vm_compute. reflexivity. Qed.

Example extract_capital_tag :
  Fence.extract (Fence.wrap (Str.lit "JSON") (Str.lit " {} ")) = Str.lit "{}".
Proof. vm_compute. reflexivity. Qed.

Example extract_inside_prose :
  Fence.extract (Str.lit "Here: " ++ Fence.wrap [] (Str.lit " {} ") ++ Str.lit " bye")
  = Str.lit "{}".
Proof. vm_compute. reflexivity. Qed.

Example extract_other_tag :
  Fence.extract (Fence.wrap (Str.lit "js") (Str.lit "{}"))
  = Fence.wrap (Str.lit "js") (Str.lit "{}").
Proof. vm_compute. reflexivity. Qed.

Example extname_cases :
  Path.extname (Str.lit "leaf.jpg") = Str.lit ".jpg"
  /\ Path.extname (Str.lit "leaf") = []
  /\ Path.extname (Str.lit ".leaf") = []
  /\ Path.extname (Str.lit "..") = []
  /\ Path.extname (Str.lit "...") = Str.lit "."
  /\ Path.extname (Str.lit "a.") = Str.lit "."
  /\ Path.extname (Str.lit "..a") = Str.lit ".a"
  /\ Path.extname (Str.lit "a.b.c") = Str.lit ".c"
  /\ Path.extname [] = []
  /\ Path.extname (Str.lit ".") = []
  /\ Path.name_of (Str.lit "crop_12.png") = Str.lit "crop_12"
  /\ Path.name_of (Str.lit "crop_12.") = Str.lit "crop_12".
Proof. vm_compute. repeat split. Qed.

Example strip_data_url_cases :
  Netlify.strip_data_url (Str.lit "data:image/png;base64,iVBORw0KGgo=")
  = Str.lit "iVBORw0KGgo="
  /\ Netlify.strip_data_url (Str.lit "iVBORw0KGgo=") = Str.lit "iVBORw0KGgo="
  /\ Netlify.strip_data_url (Str.lit "data:;base64,AAAA") = Str.lit "data:;base64,AAAA"
  /\ Netlify.strip_extension (Str.lit "my_leaf.v2.png") = Str.lit "my_leaf.v2"
  /\ Netlify.strip_extension (Str.lit "leaf.") = Str.lit "leaf."
  /\ Netlify.strip_extension (Str.lit "leaf") = Str.lit "leaf".
Proof. vm_compute. repeat split. Qed.

(** * The fuel of the token parser *)

(** Each of the three parsing functions consumes a token at least. *)
Lemma parser_consumes (fuel : nat) :
  (forall ts v r, Json.value fuel ts = Some (v, r) -> (length r < length ts)%nat)
  /\ (forall ts acc v r,
        Json.elements fuel ts acc = Some (v, r) -> (length r < length ts)%nat)
  /\ (forall ts acc v r,
        Json.members fuel ts acc = Some (v, r) -> (length r < length ts)%nat).
Proof.
  induction fuel as [|fuel (IHv & IHe & IHm)];
    [repeat split; intros; discriminate|].
  split; [|split].
  - intros ts v r. cbn [Json.value].
    destruct ts as [|t ts]; [discriminate|].
    destruct t; try discriminate; try (intros [= <- <-]; simpl; lia).
    + destruct ts as [|t' ts'].
      * intros H. apply IHm in H. simpl in H. lia.
      * destruct t'; try (intros H; apply IHm in H; simpl in *; lia).
        intros [= <- <-]. simpl. lia.
    + destruct ts as [|t' ts'].
      * intros H. apply IHe in H. simpl in H. lia.
      * destruct t'; try (intros H; apply IHe in H; simpl in *; lia).
        intros [= <- <-]. simpl. lia.
  - intros ts acc v r. cbn [Json.elements].
    destruct (Json.value fuel ts) as [[v' [|t r']]|] eqn:Hv; try discriminate.
    apply IHv in Hv.
    destruct t; try discriminate.
    + intros [= <- <-]. simpl in Hv. lia.
    + intros H. apply IHe in H. simpl in Hv. lia.
  - intros ts acc v r. cbn [Json.members].
    destruct ts as [|t ts]; [discriminate|]. destruct t; try discriminate.
    destruct ts as [|t ts]; [discriminate|]. destruct t; try discriminate.
    destruct (Json.value fuel ts) as [[v' [|t r']]|] eqn:Hv; try discriminate.
    apply IHv in Hv.
    destruct t; try discriminate.
    + intros [= <- <-]. simpl in *. lia.
    + intros H. apply IHm in H. simpl in *. lia.
Qed.

(** Beyond twice the number of tokens, more fuel changes nothing. *)
Lemma parser_fuel_stable (f : nat) :
  forall f', (f <= f')%nat ->
  (forall ts, (2 * length ts + 1 <= f)%nat -> Json.value f ts = Json.value f' ts)
  /\ (forall ts acc, (2 * length ts + 2 <= f)%nat ->
        Json.elements f ts acc = Json.elements f' ts acc)
  /\ (forall ts acc, (2 * length ts + 1 <= f)%nat ->
        Json.members f ts acc = Json.members f' ts acc).
Proof.
  induction f as [|f IH]; intros f' Hle;
    [repeat split; intros; lia|].
  destruct f' as [|f']; [lia|].
  destruct (IH f' ltac:(lia)) as (IHv & IHe & IHm).
  destruct (parser_consumes f') as (Cv & _ & _).
  split; [|split].
  - intros ts Hts. cbn [Json.value].
    destruct ts as [|t ts]; [reflexivity|].
    destruct t; try reflexivity.
    + destruct ts as [|t' ts']; [apply IHm; simpl in *; lia|].
      destruct t'; try reflexivity; apply IHm; simpl in *; lia.
    + destruct ts as [|t' ts']; [apply IHe; simpl in *; lia|].
      destruct t'; try reflexivity; apply IHe; simpl in *; lia.
  - intros ts acc Hts. cbn [Json.elements].
    rewrite (IHv ts) by lia.
    destruct (Json.value f' ts) as [[v [|t r]]|] eqn:Hv; try reflexivity.
    apply Cv in Hv. destruct t; try reflexivity.
    apply IHe. simpl in Hv. lia.
  - intros ts acc Hts. cbn [Json.members].
    destruct ts as [|t ts]; [reflexivity|]. destruct t; try reflexivity.
    destruct ts as [|t ts]; [reflexivity|]. destruct t; try reflexivity.
    rewrite (IHv ts) by (simpl in Hts; lia).
    destruct (Json.value f' ts) as [[v [|t r]]|] eqn:Hv; try reflexivity.
    apply Cv in Hv. destruct t; try reflexivity.
    apply IHm. simpl in *. lia.
Qed.

(** The fuel that [JSON.parse] gives the token parser is enough: any
    larger amount gives the same value. *)
Lemma parse_fuel_enough (ts : list token) (fuel : nat) :
  (2 * length ts + 2 <= fuel)%nat ->
  Json.value fuel ts = Json.value (2 * length ts + 2) ts.
Proof.
  intros H. symmetry.
  exact (proj1 (parser_fuel_stable (2 * length ts + 2) fuel H) ts ltac:(lia)).
Qed.

(** * Normalization *)

Lemma truthy_string (s : jsstr) : s <> [] -> Js.truthy (Some (JStr s)) = true.
Proof.
  intros H. unfold Js.truthy, Str.eqb. rewrite bool_decide_eq_false_2 by assumption.
  reflexivity.
Qed.

Lemma normalize_null :
  Analysis.normalize JNull = inl (Thrown (NullProperty Analysis.k_disease)).
Proof. reflexivity. Qed.

Lemma get_not_null (v : JSON) (k : jsstr) :
  v <> JNull -> Js.get v k = inr (Spec.field v k).
Proof. destruct v; simpl; congruence. Qed.

(** C1, as stated, fails: an array that the model filled with numbers
    is kept as it is, so the list of medicines is no list of strings. *)
Lemma normalize_keeps_non_strings :
  ~ Spec.normalizes_to_strings (JObj [(Analysis.k_medicines, JArr [JNum 1 0])]).
Proof.
  intros [r [Hr Hs]]. vm_compute in Hr. inversion Hr; subst r.
  vm_compute in Hs. discriminate.
Qed.

(** C1, amended: on every parsed value other than [null] the
    normalization returns; disease and description are the parsed
    strings or the defaults "Unknown" and the empty string, medicines
    and causes are the parsed arrays, kept as they are, or the empty
    list; the lists hold only strings when the parsed arrays do. *)
Theorem normalize_total (v : JSON) :
  v <> JNull ->
  exists r,
    Analysis.normalize v = inr r
    /\ disease r = match Spec.field v Analysis.k_disease with
                   | Some (JStr s) => s | _ => Analysis.Unknown end
    /\ medicines r = match Spec.field v Analysis.k_medicines with
                     | Some (JArr l) => l | _ => [] end
    /\ description r = match Spec.field v Analysis.k_description with
                       | Some (JStr s) => s | _ => [] end
    /\ causes r = match Spec.field v Analysis.k_causes with
                  | Some (JArr l) => l | _ => [] end
    /\ (Spec.strings_only (Spec.field v Analysis.k_medicines) = true ->
        Spec.strings_only (Spec.field v Analysis.k_causes) = true ->
        Analysis.lists_of_strings r = true).
Proof.
  intros Hv. unfold Analysis.normalize.
  rewrite !get_not_null by assumption.
  eexists. split; [reflexivity|]. simpl.
  repeat split.
  unfold Analysis.lists_of_strings, Spec.strings_only, Analysis.array_or_empty. simpl.
  intros Hm Hc.
  destruct (Spec.field v Analysis.k_medicines) as [[]|];
    destruct (Spec.field v Analysis.k_causes) as [[]|]; simpl in *;
    rewrite ?Hm, ?Hc; reflexivity.
Qed.

Lemma normalize_total_witness :
  exists r,
    Analysis.normalize (JObj []) = inr r
    /\ disease r = Analysis.Unknown /\ medicines r = [] /\ description r = []
    /\ causes r = [] /\ Analysis.lists_of_strings r = true.
Proof.
  destruct (normalize_total (JObj []) ltac:(discriminate))
    as [r (Hr & Hd & Hm & Hs & Hc & Hl)].
  exists r. repeat split; try assumption. apply Hl; reflexivity.
Defined.

(** * The upload receiver *)

(** C5: a file whose MIME type is outside the allowed set ends the
    request with the error of the file filter; the handler does not
    run, and the archive, the console and the count of model calls
    stay as they were. *)
Theorem disallowed_type_rejected (w : world) (file : upload) (st : state) :
  mimetype file ∉ Server.allowedMimeTypes ->
  Server.post_analyze w (Some file) st = (Unhandled (Error Texts.only_images), st).
Proof.
  intros Hm. unfold Server.post_analyze, Server.upload_single, Server.fileFilter.
  rewrite bool_decide_eq_false_2 by assumption. reflexivity.
Qed.

Lemma disallowed_type_rejected_witness :
  Server.post_analyze (Sample.healthy (Str.lit "{}")) (Some Sample.gif) Sample.fresh
  = (Unhandled (Error Texts.only_images), Sample.fresh).
Proof.
  apply (disallowed_type_rejected (Sample.healthy (Str.lit "{}")) Sample.gif Sample.fresh).
  unfold Server.allowedMimeTypes. simpl.
  rewrite !elem_of_union, !elem_of_singleton.
  intros [[H|H]|H]; vm_compute in H; discriminate.
Defined.

(** C6, amended: a file uploaded to the Express server that is longer
    than the limit of 10 MB ends the request in the
    middleware: with the error of the file filter, with the error of
    the disk when the truncated file cannot be written, or with
    multer's LIMIT_FILE_SIZE. The handler does not run and the model
    is not called. *)
Theorem oversized_upload_rejected (w : world) (file : upload) (st : state) :
  (10 * 1024 * 1024 < N.of_nat (length (bytes file)))%N ->
  exists e st',
    Server.post_analyze w (Some file) st = (Unhandled e, st')
    /\ (e = Error Texts.only_images
        \/ e = CodedError Texts.LIMIT_FILE_SIZE Texts.file_too_large
        \/ exists path, write_error w path = Some e)
    /\ model_calls st' = model_calls st.
Proof.
  intros Hsize. unfold Server.post_analyze, Server.upload_single, Server.fileFilter.
  destruct (bool_decide (mimetype file ∈ Server.allowedMimeTypes)).
  - run. cbn -[app Server.fileSize].
    assert (Hlt : (Server.fileSize <? N.of_nat (length (bytes file)))%N = true).
    { apply N.ltb_lt. exact Hsize. }
    rewrite Hlt.
    match goal with
    | |- context [write_error w ?p] => destruct (write_error w p) as [e|] eqn:Hw
    end; cbn -[app Server.fileSize]; eauto 8.
  - run. cbn -[app Server.fileSize]. eauto 8.
Qed.

Lemma oversized_upload_rejected_witness :
  exists e st',
    Server.post_analyze (Sample.healthy (Str.lit "{}")) (Some Sample.big) Sample.fresh
    = (Unhandled e, st')
    /\ (e = Error Texts.only_images
        \/ e = CodedError Texts.LIMIT_FILE_SIZE Texts.file_too_large
        \/ exists path, write_error (Sample.healthy (Str.lit "{}")) path = Some e)
    /\ model_calls st' = model_calls Sample.fresh.
Proof.
  apply (oversized_upload_rejected (Sample.healthy (Str.lit "{}")) Sample.big Sample.fresh).
  unfold Sample.big, bytes. rewrite length_replicate, N2Nat.id. reflexivity.
Defined.

(** * The analysis request *)

(** A text that is no JSON, once extracted, gives the parse failure. *)
Lemma interpret_unparsable (text : jsstr) :
  Json.parse (Fence.extract text) = None ->
  AnalysisText.interpret text = inl AnalysisText.parse_failure.
Proof.
  intros H. unfold AnalysisText.interpret, AnalysisText.of_json_text.
  rewrite H. reflexivity.
Qed.

(** C4: when the text extracted from the model's answer is no JSON,
    the handler answers 500 with the parse-failure message; the model
    was called once, and the archive is as it was before the handler
    ran: no metadata record is written. *)
Theorem unparsable_answer_fails
        (w : world) (f : req_file) (st : state) (image : content) (text : jsstr) :
  api_key_set w = true ->
  files st !! path f = Some image ->
  generateContent w Server.buildAnalysisPrompt image (file_mimetype f) = inr text ->
  Json.parse (Fence.extract text) = None ->
  Server.analyze_handler w (Some f) st =
    (inr (500, Call.error_body AnalysisText.parse_failure_message),
     {| files := files st;
        written := written st;
        console := console st ++ [LogError AnalysisText.parse_failure];
        model_calls := S (model_calls st);
        clock_reads := clock_reads st |}).
Proof.
  intros Hkey Himg Hgen Hparse.
  unfold Server.analyze_handler, Server.analyzeWithGemini.
  rewrite Hkey. run. rewrite Himg. simpl. rewrite Hgen.
  rewrite (interpret_unparsable _ Hparse). reflexivity.
Qed.

Lemma unparsable_answer_fails_witness :
  Server.analyze_handler (Sample.healthy (Str.lit "not json"))
                         (Some Sample.stored_leaf) Sample.after_upload =
    (inr (500, Call.error_body AnalysisText.parse_failure_message),
     {| files := files Sample.after_upload;
        written := written Sample.after_upload;
        console := console Sample.after_upload ++ [LogError AnalysisText.parse_failure];
        model_calls := S (model_calls Sample.after_upload);
        clock_reads := clock_reads Sample.after_upload |}).
Proof.
  apply (unparsable_answer_fails (Sample.healthy (Str.lit "not json"))
           Sample.stored_leaf Sample.after_upload
           (Bytes [255; 216; 255; 224]) (Str.lit "not json")).
  - reflexivity.
  - apply lookup_singleton_eq.
  - reflexivity.
  - vm_compute. reflexivity.
Defined.

(** When the metadata record cannot be written, the handler of the
    Express server answers 500 with the message of the write error. *)
Lemma analyze_handler_meta_write_fails
      (w : world) (f : req_file) (st : state) (image : content) (text : jsstr)
      (a : AnalysisResult) (e : js_error) :
  api_key_set w = true ->
  files st !! path f = Some image ->
  generateContent w Server.buildAnalysisPrompt image (file_mimetype f) = inr text ->
  AnalysisText.interpret text = inr a ->
  write_error w (Path.join Server.metaDir (Path.name_of (filename f) ++ Texts.dot_json))
    = Some e ->
  Server.analyze_handler w (Some f) st =
    (inr (500, Call.error_body (Run.or_text (Run.message w e) Texts.analysis_failed)),
     {| files := files st;
        written := written st;
        console := console st ++ [LogError e];
        model_calls := S (model_calls st);
        clock_reads := S (clock_reads st) |}).
Proof.
  intros Hkey Himg Hgen Hint Hw.
  unfold Server.analyze_handler, Server.analyzeWithGemini.
  rewrite Hkey. run. rewrite Himg. simpl. rewrite Hgen, Hint. simpl.
  rewrite Hw. reflexivity.
Qed.

(** C2, on the Express server: the upload of leaf.jpg is stored and
    the model's answer [{}] is normalized, but the metadata record
    cannot be written; the request is answered 500 with the message of
    the write error instead of the analysis. *)
Theorem express_meta_failure_fails_request :
  exists st',
    Server.post_analyze Sample.read_only_meta (Some Sample.leaf) Sample.fresh
    = (Sent 500 (Call.error_body (Str.lit "EACCES: permission denied")), st')
    /\ AnalysisText.interpret (Str.lit "{}") = inr Sample.defaults
    /\ model_calls st' = 1%nat
    /\ console st' = [LogError Sample.EACCES].
Proof.
  eexists. split.
  { unfold Server.post_analyze, Server.upload_single. run.
    change (Server.fileFilter Sample.leaf) with (@inr js_error bool true).
    cbv beta iota.
    change (Server.fileSize <? N.of_nat (length (bytes Sample.leaf)))%N with false.
    cbv beta iota.
    change (write_error Sample.read_only_meta
              (Path.join Server.uploadsDir
                 (Server.storage_filename
                    (clock Sample.read_only_meta (clock_reads Sample.fresh)) Sample.leaf)))
      with (@None js_error).
    cbv beta iota.
    erewrite analyze_handler_meta_write_fails
      with (image := Bytes (bytes Sample.leaf)) (text := Str.lit "{}")
           (a := Sample.defaults) (e := Sample.EACCES).
    + reflexivity.
    + reflexivity.
    + apply lookup_insert_eq.
    + reflexivity.
    + vm_compute. reflexivity.
    + vm_compute. reflexivity. }
  split; [vm_compute; reflexivity|]. split; reflexivity.
Qed.

(** The same failure on the Netlify deployment: the two blob writes
    sit in a try block of their own, a failing write is logged and the
    analysis is returned all the same. *)
Lemma netlify_analyze_tolerates_storage_failure
      (w : world) (ms : list (jsstr * JSON)) (st : state)
      (url mime name text : jsstr) (a : AnalysisResult) (e : js_error) :
  Js.lookup_member Keys.imageDataUrl ms = Some (JStr url) ->
  url <> [] ->
  Js.lookup_member Keys.mimeType ms = Some (JStr mime) ->
  mime ∈ Netlify.Analyze.allowed ->
  generateContent w Netlify.Analyze.buildPrompt
                  (Base64 (Netlify.strip_data_url url)) mime = inr text ->
  AnalysisText.of_json_text (Netlify.Analyze.extract text) = inr a ->
  Call.string_method Texts.replace
    (Netlify.Analyze.original_or_generated
       (Js.lookup_member Keys.originalName ms) (clock w (clock_reads st))) = inr name ->
  write_error w (Texts.uploads_ ++ Str.sanitize name) = Some e ->
  Netlify.Analyze.analyze_payload w (JObj ms) st =
    (inr {| statusCode := 200; headers := Netlify.json_headers;
            body := Stringified
                      (JObj [ (Keys.success, JBool true);
                              (Keys.imageFilename, JStr (Str.sanitize name));
                              (Keys.analysis, Analysis.to_json a) ]) |},
     {| files := files st;
        written := written st;
        console := console st ++ [LogWarn e];
        model_calls := S (model_calls st);
        clock_reads := S (clock_reads st) |}).
Proof.
  intros Hurl Hne Hmime Hal Hgen Ha Hname Hw.
  assert (Hmne : mime <> []).
  { intros ->. revert Hal. unfold Netlify.Analyze.allowed.
    rewrite !elem_of_union, !elem_of_singleton.
    intros [[H|H]|H]; discriminate. }
  unfold Netlify.Analyze.analyze_payload. run.
  change (Js.truthy (Some (JObj ms))) with true. simpl.
  rewrite Hurl, Hmime, !truthy_string by assumption. simpl.
  rewrite bool_decide_eq_true_2 by assumption. simpl.
  rewrite Hgen, Ha. simpl. rewrite Hname. simpl. simpl in Hw. rewrite Hw.
  reflexivity.
Qed.

Example netlify_analyze_no_blobs :
  exists st',
    Netlify.Analyze.handler
      (Sample.no_blobs (Str.lit "{}"))
      (Sample.post (Str.json_lit
         "{'imageDataUrl':'data:image/png;base64,iVBORw0KGgo=','mimeType':'image/png','originalName':'my leaf.png'}"))
      Sample.fresh
    = (inr {| statusCode := 200; headers := Netlify.json_headers;
              body := Stringified
                        (JObj [ (Keys.success, JBool true);
                                (Keys.imageFilename, JStr (Str.lit "my_leaf.png"));
                                (Keys.analysis, Analysis.to_json Sample.defaults) ]) |},
       st')
    /\ files st' = ∅ /\ model_calls st' = 1%nat.
Proof.
  eexists. split; [vm_compute; reflexivity|]. split; reflexivity.
Qed.

(** * The report store *)

Lemma falsy_string (s : jsstr) : Js.truthy (Some (JStr s)) = false -> s = [].
Proof. destruct s; [reflexivity|discriminate]. Qed.

Lemma safe_digit (c : N) : (48 <= c <= 57)%N -> Str.is_safe_char c = true.
Proof.
  intros [H1 H2]. unfold Str.is_safe_char.
  apply N.leb_le in H1. apply N.leb_le in H2. rewrite H1, H2.
  simpl. rewrite !orb_true_r. reflexivity.
Qed.

Lemma digits_rev_safe (fuel : nat) (n : N) :
  forallb Str.is_safe_char (Str.digits_rev fuel n) = true.
Proof.
  revert n. induction fuel as [|fuel IH]; intros n;
    cbn [Str.digits_rev forallb]; [reflexivity|].
  rewrite safe_digit.
  - destruct (n / 10 =? 0)%N; cbn [forallb andb]; [reflexivity|apply IH].
  - assert (H : (n mod 10 < 10)%N) by (apply N.mod_upper_bound; discriminate).
    revert H. generalize (n mod 10)%N. intros d Hd. lia.
Qed.

Lemma forallb_rev_true {A} (f : A -> bool) (l : list A) :
  forallb f l = true -> forallb f (rev l) = true.
Proof.
  rewrite !forallb_forall. intros H x Hx. apply H. apply in_rev. exact Hx.
Qed.

Lemma of_Z_safe (z : Z) : forallb Str.is_safe_char (Str.of_Z z) = true.
Proof.
  assert (HN : forall n, forallb Str.is_safe_char (Str.of_N n) = true).
  { intros n. apply forallb_rev_true, digits_rev_safe. }
  destruct z; unfold Str.of_Z; cbn [forallb]; rewrite ?HN; reflexivity.
Qed.

(** The numeral of a number denotes the number: no digit is lost. *)
Lemma digits_rev_value (fuel : nat) (n : N) :
  (n < 2 ^ N.of_nat fuel)%N ->
  Json.digits_value (rev (Str.digits_rev fuel n)) = Z.of_N n.
Proof.
  revert n. induction fuel as [|fuel IH]; intros n Hn.
  - simpl in Hn. assert (n = 0%N) as -> by lia. reflexivity.
  - cbn [Str.digits_rev rev]. unfold Json.digits_value.
    rewrite fold_left_app. cbn [fold_left].
    fold (Json.digits_value
            (rev (if (n / 10 =? 0)%N then [] else Str.digits_rev fuel (n / 10)))).
    assert (Hd : (n = 10 * (n / 10) + n mod 10)%N)
      by (apply N.div_mod; discriminate).
    assert (Hm : (n mod 10 < 10)%N) by (apply N.mod_upper_bound; discriminate).
    assert (Hq : (n / 10 < 2 ^ N.of_nat fuel)%N).
    { apply N.Div0.div_lt_upper_bound.
      rewrite Nat2N.inj_succ, N.pow_succ_r' in Hn.
      revert Hn. generalize (2 ^ N.of_nat fuel)%N. intros p Hp. lia. }
    replace (48 + n mod 10 - 48)%N with (n mod 10)%N
      by (generalize (n mod 10)%N; intros; lia).
    destruct (n / 10 =? 0)%N eqn:Hz.
    + apply N.eqb_eq in Hz. rewrite Hz in Hd. cbn [rev Json.digits_value fold_left].
      unfold Json.digits_value. cbn [fold_left].
      revert Hd. generalize (n mod 10)%N. intros d Hd. lia.
    + rewrite (IH _ Hq).
      revert Hd. generalize (n mod 10)%N (n / 10)%N. intros d q Hd. lia.
Qed.

Lemma of_N_value (n : N) : Json.digits_value (Str.of_N n) = Z.of_N n.
Proof.
  unfold Str.of_N. apply digits_rev_value.
  rewrite Nat2N.inj_succ, N2Nat.id.
  destruct n as [|p]; [reflexivity|].
  apply N.log2_spec. reflexivity.
Qed.

Lemma of_Z_value (z : Z) :
  (0 <= z)%Z -> Json.digits_value (Str.of_Z z) = z.
Proof.
  intros Hz. destruct z as [|p|p]; unfold Str.of_Z; [reflexivity| |lia].
  rewrite of_N_value. reflexivity.
Qed.

Lemma sanitize_safe (s : jsstr) : forallb Str.is_safe_char (Str.sanitize s) = true.
Proof.
  unfold Str.sanitize. induction s as [|c s IH]; simpl; [reflexivity|].
  rewrite IH, andb_true_r.
  destruct (Str.is_safe_char c) eqn:Hc; [exact Hc|reflexivity].
Qed.

Lemma sanitize_id (s : jsstr) :
  forallb Str.is_safe_char s = true -> Str.sanitize s = s.
Proof.
  unfold Str.sanitize. induction s as [|c s IH]; simpl; [reflexivity|].
  intros H. apply andb_true_iff in H as [Hc Hs].
  rewrite Hc, (IH Hs). reflexivity.
Qed.

Lemma sanitize_generated (t : Z) :
  Str.sanitize (Texts.analysis_ ++ Str.of_Z t) = Texts.analysis_ ++ Str.of_Z t.
Proof.
  apply sanitize_id. rewrite forallb_app, of_Z_safe. reflexivity.
Qed.

Lemma body_or_empty_not_null (reqBody : jsval) : Spec.body_or_empty reqBody <> JNull.
Proof.
  unfold Spec.body_or_empty, Js.truthy.
  destruct reqBody as [[]|]; simpl; try discriminate;
    match goal with |- context [if ?b then _ else _] => destruct b end;
    discriminate.
Qed.

Lemma replace_prefix (p s : jsstr) :
  Str.startsWith p s = true -> Str.replace_first p [] s = drop (length p) s.
Proof. intros H. destruct s; unfold Str.replace_first; rewrite H; reflexivity. Qed.

Lemma truthy_cases (x : jsval) :
  Js.truthy x = true ->
  (exists s, x = Some (JStr s) /\ s <> [])
  \/ (Spec.text_or_missing x = false /\ Spec.pdf_payload x = false
      /\ exists e, Call.string_method Texts.startsWith x = inl e).
Proof.
  unfold Spec.text_or_missing.
  destruct x as [[]|]; intros H; rewrite ?H; try discriminate H;
    try (right; simpl; eauto; fail).
  left. eexists. split; [reflexivity|]. intros ->. discriminate H.
Qed.

Lemma server_safeBase_cases (w : world) (bn : jsval) (st : state) :
  (exists e,
      Spec.expected_base bn (clock w (clock_reads st)) = None
      /\ Server.safeBase w bn st = (inl e, st))
  \/ (exists base st',
      Spec.expected_base bn (clock w (clock_reads st)) = Some base
      /\ files st' = files st /\ written st' = written st
      /\ console st' = console st
      /\ Server.safeBase w bn st = (inr base, st')).
Proof.
  unfold Spec.expected_base, Server.safeBase, Server.base_name_or_generated.
  destruct (Js.truthy bn) eqn:Hbn.
  - destruct bn as [[]|]; try discriminate Hbn; run; simpl; eauto 10.
  - right. rewrite <- sanitize_generated. run. do 2 eexists.
    refine (conj eq_refl (conj _ (conj _ (conj _ eq_refl)))); reflexivity.
Qed.

(** Every way the save-report handler of the Express server can go. *)
Lemma save_report_server_cases (w : world) (reqBody : jsval) (st : state) :
  let payload := Spec.body_or_empty reqBody in
  let x := Spec.field payload Keys.pdfDataUrl in
  let bn := Spec.field payload Keys.baseName in
  let t := clock w (clock_reads st) in
  exists status body st',
    Server.save_report_handler w reqBody st = (inr (status, body), st')
    /\ ((Spec.pdf_payload x = false
         /\ files st' = files st /\ written st' = written st
         /\ ((Spec.text_or_missing x = true /\ status = 400
              /\ body = Call.error_body Texts.invalid_pdf /\ st' = st)
             \/ (Spec.text_or_missing x = false /\ status = 500
                 /\ body = Call.error_body Texts.save_failed)))
        \/ (Spec.pdf_payload x = true /\ Spec.expected_base bn t = None
            /\ files st' = files st /\ written st' = written st /\ status = 500)
        \/ (Spec.pdf_payload x = true
            /\ exists base,
                Spec.expected_base bn t = Some base
                /\ Spec.archive_change st st' (Spec.pdf_key base) (Spec.meta_key base)
                /\ (status = 200 \/ status = 500))).
Proof.
  intros payload x bn t.
  unfold Server.save_report_handler.
  change (if Js.truthy reqBody then default (JObj []) reqBody else JObj [])
    with payload.
  cbv zeta. run.
  rewrite !(get_not_null payload _ (body_or_empty_not_null reqBody)).
  fold x. fold bn.
  destruct (Js.truthy x) eqn:Hx; cbn -[app].
  - destruct (truthy_cases x Hx) as [[s [-> Hs]]|(Ht & Hp & e & He)].
    + cbn -[app]. destruct (Str.startsWith Texts.pdf_prefix s) eqn:Hpre; cbn -[app].
      * destruct (server_safeBase_cases w bn st)
          as [[e [Hb He]]|(base & st1 & Hb & Hf & Hwr & Hc & He)]; rewrite He.
        -- do 3 eexists. split; [reflexivity|]. right. left. cbn -[app]. auto.
        -- unfold t. fold (Spec.pdf_key base). fold (Spec.meta_key base).
           destruct (write_error w (Spec.pdf_key base)) as [e1|] eqn:Hw1; cbn -[app].
           { do 3 eexists. split; [reflexivity|]. right. right.
             split; [reflexivity|]. exists base. split; [exact Hb|]. cbn -[app].
             split; [apply Spec.Unchanged; assumption|auto]. }
           destruct (Spec.field payload Keys.analysis) as [a|] eqn:Ha; cbn -[app].
           2:{ do 3 eexists. split; [reflexivity|]. right. right.
               split; [reflexivity|]. exists base. split; [exact Hb|]. cbn -[app].
               split; [eapply Spec.DocumentOnly; cbn -[app]; rewrite ?Hf, ?Hwr;
                       reflexivity|auto]. }
           destruct (Js.truthy (Some a)); cbn -[app].
           2:{ do 3 eexists. split; [reflexivity|]. right. right.
               split; [reflexivity|]. exists base. split; [exact Hb|]. cbn -[app].
               split; [eapply Spec.DocumentOnly; cbn -[app]; rewrite ?Hf, ?Hwr;
                       reflexivity|auto]. }
           destruct (write_error w (Spec.meta_key base)) as [e2|] eqn:Hw2; cbn -[app].
           { do 3 eexists. split; [reflexivity|]. right. right.
             split; [reflexivity|]. exists base. split; [exact Hb|]. cbn -[app].
             split; [eapply Spec.DocumentOnly; cbn -[app]; rewrite ?Hf, ?Hwr;
                     reflexivity|auto]. }
           do 3 eexists. split; [reflexivity|]. right. right.
           split; [reflexivity|]. exists base. split; [exact Hb|]. cbn -[app].
           split; [eapply Spec.DocumentAndMeta; cbn -[app]; rewrite ?Hf, ?Hwr;
                   rewrite <- ?app_assoc; reflexivity|auto].
      * do 3 eexists. split; [reflexivity|]. left. cbn -[app]. auto 10.
    + rewrite He. do 3 eexists. split; [reflexivity|]. left. cbn -[app]. auto 10.
  - do 3 eexists. split; [reflexivity|]. left.
    unfold Spec.text_or_missing, Spec.pdf_payload. rewrite Hx.
    destruct x as [[| | |s| |]|]; try discriminate Hx; cbn -[app]; auto 10.
    rewrite (falsy_string s Hx). auto 10.
Qed.

Lemma netlify_safeBase_cases (w : world) (bn : jsval) (st : state) :
  (exists e,
      Spec.expected_base bn (clock w (clock_reads st)) = None
      /\ Netlify.SaveReport.safeBase w bn st = (inl e, st))
  \/ (exists base st',
      Spec.expected_base bn (clock w (clock_reads st)) = Some base
      /\ files st' = files st /\ written st' = written st
      /\ console st' = console st
      /\ Netlify.SaveReport.safeBase w bn st = (inr base, st')).
Proof.
  unfold Spec.expected_base, Netlify.SaveReport.safeBase,
    Netlify.SaveReport.base_name_or_generated.
  destruct (Js.truthy bn) eqn:Hbn.
  - destruct bn as [[]|]; try discriminate Hbn; run; simpl; eauto 10.
  - right. rewrite <- sanitize_generated. run. do 2 eexists.
    refine (conj eq_refl (conj _ (conj _ (conj _ eq_refl)))); reflexivity.
Qed.

(** The best-effort block of the Netlify function never throws; when
    the document cannot be written the metadata is not tried, the
    archive stays as it was and the error is logged. *)
Lemma save_blobs_cases (w : world) (base base64 : jsstr)
      (analysis imageFilename : jsval) (st : state) :
  exists st',
    Run.try_catch
      (Netlify.SaveReport.save_blobs w (Spec.pdf_blob base) base base64
                                    analysis imageFilename)
      (fun e => Run.log (LogWarn e)) st = (inr tt, st')
    /\ Spec.archive_change st st' (Spec.pdf_blob base) (Spec.meta_blob base)
    /\ (forall e, write_error w (Spec.pdf_blob base) = Some e ->
        files st' = files st /\ written st' = written st
        /\ console st' = console st ++ [LogWarn e]).
Proof.
  unfold Netlify.SaveReport.save_blobs. run.
  destruct (write_error w (Spec.pdf_blob base)) as [e1|] eqn:Hw1; cbn -[app].
  { eexists. split; [reflexivity|]. cbn -[app].
    split; [apply Spec.Unchanged; reflexivity|].
    intros e He. inversion He; subst. auto. }
  destruct analysis as [a|]; cbn -[app].
  2:{ eexists. split; [reflexivity|]. cbn -[app].
      split; [eapply Spec.DocumentOnly; reflexivity|discriminate]. }
  destruct (Js.truthy (Some a)); cbn -[app].
  2:{ eexists. split; [reflexivity|]. cbn -[app].
      split; [eapply Spec.DocumentOnly; reflexivity|discriminate]. }
  fold (Spec.meta_blob base).
  destruct (write_error w (Spec.meta_blob base)) as [e2|] eqn:Hw2; cbn -[app].
  { eexists. split; [reflexivity|]. cbn -[app].
    split; [eapply Spec.DocumentOnly; reflexivity|discriminate]. }
  eexists. split; [reflexivity|]. cbn -[app].
  split; [eapply Spec.DocumentAndMeta; cbn -[app]; rewrite <- ?app_assoc;
          reflexivity|discriminate].
Qed.

Lemma archive_change_trans (st st1 st2 : state) (k m : jsstr) :
  files st1 = files st -> written st1 = written st ->
  Spec.archive_change st1 st2 k m -> Spec.archive_change st st2 k m.
Proof.
  intros Hf Hw [H1 H2|b H1 H2|b a i H1 H2]; rewrite Hf in H1; rewrite Hw in H2.
  - apply Spec.Unchanged; assumption.
  - eapply Spec.DocumentOnly; eassumption.
  - eapply Spec.DocumentAndMeta; eassumption.
Qed.

(** Every way the Netlify save-report function can go once the event
    carries a payload. *)
Lemma save_report_netlify_cases (w : world) (ev : event) (st : state) (payload : JSON) :
  Spec.event_payload w ev = Some payload ->
  payload <> JNull ->
  let x := Spec.field payload Keys.pdfDataUrl in
  let bn := Spec.field payload Keys.baseName in
  let t := clock w (clock_reads st) in
  exists r st',
    Netlify.SaveReport.handler w ev st = (inr r, st')
    /\ ((Spec.pdf_payload x = false
         /\ files st' = files st /\ written st' = written st
         /\ ((Spec.text_or_missing x = true /\ st' = st
              /\ r = {| statusCode := 400; headers := [];
                        body := Stringified (Call.error_body Texts.invalid_pdf) |})
             \/ (Spec.text_or_missing x = false
                 /\ r = {| statusCode := 500; headers := [];
                           body := Stringified (Call.error_body Texts.save_failed) |})))
        \/ (Spec.pdf_payload x = true /\ Spec.expected_base bn t = None
            /\ files st' = files st /\ written st' = written st
            /\ statusCode r = 500)
        \/ (Spec.pdf_payload x = true
            /\ exists base,
                Spec.expected_base bn t = Some base
                /\ Spec.archive_change st st' (Spec.pdf_blob base) (Spec.meta_blob base)
                /\ r = {| statusCode := 200; headers := Netlify.json_headers;
                          body := Stringified
                                    (JObj [ (Keys.success, JBool true);
                                            (Keys.reportUrl,
                                             JStr (Texts.blobs_url ++ Spec.pdf_blob base)) ]) |}
                /\ (forall e, write_error w (Spec.pdf_blob base) = Some e ->
                    files st' = files st /\ written st' = written st
                    /\ console st' = console st ++ [LogWarn e]))).
Proof.
  intros Hev Hnn x bn t.
  unfold Spec.event_payload in Hev. unfold Netlify.SaveReport.handler.
  destruct (Str.eqb (httpMethod ev) Texts.POST); [|discriminate Hev].
  cbn [negb]. run.
  destruct (Netlify.raw_body w ev (event_body ev)) as [e0|bodyRaw]; [discriminate Hev|].
  unfold Netlify.JSON_parse. rewrite Hev.
  rewrite !(get_not_null payload _ Hnn).
  fold x. fold bn.
  destruct (Js.truthy x) eqn:Hx; cbn -[app].
  - destruct (truthy_cases x Hx) as [[s [-> Hs]]|(Ht & Hp & e & He)].
    + cbn -[app]. destruct (Str.startsWith Texts.pdf_prefix s) eqn:Hpre; cbn -[app].
      * destruct (netlify_safeBase_cases w bn st)
          as [[e [Hb He]]|(base & st1 & Hb & Hf & Hwr & Hc & He)]; rewrite He.
        -- do 2 eexists. split; [reflexivity|]. right. left. cbn -[app]. auto.
        -- fold (Spec.pdf_blob base).
           destruct (save_blobs_cases w base (Str.replace_first Texts.pdf_prefix [] s)
                       (Spec.field payload Keys.analysis)
                       (Spec.field payload Keys.imageFilename) st1)
             as (st2 & Hrun & Hch & Hfail).
           unfold Run.try_catch, Run.log in Hrun. rewrite Hrun.
           do 2 eexists. split; [reflexivity|]. right. right.
           split; [reflexivity|]. exists base. split; [exact Hb|].
           split; [exact (archive_change_trans _ _ _ _ _ Hf Hwr Hch)|].
           split; [reflexivity|].
           intros e He'. destruct (Hfail e He') as (Hfe & Hwe & Hce).
           repeat split; congruence.
      * do 2 eexists. split; [reflexivity|]. left. cbn -[app]. auto 10.
    + rewrite He. do 2 eexists. split; [reflexivity|]. left. cbn -[app]. auto 10.
  - do 2 eexists. split; [reflexivity|]. left.
    unfold Spec.text_or_missing, Spec.pdf_payload. rewrite Hx.
    destruct x as [[| | |s| |]|]; try discriminate Hx; cbn -[app]; auto 10.
    rewrite (falsy_string s Hx). auto 10.
Qed.

Lemma save_report_netlify_no_payload (w : world) (ev : event) (st : state) :
  Spec.event_payload w ev = None \/ Spec.event_payload w ev = Some JNull ->
  exists r,
    Netlify.SaveReport.handler w ev st = (inr r, st)
    /\ ((statusCode r = 405 /\ Spec.event_payload w ev = None)
        \/ statusCode r = 500).
Proof.
  unfold Spec.event_payload, Netlify.SaveReport.handler.
  destruct (Str.eqb (httpMethod ev) Texts.POST); cbn [negb]; run.
  2:{ intros _. eexists. split; [reflexivity|]. left. split; reflexivity. }
  destruct (Netlify.raw_body w ev (event_body ev)) as [e0|bodyRaw].
  { intros _. eexists. split; [reflexivity|]. right. reflexivity. }
  unfold Netlify.JSON_parse.
  intros [H|H]; rewrite H; eexists; (split; [reflexivity|]); right; reflexivity.
Qed.

Lemma archive_change_document (before after : state) (k m p : jsstr) :
  Spec.archive_change before after k m ->
  Spec.stores_document before after p ->
  p = k.
Proof.
  intros Hch (new & text & Hnew & Hin).
  destruct Hch as [_ H|b _ H|b a i _ H]; rewrite H in Hnew.
  - rewrite <- (app_nil_r (written before)) in Hnew at 1.
    apply app_inv_head in Hnew. subst new. inversion Hin.
  - apply app_inv_head in Hnew. subst new.
    apply list_elem_of_singleton in Hin. congruence.
  - apply app_inv_head in Hnew. subst new.
    rewrite !elem_of_cons in Hin. destruct Hin as [Hin|[Hin|Hin]].
    + congruence.
    + discriminate.
    + inversion Hin.
Qed.

Lemma expected_base_safe (bn : jsval) (t : Z) (base : jsstr) :
  Spec.expected_base bn t = Some base -> forallb Str.is_safe_char base = true.
Proof.
  unfold Spec.expected_base. destruct (Js.truthy bn).
  - destruct bn as [[]|]; try discriminate. intros [= <-]. apply sanitize_safe.
  - intros H. assert (base = Texts.analysis_ ++ Str.of_Z t) as -> by congruence.
    rewrite forallb_app, of_Z_safe. reflexivity.
Qed.

(** A payload that is missing, falsy or a string without the PDF
    prefix is answered 400 "Invalid or missing PDF data" by the
    Express server, and the request changes nothing. *)
Lemma save_report_rejects_invalid_text (w : world) (reqBody : jsval) (st : state) :
  let x := Spec.field (Spec.body_or_empty reqBody) Keys.pdfDataUrl in
  Spec.pdf_payload x = false ->
  Spec.text_or_missing x = true ->
  Server.save_report_handler w reqBody st =
    (inr (400, Call.error_body Texts.invalid_pdf), st).
Proof.
  intros x Hp Ht.
  destruct (save_report_server_cases w reqBody st)
    as (status & body & st' & Hrun & Hcases).
  fold x in Hcases. rewrite Hrun.
  destruct Hcases as [(_ & _ & _ & [(_ & -> & -> & ->)|(Ht' & _)])
                     |[(Hp' & _)|(Hp' & _)]]; congruence.
Qed.

(** Whatever the payload is, when it is no string with the PDF
    prefix nothing is written and the answer is an error. *)
Lemma save_report_invalid_never_stores (w : world) (reqBody : jsval) (st : state) :
  Spec.pdf_payload (Spec.field (Spec.body_or_empty reqBody) Keys.pdfDataUrl) = false ->
  exists status body st',
    Server.save_report_handler w reqBody st = (inr (status, body), st')
    /\ files st' = files st /\ written st' = written st
    /\ (status = 400 \/ status = 500).
Proof.
  intros Hp.
  destruct (save_report_server_cases w reqBody st)
    as (status & body & st' & Hrun & Hcases).
  exists status, body, st'. split; [exact Hrun|].
  destruct Hcases as [(_ & Hf & Hw & [(_ & -> & _)|(_ & -> & _)])
                     |[(Hp' & _)|(Hp' & _)]]; try congruence; auto.
Qed.

Lemma netlify_save_report_invalid_never_stores
      (w : world) (ev : event) (st : state) (payload : JSON) :
  Spec.event_payload w ev = Some payload ->
  Spec.pdf_payload (Spec.field payload Keys.pdfDataUrl) = false ->
  exists r st',
    Netlify.SaveReport.handler w ev st = (inr r, st')
    /\ files st' = files st /\ written st' = written st
    /\ (statusCode r = 400 \/ statusCode r = 500).
Proof.
  intros Hev Hp.
  assert (Hd : payload = JNull \/ payload <> JNull).
  { destruct payload; (left; reflexivity) || (right; discriminate). }
  destruct Hd as [->|Hnn].
  - destruct (save_report_netlify_no_payload w ev st (or_intror Hev)) as (r & Hr & Hs).
    exists r, st. destruct Hs as [[_ Hs]|Hs]; [congruence|auto].
  - destruct (save_report_netlify_cases w ev st payload Hev Hnn)
      as (r & st' & Hrun & Hcases).
    exists r, st'. split; [exact Hrun|].
    destruct Hcases as [(_ & Hf & Hw & [(_ & _ & ->)|(_ & ->)])
                       |[(Hp' & _)|(Hp' & _)]]; try congruence; auto.
Qed.

(** C7, on both deployments: a request whose document payload is the
    number 5 is not answered 400 "Invalid or missing PDF data": calling
    [startsWith] on the number throws, and the catch-all answers 500
    "Failed to save report". Nothing is written. *)
Theorem save_report_number_payload :
  (exists st',
      Server.save_report_handler (Sample.healthy []) (Some Sample.number_request)
                                 Sample.fresh
      = (inr (500, Call.error_body Texts.save_failed), st')
      /\ written st' = []
      /\ console st' = [LogError (Thrown (NotAFunction Texts.startsWith))])
  /\ Netlify.SaveReport.handler (Sample.healthy []) (Sample.post Sample.number_text)
                                Sample.fresh
     = (inr {| statusCode := 500; headers := [];
               body := Stringified (Call.error_body Texts.save_failed) |},
        Sample.fresh).
Proof.
  split.
  - eexists. split; [vm_compute; reflexivity|]. split; reflexivity.
  - vm_compute. reflexivity.
Qed.

Example save_report_plain_text :
  Server.save_report_handler (Sample.healthy []) (Some Sample.plain_text_request)
                             Sample.fresh
  = (inr (400, Call.error_body Texts.invalid_pdf), Sample.fresh).
Proof. apply save_report_rejects_invalid_text; reflexivity. Qed.

(** Whenever a save-report request stores a document, on the
    Express server or in the Netlify function, the document lies under
    [reports/<base>.pdf]; the base has only characters of
    [a-zA-Z0-9_.-]; it is the base name of the request with every other
    character replaced by an underscore, or [analysis_] followed by the
    time in milliseconds when the request names none. *)
Lemma stored_document_named (w : world) (st st' : state) (p : jsstr) :
  Spec.stores_document st st' p ->
  (forall reqBody r,
      Server.save_report_handler w reqBody st = (r, st') ->
      exists base,
        p = Texts.reports_ ++ base ++ Texts.dot_pdf
        /\ forallb Str.is_safe_char base = true
        /\ Spec.expected_base
             (Spec.field (Spec.body_or_empty reqBody) Keys.baseName)
             (clock w (clock_reads st)) = Some base)
  /\ (forall ev r,
      Netlify.SaveReport.handler w ev st = (r, st') ->
      exists payload base,
        Spec.event_payload w ev = Some payload
        /\ p = Texts.reports_ ++ base ++ Texts.dot_pdf
        /\ forallb Str.is_safe_char base = true
        /\ Spec.expected_base (Spec.field payload Keys.baseName)
                              (clock w (clock_reads st)) = Some base).
Proof.
  intros Hdoc.
  assert (Hnew : written st' <> written st).
  { destruct Hdoc as (new & text & Hnew & Hin). intros Heq.
    rewrite Heq in Hnew. rewrite <- (app_nil_r (written st)) in Hnew at 1.
    apply app_inv_head in Hnew. subst new. inversion Hin. }
  split.
  - intros reqBody r Hrun.
    destruct (save_report_server_cases w reqBody st)
      as (status & body & st1 & Hrun1 & Hcases).
    rewrite Hrun in Hrun1. injection Hrun1 as _ <-.
    destruct Hcases as [(_ & _ & Hw & _)|[(_ & _ & _ & Hw & _)
                       |(_ & base & Hb & Hch & _)]]; try contradiction.
    exists base. split; [exact (archive_change_document _ _ _ _ _ Hch Hdoc)|].
    split; [exact (expected_base_safe _ _ _ Hb)|exact Hb].
  - intros ev r Hrun.
    destruct (Spec.event_payload w ev) as [payload|] eqn:Hev.
    2:{ destruct (save_report_netlify_no_payload w ev st (or_introl Hev))
          as (r1 & Hr1 & _).
        rewrite Hrun in Hr1. injection Hr1 as _ ->. contradiction. }
    assert (Hd : payload = JNull \/ payload <> JNull).
    { destruct payload; (left; reflexivity) || (right; discriminate). }
    destruct Hd as [->|Hnn].
    { destruct (save_report_netlify_no_payload w ev st (or_intror Hev))
        as (r1 & Hr1 & _).
      rewrite Hrun in Hr1. injection Hr1 as _ ->. contradiction. }
    destruct (save_report_netlify_cases w ev st payload Hev Hnn)
      as (r1 & st1 & Hrun1 & Hcases).
    rewrite Hrun in Hrun1. injection Hrun1 as _ <-.
    destruct Hcases as [(_ & _ & Hw & _)|[(_ & _ & _ & Hw & _)
                       |(_ & base & Hb & Hch & _)]]; try contradiction.
    exists payload, base. split; [reflexivity|].
    split; [exact (archive_change_document _ _ _ _ _ Hch Hdoc)|].
    split; [exact (expected_base_safe _ _ _ Hb)|exact Hb].
Qed.

(** C10: the Netlify function answers 200 with [success: true] and
    the retrieval path of the document even when the document itself
    cannot be written: the failure is logged and nothing is stored. *)
Theorem netlify_success_without_document
        (w : world) (ev : event) (st : state) (payload : JSON)
        (base : jsstr) (e : js_error) :
  Spec.event_payload w ev = Some payload ->
  Spec.pdf_payload (Spec.field payload Keys.pdfDataUrl) = true ->
  Spec.expected_base (Spec.field payload Keys.baseName) (clock w (clock_reads st))
    = Some base ->
  write_error w (Texts.reports_ ++ base ++ Texts.dot_pdf) = Some e ->
  exists st',
    Netlify.SaveReport.handler w ev st =
      (inr {| statusCode := 200; headers := Netlify.json_headers;
              body := Stringified
                        (JObj [ (Keys.success, JBool true);
                                (Keys.reportUrl,
                                 JStr (Texts.blobs_url ++ Texts.reports_
                                         ++ base ++ Texts.dot_pdf)) ]) |},
       st')
    /\ files st' = files st
    /\ written st' = written st
    /\ console st' = console st ++ [LogWarn e].
Proof.
  intros Hev Hp Hb Hw.
  assert (Hnn : payload <> JNull) by (intros ->; discriminate Hp).
  destruct (save_report_netlify_cases w ev st payload Hev Hnn)
    as (r & st' & Hrun & Hcases).
  destruct Hcases as [(Hp' & _)|[(_ & Hb' & _)|(_ & base' & Hb' & _ & -> & Hfail)]];
    try congruence.
  assert (base' = base) as -> by congruence.
  exists st'. split; [exact Hrun|]. exact (Hfail e Hw).
Qed.

Lemma netlify_success_without_document_witness :
  exists st',
    Netlify.SaveReport.handler (Sample.no_blobs []) (Sample.post Sample.report_text)
                               Sample.fresh =
      (inr {| statusCode := 200; headers := Netlify.json_headers;
              body := Stringified
                        (JObj [ (Keys.success, JBool true);
                                (Keys.reportUrl,
                                 JStr (Str.lit "/.netlify/blobs/reports/my_report_1.pdf")) ]) |},
       st')
    /\ files st' = ∅
    /\ written st' = []
    /\ console st' = [LogWarn (Error (Str.lit "Blobs unavailable"))].
Proof.
  exact (netlify_success_without_document
           (Sample.no_blobs []) (Sample.post Sample.report_text) Sample.fresh
           Sample.report_request (Str.lit "my_report_1")
           (Error (Str.lit "Blobs unavailable"))
           ltac:(vm_compute; reflexivity) ltac:(vm_compute; reflexivity)
           ltac:(vm_compute; reflexivity) ltac:(reflexivity)).
Defined.

(** * Fenced answers *)

Lemma scan_alive (s : jsstr) (m : mode) (ts : list token) :
  Json.scan m s = Some ts -> Spec.alive m s = true.
Proof.
  revert m ts. induction s as [|c s IH]; intros m ts; simpl; [reflexivity|].
  destruct (Json.step m c) as [[m' ts']|]; [|discriminate].
  destruct (Json.scan m' s) as [ts''|] eqn:Hs; [|discriminate].
  intros _. exact (IH m' ts'' Hs).
Qed.

Lemma parse_scannable (t : jsstr) (v : JSON) :
  Json.parse t = Some v -> Spec.scannable t.
Proof.
  unfold Json.parse. destruct (Json.scan Out t) as [ts|] eqn:Hs; [|discriminate].
  intros _. exists Out. exact (scan_alive _ _ _ Hs).
Qed.

Lemma alive_app (m : mode) (a b : jsstr) :
  Spec.alive m (a ++ b) = true -> Spec.alive m a = true /\ Spec.scannable b.
Proof.
  revert m. induction a as [|c a IH]; intros m H.
  - split; [reflexivity|exists m; exact H].
  - simpl in *. destruct (Json.step m c) as [[m' ts]|] eqn:Hc; [|discriminate].
    exact (IH m' H).
Qed.

Lemma scannable_app (a b : jsstr) :
  Spec.scannable (a ++ b) -> Spec.scannable a /\ Spec.scannable b.
Proof.
  intros [m H]. destruct (alive_app m a b H) as [Ha Hb].
  split; [exists m; exact Ha|exact Hb].
Qed.

Lemma scannable_tail (c : N) (s : jsstr) :
  Spec.scannable (c :: s) -> Spec.scannable s.
Proof. intros H. exact (proj2 (scannable_app [c] s H)). Qed.

(** A backtick is read inside a string literal only. *)
Lemma step_tick (m m' : mode) (ts : list token) :
  Json.step m 96 = Some (m', ts) -> exists acc, m = InStr acc /\ m' = InStr (96 :: acc).
Proof.
  destruct m as [|acc|acc|acc k v|l|l]; simpl.
  - discriminate.
  - intros [= <- _]. eauto.
  - discriminate.
  - discriminate.
  - unfold Json.close_then. destruct (Json.number (rev l)); discriminate.
  - unfold Json.close_then. destruct (Json.word (rev l)); discriminate.
Qed.

(** A line feed is read between tokens only, and leaves the scanner
    between tokens. *)
Lemma step_newline (m m' : mode) (ts : list token) :
  Json.step m 10 = Some (m', ts) -> m' = Out /\ forall acc, m <> InStr acc.
Proof.
  destruct m as [|acc|acc|acc k v|l|l]; simpl.
  - intros [= <- _]. split; [reflexivity|discriminate].
  - discriminate.
  - discriminate.
  - discriminate.
  - unfold Json.close_then. destruct (Json.number (rev l)); [|discriminate].
    intros [= <- _]. split; [reflexivity|discriminate].
  - unfold Json.close_then. destruct (Json.word (rev l)); [|discriminate].
    intros [= <- _]. split; [reflexivity|discriminate].
Qed.

(** The letters of the tag stay inside a string literal. *)
Lemma step_letter (letter c : N) (acc : jsstr) :
  Fence.ci letter c = true ->
  letter = 106 \/ letter = 115 \/ letter = 111 \/ letter = 110 ->
  Json.step (InStr acc) c = Some (InStr (c :: acc), []).
Proof.
  unfold Fence.ci. intros Hc Hl.
  apply orb_true_iff in Hc. rewrite !N.eqb_eq in Hc.
  destruct Hl as [-> | [-> | [-> | ->]]]; destruct Hc as [-> | ->]; reflexivity.
Qed.

Lemma startsWith_cons (a b : N) (p s : jsstr) :
  Str.startsWith (a :: p) (b :: s) = (a =? b) && Str.startsWith p s.
Proof. reflexivity. Qed.

Lemma startsWith_nil (p : jsstr) (a : N) : Str.startsWith (a :: p) [] = false.
Proof. reflexivity. Qed.

Lemma alive_tick (m : mode) (s : jsstr) :
  Spec.alive m (96 :: s) = true -> exists acc, Spec.alive (InStr acc) s = true.
Proof.
  simpl. destruct (Json.step m 96) as [[m' ts]|] eqn:Hc; [|discriminate].
  destruct (step_tick _ _ _ Hc) as [acc [_ ->]]. eauto.
Qed.

Lemma alive_string_newline (acc s : jsstr) : Spec.alive (InStr acc) (10 :: s) = false.
Proof. reflexivity. Qed.

Lemma alive_newline_tick (m : mode) (s : jsstr) : Spec.alive m (10 :: 96 :: s) = false.
Proof.
  simpl. destruct (Json.step m 10) as [[m' ts]|] eqn:Hc; [|reflexivity].
  destruct (step_newline _ _ _ Hc) as [-> _]. reflexivity.
Qed.

Lemma alive_letter (letter c : N) (acc s : jsstr) :
  Fence.ci letter c = true ->
  letter = 106 \/ letter = 115 \/ letter = 111 \/ letter = 110 ->
  Spec.alive (InStr acc) (c :: s) = Spec.alive (InStr (c :: acc)) s.
Proof.
  intros Hc Hl. cbn [Spec.alive]. rewrite (step_letter letter c acc Hc Hl).
  reflexivity.
Qed.

Lemma after_tag_in_string (acc s : jsstr) :
  Spec.alive (InStr acc) s = true -> Fence.after_tag s = None.
Proof.
  destruct s as [|c s]; [reflexivity|]. unfold Fence.after_tag.
  destruct (c =? 10) eqn:Hc; [|reflexivity].
  apply N.eqb_eq in Hc. subst c. rewrite alive_string_newline. discriminate.
Qed.

Lemma strip_json_inv (s r : jsstr) :
  Fence.strip_json s = Some r ->
  exists j s1 o n,
    s = j :: s1 :: o :: n :: r
    /\ Fence.ci 106 j = true /\ Fence.ci 115 s1 = true
    /\ Fence.ci 111 o = true /\ Fence.ci 110 n = true.
Proof.
  destruct s as [|j [|s1 [|o [|n r']]]]; try discriminate.
  unfold Fence.strip_json.
  destruct (Fence.ci 106 j) eqn:H1; [|discriminate].
  destruct (Fence.ci 115 s1) eqn:H2; [|discriminate].
  destruct (Fence.ci 111 o) eqn:H3; [|discriminate].
  destruct (Fence.ci 110 n) eqn:H4; [|discriminate].
  intros [= <-]. exists j, s1, o, n. auto.
Qed.

Lemma startsWith_ticks (s : jsstr) :
  Str.startsWith Fence.ticks s = true -> exists r, s = 96 :: 96 :: 96 :: r.
Proof.
  unfold Fence.ticks.
  destruct s as [|a [|b [|c r]]];
    rewrite ?startsWith_cons, ?startsWith_nil, ?andb_false_r; try discriminate.
  intros H.
  apply andb_true_iff in H as [Ha H]. apply andb_true_iff in H as [Hb H].
  apply andb_true_iff in H as [Hc _].
  apply N.eqb_eq in Ha, Hb, Hc. subst a b c. eauto.
Qed.

(** In a piece of a JSON text the fence pattern matches nowhere. *)
Lemma match_at_scannable (s : jsstr) :
  Spec.scannable s -> Fence.match_at s = None.
Proof.
  intros [m H]. unfold Fence.match_at.
  destruct (Str.startsWith Fence.ticks s) eqn:Ht; [|reflexivity].
  destruct (startsWith_ticks _ Ht) as [r ->].
  destruct (alive_tick _ _ H) as [acc1 H1].
  assert (H2 : Spec.alive (InStr (96 :: acc1)) (96 :: r) = true) by exact H1.
  assert (H3 : Spec.alive (InStr (96 :: 96 :: acc1)) r = true) by exact H2.
  change (drop 3 (96 :: 96 :: 96 :: r)) with r.
  rewrite (after_tag_in_string _ _ H3).
  destruct (Fence.strip_json r) as [r'|] eqn:Hj; [|reflexivity].
  destruct (strip_json_inv _ _ Hj) as (j & s1 & o & n & -> & Hcj & Hcs & Hco & Hcn).
  rewrite (alive_letter 106 j) in H3 by auto.
  rewrite (alive_letter 115 s1) in H3 by auto.
  rewrite (alive_letter 111 o) in H3 by auto.
  rewrite (alive_letter 110 n) in H3 by auto.
  rewrite (after_tag_in_string _ _ H3). reflexivity.
Qed.

Lemma search_scannable (s : jsstr) :
  Spec.scannable s -> Fence.search s = None.
Proof.
  induction s as [|c s IH]; intros H; unfold Fence.search; fold Fence.search;
    rewrite (match_at_scannable _ H); [reflexivity|].
  apply IH. exact (scannable_tail _ _ H).
Qed.

(** The lazy group stops at the end of a JSON text, not before. *)
Lemma lazy_body_scannable (t : jsstr) :
  Spec.scannable t -> Fence.lazy_body (t ++ Fence.closing) = Some t.
Proof.
  induction t as [|c t IH]; intros H; [reflexivity|].
  cbn [app Fence.lazy_body].
  assert (Hno : Str.startsWith Fence.closing (c :: t ++ Fence.closing) = false).
  { unfold Fence.closing at 1. rewrite startsWith_cons.
    destruct (10 =? c) eqn:Hc; [|reflexivity]. apply N.eqb_eq in Hc. subst c.
    destruct t as [|c' t]; [reflexivity|].
    cbn [app]. rewrite startsWith_cons.
    destruct (96 =? c') eqn:Hc'; [|reflexivity]. apply N.eqb_eq in Hc'. subst c'.
    destruct H as [m H]. rewrite alive_newline_tick in H. discriminate. }
  rewrite Hno, (IH (scannable_tail _ _ H)). reflexivity.
Qed.

Lemma trimStart_suffix (s : jsstr) : exists a, s = a ++ Str.trimStart s.
Proof.
  induction s as [|c s [a IH]]; [exists []; reflexivity|].
  simpl. destruct (Str.is_space c).
  - exists (c :: a). simpl. rewrite <- IH. reflexivity.
  - exists []. reflexivity.
Qed.

Lemma trimEnd_prefix (s : jsstr) : exists b, s = Str.trimEnd s ++ b.
Proof.
  unfold Str.trimEnd. destruct (trimStart_suffix (rev s)) as [a Ha].
  exists (rev a). rewrite <- rev_app_distr, <- Ha, rev_involutive. reflexivity.
Qed.

Lemma trim_scannable (s : jsstr) : Spec.scannable s -> Spec.scannable (Str.trim s).
Proof.
  intros H. unfold Str.trim.
  destruct (trimStart_suffix s) as [a Ha]. rewrite Ha in H.
  apply scannable_app in H as [_ H].
  destruct (trimEnd_prefix (Str.trimStart s)) as [b Hb]. rewrite Hb in H.
  apply scannable_app in H as [H _]. exact H.
Qed.

Lemma trimEnd_snoc (s : jsstr) (c : N) :
  Str.is_space c = false -> Str.trimEnd (s ++ [c]) = s ++ [c].
Proof.
  intros Hc. unfold Str.trimEnd. rewrite rev_app_distr. simpl. rewrite Hc.
  simpl. rewrite rev_involutive. reflexivity.
Qed.

(** A fenced block begins and ends with a backtick: trimming leaves
    it as it is. *)
Lemma trim_wrap (tag t : jsstr) : Str.trim (Fence.wrap tag t) = Fence.wrap tag t.
Proof.
  unfold Str.trim.
  assert (Hs : Str.trimStart (Fence.wrap tag t) = Fence.wrap tag t) by reflexivity.
  rewrite Hs.
  assert (He : Fence.wrap tag t
               = (Fence.ticks ++ tag ++ [10] ++ t ++ [10; 96; 96]) ++ [96]).
  { unfold Fence.wrap, Fence.closing. rewrite <- !app_assoc. reflexivity. }
  rewrite He. apply trimEnd_snoc. reflexivity.
Qed.

Lemma json_tag_inv (tag : jsstr) :
  Fence.json_tag tag = true ->
  tag = [] \/ exists j s1 o n,
    tag = [j; s1; o; n]
    /\ Fence.ci 106 j = true /\ Fence.ci 115 s1 = true
    /\ Fence.ci 111 o = true /\ Fence.ci 110 n = true.
Proof.
  unfold Fence.json_tag. destruct tag as [|c tag]; [auto|].
  destruct (Fence.strip_json (c :: tag)) as [[|]|] eqn:Hj; try discriminate.
  intros _. right. destruct (strip_json_inv _ _ Hj) as (j & s1 & o & n & H).
  exists j, s1, o, n. exact H.
Qed.

Lemma strip_json_newline (s : jsstr) : Fence.strip_json (10 :: s) = None.
Proof. destruct s as [|a [|b [|c s]]]; reflexivity. Qed.

Lemma search_here (s body : jsstr) :
  Fence.match_at s = Some body -> Fence.search s = Some body.
Proof. intros H. destruct s; unfold Fence.search; rewrite H; reflexivity. Qed.

(** In a fenced JSON text the pattern matches at the first backtick
    and captures the text. *)
Lemma match_at_wrap (tag t : jsstr) :
  Spec.scannable t -> Fence.json_tag tag = true ->
  Fence.match_at (Fence.wrap tag t) = Some t.
Proof.
  intros Ht Htag. unfold Fence.match_at.
  assert (Hs : Str.startsWith Fence.ticks (Fence.wrap tag t) = true) by reflexivity.
  rewrite Hs.
  change (drop 3 (Fence.wrap tag t)) with (tag ++ [10] ++ t ++ Fence.closing).
  destruct (json_tag_inv _ Htag) as [->|(j & s1 & o & n & -> & Hj & Hs1 & Ho & Hn)].
  - cbn [app]. rewrite strip_json_newline. unfold Fence.after_tag.
    rewrite N.eqb_refl. apply lazy_body_scannable. exact Ht.
  - cbn [app]. unfold Fence.strip_json. rewrite Hj, Hs1, Ho, Hn. cbn [andb].
    unfold Fence.after_tag. rewrite N.eqb_refl.
    rewrite (lazy_body_scannable _ Ht). reflexivity.
Qed.

Lemma extract_wrap (tag t : jsstr) :
  Spec.scannable t -> Fence.json_tag tag = true ->
  Fence.extract (Fence.wrap tag t) = Str.trim t.
Proof.
  intros Ht Htag. unfold Fence.extract. rewrite trim_wrap.
  rewrite (search_here _ _ (match_at_wrap _ _ Ht Htag)). reflexivity.
Qed.

Lemma extract_raw (t : jsstr) :
  Spec.scannable t -> Fence.extract t = Str.trim t.
Proof.
  intros Ht. unfold Fence.extract.
  rewrite (search_scannable _ (trim_scannable _ Ht)). reflexivity.
Qed.

(** ** Trimming a JSON text *)

Lemma space_not_token (c : N) :
  Str.is_space c = true -> Json.is_ws c = false -> Json.step_out c = None.
Proof.
  unfold Str.is_space, Json.is_ws, Json.step_out, Json.is_ws, Json.is_digit,
    Json.is_lower.
  intros Hs Hw.
  assert (Hc : (c = 11 \/ c = 12 \/ 160 <= c)%N).
  { repeat (apply orb_true_iff in Hs as [Hs|Hs]);
      try (apply andb_true_iff in Hs as [Hs _]);
      try apply N.eqb_eq in Hs; try apply N.leb_le in Hs; subst;
      try discriminate Hw; lia. }
  rewrite Hw.
  replace (c =? 123) with false by (symmetry; apply N.eqb_neq; lia).
  replace (c =? 125) with false by (symmetry; apply N.eqb_neq; lia).
  replace (c =? 91) with false by (symmetry; apply N.eqb_neq; lia).
  replace (c =? 93) with false by (symmetry; apply N.eqb_neq; lia).
  replace (c =? 58) with false by (symmetry; apply N.eqb_neq; lia).
  replace (c =? 44) with false by (symmetry; apply N.eqb_neq; lia).
  replace (c =? 34) with false by (symmetry; apply N.eqb_neq; lia).
  replace (c =? 45) with false by (symmetry; apply N.eqb_neq; lia).
  assert (Hd : (48 <=? c) && (c <=? 57) = false).
  { apply andb_false_iff. destruct Hc as [->|[->|Hc]];
      [left; reflexivity|left; reflexivity|right; apply N.leb_gt; lia]. }
  assert (Hl : (97 <=? c) && (c <=? 122) = false).
  { apply andb_false_iff. destruct Hc as [->|[->|Hc]];
      [left; reflexivity|left; reflexivity|right; apply N.leb_gt; lia]. }
  rewrite Hd, Hl. reflexivity.
Qed.

Lemma step_out_ws (c : N) : Json.is_ws c = true -> Json.step_out c = Some (Out, []).
Proof. intros H. unfold Json.step_out. rewrite H. reflexivity. Qed.

Lemma option_map_app_nil {A} (o : option (list A)) : option_map (app []) o = o.
Proof. destruct o; reflexivity. Qed.

(** A space in front of a JSON text is skipped by the scanner. *)
Lemma scan_leading_space (c : N) (s : jsstr) (ts : list token) :
  Str.is_space c = true ->
  Json.scan Out (c :: s) = Some ts -> Json.scan Out s = Some ts.
Proof.
  intros Hs. cbn [Json.scan Json.step].
  destruct (Json.is_ws c) eqn:Hw.
  - rewrite (step_out_ws _ Hw), option_map_app_nil. auto.
  - rewrite (space_not_token _ Hs Hw). discriminate.
Qed.

Lemma scan_trimStart (s : jsstr) (ts : list token) :
  Json.scan Out s = Some ts -> Json.scan Out (Str.trimStart s) = Some ts.
Proof.
  induction s as [|c s IH]; intros H; [exact H|].
  cbn [Str.trimStart]. destruct (Str.is_space c) eqn:Hs; [|exact H].
  apply IH. exact (scan_leading_space _ _ _ Hs H).
Qed.

Lemma space_not_num_char (c : N) : Str.is_space c = true -> Json.is_num_char c = false.
Proof.
  unfold Str.is_space, Json.is_num_char, Json.is_digit. intros Hs.
  assert (Hc : (c <= 32 \/ 160 <= c)%N).
  { repeat (apply orb_true_iff in Hs as [Hs|Hs]);
      try (apply andb_true_iff in Hs as [Hs _]);
      try apply N.eqb_eq in Hs; try apply N.leb_le in Hs; subst; lia. }
  replace (c =? 45) with false by (symmetry; apply N.eqb_neq; lia).
  replace (c =? 43) with false by (symmetry; apply N.eqb_neq; lia).
  replace (c =? 46) with false by (symmetry; apply N.eqb_neq; lia).
  replace (c =? 101) with false by (symmetry; apply N.eqb_neq; lia).
  replace (c =? 69) with false by (symmetry; apply N.eqb_neq; lia).
  rewrite !orb_false_r. apply andb_false_iff.
  destruct Hc; [left|right]; apply N.leb_gt; lia.
Qed.

Lemma space_not_lower (c : N) : Str.is_space c = true -> Json.is_lower c = false.
Proof.
  unfold Str.is_space, Json.is_lower. intros Hs.
  assert (Hc : (c <= 32 \/ 160 <= c)%N).
  { repeat (apply orb_true_iff in Hs as [Hs|Hs]);
      try (apply andb_true_iff in Hs as [Hs _]);
      try apply N.eqb_eq in Hs; try apply N.leb_le in Hs; subst; lia. }
  apply andb_false_iff. destruct Hc; [left|right]; apply N.leb_gt; lia.
Qed.

Lemma space_in_string (c : N) (acc : jsstr) :
  Str.is_space c = true ->
  Json.step (InStr acc) c = None \/ Json.step (InStr acc) c = Some (InStr (c :: acc), []).
Proof.
  intros Hs. cbn [Json.step].
  assert (Hc : (c <= 32 \/ 160 <= c)%N).
  { unfold Str.is_space in Hs.
    repeat (apply orb_true_iff in Hs as [Hs|Hs]);
      try (apply andb_true_iff in Hs as [Hs _]);
      try apply N.eqb_eq in Hs; try apply N.leb_le in Hs; subst; lia. }
  replace (c =? 34) with false by (symmetry; apply N.eqb_neq; lia).
  replace (c =? 92) with false by (symmetry; apply N.eqb_neq; lia).
  destruct (c <? 32); auto.
Qed.

(** A space at the end of a JSON text adds no token. *)
Lemma scan_one_space (c : N) (m : mode) (ts : list token) :
  Str.is_space c = true ->
  Json.scan m [c] = Some ts -> Json.finish m = Some ts.
Proof.
  intros Hs. cbn [Json.scan].
  destruct m as [|acc|acc|acc k v|l|l].
  - cbn [Json.step]. destruct (Json.is_ws c) eqn:Hw.
    + rewrite (step_out_ws _ Hw). cbn. auto.
    + rewrite (space_not_token _ Hs Hw). discriminate.
  - destruct (space_in_string c acc Hs) as [-> | ->]; discriminate.
  - cbn [Json.step]. destruct (c =? 117); [discriminate|].
    destruct (Json.escape c); discriminate.
  - cbn [Json.step]. destruct (Json.hex_value c); [|discriminate].
    destruct (k =? 3)%nat; discriminate.
  - cbn [Json.step Json.finish]. rewrite (space_not_num_char _ Hs).
    unfold Json.close_then.
    destruct (Json.number (rev l)) as [t|]; [|discriminate].
    destruct (Json.is_ws c) eqn:Hw.
    + rewrite (step_out_ws _ Hw). cbn. auto.
    + rewrite (space_not_token _ Hs Hw). discriminate.
  - cbn [Json.step Json.finish]. rewrite (space_not_lower _ Hs).
    unfold Json.close_then.
    destruct (Json.word (rev l)) as [t|]; [|discriminate].
    destruct (Json.is_ws c) eqn:Hw.
    + rewrite (step_out_ws _ Hw). cbn. auto.
    + rewrite (space_not_token _ Hs Hw). discriminate.
Qed.

Lemma scan_trailing_space (c : N) (s : jsstr) (m : mode) (ts : list token) :
  Str.is_space c = true ->
  Json.scan m (s ++ [c]) = Some ts -> Json.scan m s = Some ts.
Proof.
  intros Hs. revert m ts. induction s as [|d s IH]; intros m ts.
  - cbn [app]. intros H. cbn [Json.scan]. exact (scan_one_space _ _ _ Hs H).
  - cbn [app Json.scan]. destruct (Json.step m d) as [[m' ts']|]; [|discriminate].
    destruct (Json.scan m' (s ++ [c])) as [ts''|] eqn:H; [|discriminate].
    rewrite (IH _ _ H). auto.
Qed.

Lemma trimStart_spaces (s : jsstr) :
  exists a, s = a ++ Str.trimStart s /\ forallb Str.is_space a = true.
Proof.
  induction s as [|c s (a & IH & Ha)]; [exists []; split; reflexivity|].
  cbn [Str.trimStart]. destruct (Str.is_space c) eqn:Hc.
  - exists (c :: a). cbn [app forallb]. rewrite <- IH, Hc, Ha. split; reflexivity.
  - exists []. split; reflexivity.
Qed.

Lemma scan_trailing_spaces (b s : jsstr) (ts : list token) :
  forallb Str.is_space b = true ->
  Json.scan Out (s ++ b) = Some ts -> Json.scan Out s = Some ts.
Proof.
  revert s. induction b as [|c b IH] using rev_ind; intros s Hb H.
  - rewrite app_nil_r in H. exact H.
  - rewrite forallb_app in Hb. apply andb_true_iff in Hb as [Hb Hc].
    cbn [forallb] in Hc. rewrite andb_true_r in Hc.
    rewrite app_assoc in H. apply (scan_trailing_space _ _ _ _ Hc) in H.
    exact (IH s Hb H).
Qed.

Lemma scan_trimEnd (s : jsstr) (ts : list token) :
  Json.scan Out s = Some ts -> Json.scan Out (Str.trimEnd s) = Some ts.
Proof.
  intros H. unfold Str.trimEnd.
  destruct (trimStart_spaces (rev s)) as (a & Ha & Hsp).
  apply (scan_trailing_spaces (rev a)).
  - apply forallb_rev_true. exact Hsp.
  - rewrite <- rev_app_distr, <- Ha, rev_involutive. exact H.
Qed.

(** [JSON.parse] gives the same value for a text and for the text
    trimmed. *)
Lemma parse_trim (t : jsstr) (v : JSON) :
  Json.parse t = Some v -> Json.parse (Str.trim t) = Some v.
Proof.
  unfold Json.parse. destruct (Json.scan Out t) as [ts|] eqn:Hs; [|discriminate].
  unfold Str.trim. rewrite (scan_trimEnd _ _ (scan_trimStart _ _ Hs)). auto.
Qed.

(** C3, as stated, fails: a fenced block tagged js is not stripped,
    and the fenced text is no JSON. *)
Lemma fence_with_other_tag_fails :
  Json.parse (Str.lit "{}") = Some (JObj [])
  /\ AnalysisText.interpret (Str.lit "{}") = inr Sample.defaults
  /\ AnalysisText.interpret (Fence.wrap (Str.lit "js") (Str.lit "{}"))
     = inl AnalysisText.parse_failure
  /\ AnalysisText.interpret (Fence.wrap (Str.lit "js") (Str.lit "{}"))
     <> AnalysisText.interpret (Str.lit "{}").
Proof.
  assert (H1 : AnalysisText.interpret (Str.lit "{}") = inr Sample.defaults)
    by (vm_compute; reflexivity).
  assert (H2 : AnalysisText.interpret (Fence.wrap (Str.lit "js") (Str.lit "{}"))
               = inl AnalysisText.parse_failure) by (vm_compute; reflexivity).
  split; [vm_compute; reflexivity|]. split; [exact H1|]. split; [exact H2|].
  rewrite H1, H2. discriminate.
Qed.

(** C3, amended: for every JSON text, the raw text and the text in a
    fenced block that has no tag or the tag json (in any case of
    letters) give the same result of extraction, parsing and
    normalization: the normalization of the value the text denotes. *)
Theorem fenced_answer_same_analysis (t tag : jsstr) (v : JSON) :
  Json.parse t = Some v ->
  Fence.json_tag tag = true ->
  AnalysisText.interpret (Fence.wrap tag t) = AnalysisText.interpret t
  /\ AnalysisText.interpret t = Analysis.normalize v.
Proof.
  intros Hparse Htag. unfold AnalysisText.interpret.
  pose proof (parse_scannable _ _ Hparse) as Hs.
  rewrite (extract_wrap _ _ Hs Htag), (extract_raw _ Hs).
  split; [reflexivity|].
  unfold AnalysisText.of_json_text. rewrite (parse_trim _ _ Hparse). reflexivity.
Qed.

Lemma fenced_answer_same_analysis_witness :
  AnalysisText.interpret (Fence.wrap (Str.lit "JSON") Sample.blight_text)
  = AnalysisText.interpret Sample.blight_text
  /\ AnalysisText.interpret Sample.blight_text
     = Analysis.normalize (Analysis.to_json Sample.blight).
Proof.
  refine (fenced_answer_same_analysis Sample.blight_text (Str.lit "JSON")
            (Analysis.to_json Sample.blight) _ _); vm_compute; reflexivity.
Defined.

(** * The two extraction steps agree *)

Lemma length_trimStart (s : jsstr) : (length (Str.trimStart s) <= length s)%nat.
Proof.
  induction s as [|c s IH]; simpl; [lia|].
  destruct (Str.is_space c); simpl; lia.
Qed.

Lemma trimStart_idem (s : jsstr) : Str.trimStart (Str.trimStart s) = Str.trimStart s.
Proof.
  induction s as [|c s IH]; simpl; [reflexivity|].
  destruct (Str.is_space c) eqn:Hc; [exact IH|].
  simpl. rewrite Hc. reflexivity.
Qed.

Lemma trimStart_fixed_head (c : N) (s : jsstr) :
  Str.trimStart (c :: s) = c :: s -> Str.is_space c = false.
Proof.
  simpl. destruct (Str.is_space c); [|reflexivity].
  intros H. pose proof (length_trimStart s) as Hl. rewrite H in Hl.
  simpl in Hl. lia.
Qed.

Lemma trimStart_trimEnd (s : jsstr) :
  Str.trimStart s = s -> Str.trimStart (Str.trimEnd s) = Str.trimEnd s.
Proof.
  intros Hs. destruct (trimEnd_prefix s) as [b Hb].
  destruct (Str.trimEnd s) as [|c r]; [reflexivity|].
  rewrite Hb in Hs. simpl in Hs.
  change (Str.trimStart (c :: r ++ b) = c :: r ++ b) in Hs.
  simpl. rewrite (trimStart_fixed_head _ _ Hs). reflexivity.
Qed.

Lemma trimEnd_idem (s : jsstr) : Str.trimEnd (Str.trimEnd s) = Str.trimEnd s.
Proof.
  unfold Str.trimEnd. rewrite rev_involutive, trimStart_idem. reflexivity.
Qed.

Lemma trim_idem (s : jsstr) : Str.trim (Str.trim s) = Str.trim s.
Proof.
  unfold Str.trim.
  rewrite (trimStart_trimEnd _ (trimStart_idem s)). apply trimEnd_idem.
Qed.

(** The Netlify function trims once more than the Express server;
    both hand the same text to [JSON.parse]. *)
Lemma netlify_extract_same (text : jsstr) :
  Netlify.Analyze.extract text = Fence.extract text.
Proof.
  unfold Netlify.Analyze.extract, Fence.extract.
  destruct (Fence.search (Str.trim text)); [reflexivity|apply trim_idem].
Qed.

(** On the Netlify deployment too, an answer that is no JSON ends the
    request with 500 and the parse-failure message, after one call of
    the model and without any write. *)
Lemma netlify_answer_without_json
      (w : world) (ev : event) (st : state) (raw : jsstr)
      (ms : list (jsstr * JSON)) (url mime text : jsstr) :
  httpMethod ev = Texts.POST ->
  Netlify.raw_body w ev (Some (default [] (event_body ev))) = inr (Some raw) ->
  Json.parse raw = Some (JObj ms) ->
  Js.lookup_member Keys.imageDataUrl ms = Some (JStr url) ->
  url <> [] ->
  Js.lookup_member Keys.mimeType ms = Some (JStr mime) ->
  mime ∈ Netlify.Analyze.allowed ->
  generateContent w Netlify.Analyze.buildPrompt
                  (Base64 (Netlify.strip_data_url url)) mime = inr text ->
  Json.parse (Fence.extract text) = None ->
  Netlify.Analyze.handler w ev st =
    (inr {| statusCode := 500; headers := [];
            body := Stringified (Call.error_body AnalysisText.parse_failure_message) |},
     {| files := files st; written := written st; console := console st;
        model_calls := S (model_calls st); clock_reads := clock_reads st |}).
Proof.
  intros Hpost Hraw Hpayload Hurl Hne Hmime Hal Hgen Hparse.
  assert (Hmne : mime <> []).
  { intros ->. revert Hal. unfold Netlify.Analyze.allowed.
    rewrite !elem_of_union, !elem_of_singleton.
    intros [[H|H]|H]; discriminate. }
  unfold Netlify.Analyze.handler. rewrite Hpost.
  change (negb (Str.eqb Texts.POST Texts.POST)) with false. cbv iota.
  run. rewrite Hraw. cbn -[app]. rewrite Hpayload.
  unfold Netlify.Analyze.analyze_payload. run.
  change (Js.truthy (Some (JObj ms))) with true. cbn -[app].
  rewrite Hurl, Hmime, !truthy_string by assumption. cbn -[app].
  rewrite bool_decide_eq_true_2 by assumption. cbn -[app].
  rewrite Hgen. unfold AnalysisText.of_json_text.
  rewrite netlify_extract_same, Hparse. reflexivity.
Qed.

(** * The scenarios of the specification *)

Example scenario_leaf_blight :
  exists st',
    Server.post_analyze (Sample.healthy Sample.blight_answer) (Some Sample.leaf)
                        Sample.fresh
    = (Sent 200
         (JObj [ (Keys.success, JBool true);
                 (Keys.imageFilename, JStr (Str.lit "crop_1700000000000.jpg"));
                 (Keys.imageUrl, JStr (Str.lit "/uploads/crop_1700000000000.jpg"));
                 (Keys.analysis, Analysis.to_json Sample.blight) ]),
       st')
    /\ written st'
       = [ (Str.lit "uploads/crop_1700000000000.jpg", Bytes (bytes Sample.leaf));
           (Str.lit "reports/meta/crop_1700000000000.json",
            AnalysisMeta 1700000000001 (Str.lit "crop_1700000000000.jpg")
                         Sample.blight) ]
    /\ model_calls st' = 1%nat /\ console st' = [].
Proof.
  eexists. split; [vm_compute; reflexivity|].
  split; [vm_compute; reflexivity|]. split; reflexivity.
Qed.

Example scenario_empty_object :
  fst (Server.post_analyze (Sample.healthy (Str.lit "{}")) (Some Sample.png)
                           Sample.fresh)
  = Sent 200
      (JObj [ (Keys.success, JBool true);
              (Keys.imageFilename, JStr (Str.lit "crop_1700000000000.PNG"));
              (Keys.imageUrl, JStr (Str.lit "/uploads/crop_1700000000000.PNG"));
              (Keys.analysis, Analysis.to_json Sample.defaults) ]).
Proof. vm_compute. reflexivity. Qed.

Example scenario_null_answer :
  fst (Server.post_analyze (Sample.healthy (Str.lit "null")) (Some Sample.png)
                           Sample.fresh)
  = Sent 500 (Call.error_body (Str.lit "TypeError")).
Proof. vm_compute. reflexivity. Qed.

Example scenario_netlify_leaf_blight :
  exists st',
    Netlify.Analyze.handler
      (Sample.healthy Sample.blight_answer)
      (Sample.post (Str.json_lit
         "{'imageDataUrl':'data:image/jpeg;base64,/9j/4A==','mimeType':'image/jpeg','originalName':'leaf.jpg'}"))
      Sample.fresh
    = (inr {| statusCode := 200; headers := Netlify.json_headers;
              body := Stringified
                        (JObj [ (Keys.success, JBool true);
                                (Keys.imageFilename, JStr (Str.lit "leaf.jpg"));
                                (Keys.analysis, Analysis.to_json Sample.blight) ]) |},
       st')
    /\ written st'
       = [ (Str.lit "uploads/leaf.jpg", Base64 (Str.lit "/9j/4A=="));
           (Str.lit "meta/leaf.json",
            AnalysisMeta 1700000000001 (Str.lit "leaf.jpg") Sample.blight) ].
Proof.
  eexists. split; [vm_compute; reflexivity|]. vm_compute. reflexivity.
Qed.

Example scenario_save_report :
  exists st',
    Server.save_report_handler (Sample.healthy []) (Some Sample.report_request)
                               Sample.fresh
    = (inr (200, JObj [ (Keys.success, JBool true);
                        (Keys.reportUrl, JStr (Str.lit "/reports/my_report_1.pdf")) ]),
       st')
    /\ written st'
       = [ (Str.lit "reports/my_report_1.pdf", Base64 (Str.lit "JVBERi0="));
           (Str.lit "reports/meta/my_report_1.json",
            ReportMeta (JObj [(Analysis.k_disease, JStr (Str.lit "Rust"))])
                       (Some (JStr (Str.lit "crop_1.jpg")))) ].
Proof.
  eexists. split; [vm_compute; reflexivity|]. vm_compute. reflexivity.
Qed.

Example scenario_generated_base :
  fst (Server.save_report_handler
         (Sample.healthy [])
         (Some (JObj [(Keys.pdfDataUrl, JStr (Str.lit "data:application/pdf;base64,JVBERi0="))]))
         Sample.fresh)
  = inr (200, JObj [ (Keys.success, JBool true);
                     (Keys.reportUrl,
                      JStr (Str.lit "/reports/analysis_1700000000000.pdf")) ]).
Proof. vm_compute. reflexivity. Qed.

(** * Further properties of the source *)

(** ** The sanitizer *)

Lemma sanitize_length (s : jsstr) : length (Str.sanitize s) = length s.
Proof. unfold Str.sanitize. apply length_map. Qed.

Lemma sanitize_app (a b : jsstr) :
  Str.sanitize (a ++ b) = Str.sanitize a ++ Str.sanitize b.
Proof. unfold Str.sanitize. apply map_app. Qed.

Lemma safe_not_separator (c : N) :
  Str.is_safe_char c = true -> c <> 47 /\ c <> 92 /\ c <> 0.
Proof.
  intros H. repeat split; intros ->; discriminate H.
Qed.

(** X1: the sanitizer of file and report names keeps the length of
    the name, yields only characters of [a-zA-Z0-9_.-] (so no slash,
    backslash or NUL), and changes nothing when applied again. *)
Theorem sanitize_stable (s : jsstr) :
  length (Str.sanitize s) = length s
  /\ forallb Str.is_safe_char (Str.sanitize s) = true
  /\ Str.sanitize (Str.sanitize s) = Str.sanitize s
  /\ (forall c, In c (Str.sanitize s) -> c <> 47 /\ c <> 92 /\ c <> 0).
Proof.
  split; [apply sanitize_length|]. split; [apply sanitize_safe|].
  split; [apply sanitize_id, sanitize_safe|].
  intros c Hc. apply safe_not_separator.
  pose proof (sanitize_safe s) as H. rewrite forallb_forall in H. exact (H c Hc).
Qed.

(** ** The name of a stored upload *)

Lemma span_no_dot_spec (s : jsstr) :
  s = fst (Path.span_no_dot s) ++ snd (Path.span_no_dot s)
  /\ ~ In 46 (fst (Path.span_no_dot s))
  /\ (snd (Path.span_no_dot s) = []
      \/ exists r, snd (Path.span_no_dot s) = 46 :: r).
Proof.
  induction s as [|c s (IH1 & IH2 & IH3)]; simpl.
  - split; [reflexivity|]. split; [tauto|]. left; reflexivity.
  - destruct (c =? 46) eqn:Hc.
    + apply N.eqb_eq in Hc. subst c. simpl.
      split; [reflexivity|]. split; [tauto|]. right. eauto.
    + apply N.eqb_neq in Hc. destruct (Path.span_no_dot s) as [a r]. simpl in *.
      split; [congruence|]. split; [|exact IH3].
      intros [H|H]; [congruence|contradiction].
Qed.

Lemma span_no_dot_at_dot (a r : jsstr) :
  ~ In 46 a -> Path.span_no_dot (a ++ 46 :: r) = (a, 46 :: r).
Proof.
  induction a as [|c a IH]; intros H; [reflexivity|].
  simpl. destruct (c =? 46) eqn:Hc.
  - apply N.eqb_eq in Hc. subst c. exfalso. apply H. left. reflexivity.
  - rewrite IH; [reflexivity|]. intros Hin. apply H. right. exact Hin.
Qed.

(** An extension is empty, or a point followed by the characters
    after the last point of the name. *)
Lemma extname_shape (name : jsstr) :
  Path.extname name = []
  \/ exists before after,
      name = before ++ 46 :: after /\ ~ In 46 after
      /\ Path.extname name = 46 :: after.
Proof.
  unfold Path.extname.
  destruct (span_no_dot_spec (rev name)) as (Hrev & Hnd & Hr).
  destruct (Path.span_no_dot (rev name)) as [a r]. simpl in *.
  destruct Hr as [->|[r' ->]]; [left; destruct a; reflexivity|].
  assert (Hname : name = rev r' ++ 46 :: rev a).
  { rewrite <- (rev_involutive name), Hrev, rev_app_distr. simpl.
    rewrite <- app_assoc. reflexivity. }
  assert (Hnd' : ~ In 46 (rev a)) by (rewrite <- in_rev; exact Hnd).
  destruct r' as [|y r2]; [left; destruct a; reflexivity|].
  destruct a as [|a0 a'];
    [|right; eexists _, _; split; [exact Hname|split; [exact Hnd'|reflexivity]]].
  destruct y as [|q]; [destruct r2; (right; eexists _, _; split; [exact Hname|split; [exact Hnd'|reflexivity]])|].
  destruct r2 as [|z r2].
  - try solve [left; reflexivity
              |right; eexists _, _; split; [exact Hname|split; [exact Hnd'|reflexivity]]].
    do 7 (try (destruct q as [q|q|];
               try solve [left; reflexivity
                         |right; eexists _, _; split; [exact Hname|split; [exact Hnd'|reflexivity]]])).
  - try solve [right; eexists _, _; split; [exact Hname|split; [exact Hnd'|reflexivity]]].
    do 7 (try (destruct q as [q|q|];
               try solve [right; eexists _, _; split; [exact Hname|split; [exact Hnd'|reflexivity]]])).
Qed.

Lemma extname_safe (name : jsstr) :
  forallb Str.is_safe_char name = true ->
  forallb Str.is_safe_char (Path.extname name) = true.
Proof.
  intros H. destruct (extname_shape name) as [->|(b & a & Hn & _ & ->)];
    [reflexivity|].
  rewrite Hn, forallb_app in H. apply andb_true_iff in H as [_ H]. exact H.
Qed.

(** The extension of a name that ends in a point and characters
    without a point, after something that is no point. *)
Lemma extname_of_suffix (base after : jsstr) :
  base <> [] -> ~ In 46 base -> ~ In 46 after ->
  Path.extname (base ++ 46 :: after) = 46 :: after.
Proof.
  intros Hne Hb Ha. unfold Path.extname.
  rewrite rev_app_distr. simpl. rewrite <- app_assoc. simpl.
  rewrite span_no_dot_at_dot by (rewrite <- in_rev; exact Ha).
  rewrite rev_involutive.
  destruct (rev base) as [|y r2] eqn:Hr.
  { exfalso. apply Hne. rewrite <- (rev_involutive base), Hr. reflexivity. }
  assert (Hy : y <> 46).
  { intros ->. apply Hb. apply in_rev. rewrite Hr. left. reflexivity. }
  destruct (rev after) as [|a0 a']; [|reflexivity].
  destruct r2 as [|z r2];
    destruct y as [|q]; try reflexivity;
    do 7 (try (destruct q as [q|q|]; try reflexivity)); congruence.
Qed.

Lemma digits_rev_range (fuel : nat) (n c : N) :
  In c (Str.digits_rev fuel n) -> (48 <= c <= 57)%N.
Proof.
  revert n. induction fuel as [|fuel IH]; intros n; cbn [Str.digits_rev In];
    [contradiction|].
  intros [<-|H].
  - assert (H : (n mod 10 < 10)%N) by (apply N.mod_upper_bound; discriminate).
    revert H. generalize (n mod 10)%N. intros d Hd. lia.
  - destruct (n / 10 =? 0)%N; [contradiction|exact (IH _ H)].
Qed.

(** A numeral holds digits, after a minus sign at most. *)
Lemma of_Z_chars (z : Z) (c : N) :
  In c (Str.of_Z z) -> c = 45 \/ (48 <= c <= 57)%N.
Proof.
  assert (HN : forall n, In c (Str.of_N n) -> (48 <= c <= 57)%N).
  { intros n H. unfold Str.of_N in H. apply in_rev in H.
    exact (digits_rev_range _ _ _ H). }
  destruct z; unfold Str.of_Z; cbn [In]; intros H.
  - right. exact (HN _ H).
  - right. exact (HN _ H).
  - destruct H as [<-|H]; [left; reflexivity|right; exact (HN _ H)].
Qed.

Lemma of_Z_no_dot (z : Z) : ~ In 46 (Str.of_Z z).
Proof. intros H. apply of_Z_chars in H. lia. Qed.

(** The extension given to a stored upload: a point, then safe
    characters without a point. *)
Lemma storage_ext_shape (name : jsstr) :
  exists after,
    Run.or_text (Path.extname (Str.sanitize name)) Texts.dot_jpg = 46 :: after
    /\ ~ In 46 after
    /\ forallb Str.is_safe_char after = true.
Proof.
  pose proof (extname_safe _ (sanitize_safe name)) as Hsafe.
  destruct (extname_shape (Str.sanitize name))
    as [He|(b & a & _ & Hnd & He)]; rewrite He in *.
  - exists (Str.lit "jpg"). split; [reflexivity|]. split; [|reflexivity].
    vm_compute. intros [H|[H|[H|H]]]; try discriminate H; exact H.
  - exists a. split; [reflexivity|]. split; [exact Hnd|].
    cbn [forallb] in Hsafe. apply andb_true_iff in Hsafe as [_ H]. exact H.
Qed.

Lemma crop_time_no_dot (t : Z) : ~ In 46 (Texts.crop_ ++ Str.of_Z t).
Proof.
  rewrite in_app_iff. intros [H|H]; [|exact (of_Z_no_dot _ H)].
  vm_compute in H. repeat (destruct H as [H|H]; [discriminate H|]). exact H.
Qed.

Lemma startsWith_app (p s : jsstr) : Str.startsWith p (p ++ s) = true.
Proof.
  induction p as [|a p IH]; [destruct s; reflexivity|].
  cbn [app]. rewrite startsWith_cons, N.eqb_refl. exact IH.
Qed.

(** X2: the name under which an upload is stored has only characters
    of [a-zA-Z0-9_.-], whatever the name the client sent: no
    separator, no NUL; it begins with [crop_]. *)
Theorem stored_name_safe (t : Z) (file : upload) :
  forallb Str.is_safe_char (Server.storage_filename t file) = true
  /\ (forall c, In c (Server.storage_filename t file) ->
      c <> 47 /\ c <> 92 /\ c <> 0)
  /\ Str.startsWith Texts.crop_ (Server.storage_filename t file) = true.
Proof.
  assert (Hsafe : forallb Str.is_safe_char (Server.storage_filename t file) = true).
  { unfold Server.storage_filename.
    destruct (storage_ext_shape (originalname file)) as (a & -> & _ & Ha).
    rewrite !forallb_app, of_Z_safe. cbn [forallb]. rewrite Ha. reflexivity. }
  split; [exact Hsafe|]. split.
  - intros c Hc. apply safe_not_separator.
    rewrite forallb_forall in Hsafe. exact (Hsafe c Hc).
  - apply startsWith_app.
Qed.

Lemma storage_extname (t : Z) (file : upload) :
  Path.extname (Server.storage_filename t file)
  = Run.or_text (Path.extname (Str.sanitize (originalname file))) Texts.dot_jpg.
Proof.
  unfold Server.storage_filename.
  destruct (storage_ext_shape (originalname file)) as (a & -> & Hnd & _).
  rewrite app_assoc. apply extname_of_suffix.
  - discriminate.
  - apply crop_time_no_dot.
  - exact Hnd.
Qed.

Lemma storage_name_of (t : Z) (file : upload) :
  Path.name_of (Server.storage_filename t file) = Texts.crop_ ++ Str.of_Z t.
Proof.
  unfold Path.name_of. rewrite storage_extname.
  unfold Server.storage_filename.
  rewrite app_assoc, length_app, Nat.add_sub.
  rewrite take_app_length. reflexivity.
Qed.

(** X3: taking a stored name apart gives back what it was built from:
    its extension is the extension of the sanitized original name,
    or [.jpg] when that has none; its base is [crop_] followed by
    the time, the base of the metadata record's name; base and
    extension together are the name. *)
Theorem stored_name_parts (t : Z) (file : upload) :
  Path.extname (Server.storage_filename t file)
  = Run.or_text (Path.extname (Str.sanitize (originalname file))) Texts.dot_jpg
  /\ Path.name_of (Server.storage_filename t file) = Texts.crop_ ++ Str.of_Z t
  /\ Path.name_of (Server.storage_filename t file)
     ++ Path.extname (Server.storage_filename t file)
     = Server.storage_filename t file.
Proof.
  rewrite storage_name_of, storage_extname.
  split; [reflexivity|]. split; [reflexivity|].
  unfold Server.storage_filename. rewrite app_assoc. reflexivity.
Qed.

Lemma of_N_inj (a b : N) : Str.of_N a = Str.of_N b -> a = b.
Proof.
  intros H. apply (f_equal Json.digits_value) in H.
  rewrite !of_N_value in H. lia.
Qed.

Lemma of_N_no_minus (n : N) (r : jsstr) : Str.of_N n <> 45 :: r.
Proof.
  intros H. assert (Hin : In 45 (Str.of_N n)) by (rewrite H; left; reflexivity).
  unfold Str.of_N in Hin. apply in_rev in Hin.
  apply digits_rev_range in Hin. lia.
Qed.

(** Different numbers have different numerals. *)
Lemma of_Z_inj (a b : Z) : Str.of_Z a = Str.of_Z b -> a = b.
Proof.
  destruct a as [|p|p], b as [|q|q]; unfold Str.of_Z; cbn [Z.to_N]; intros H;
    try (apply of_N_inj in H; congruence);
    try (exfalso; exact (of_N_no_minus _ _ H));
    try (exfalso; symmetry in H; exact (of_N_no_minus _ _ H)).
  injection H as H. apply of_N_inj in H. congruence.
Qed.

(** X22: two uploads are stored under the same name exactly when they
    are received at the same millisecond and their sanitized names
    have the same extension; their original names do not matter
    otherwise. Uploads received at different times never share a
    name. *)
Theorem stored_names_collide (t1 t2 : Z) (f1 f2 : upload) :
  Server.storage_filename t1 f1 = Server.storage_filename t2 f2
  <-> t1 = t2
      /\ Run.or_text (Path.extname (Str.sanitize (originalname f1))) Texts.dot_jpg
         = Run.or_text (Path.extname (Str.sanitize (originalname f2))) Texts.dot_jpg.
Proof.
  split.
  - intros H. split.
    + apply (f_equal Path.name_of) in H. rewrite !storage_name_of in H.
      apply app_inv_head in H. exact (of_Z_inj _ _ H).
    + apply (f_equal Path.extname) in H. rewrite !storage_extname in H. exact H.
  - intros [-> He]. unfold Server.storage_filename. rewrite He. reflexivity.
Qed.

(** * The allowed types *)

Lemma isAllowed_spec (type : jsstr) :
  Client.isAllowed type = true <->
  type = Texts.image_jpeg \/ type = Texts.image_jpg \/ type = Texts.image_png.
Proof.
  unfold Client.isAllowed, Str.eqb. cbn [existsb].
  rewrite orb_false_r, !orb_true_iff, !bool_decide_eq_true. tauto.
Qed.

(** X4: the three checks of the type of an image agree: the page
    lets a file through exactly when the file filter of the Express
    server accepts it, and exactly when the Netlify function finds
    its type in the allowed set. *)
Theorem type_checks_agree (file : upload) :
  (Client.isAllowed (mimetype file) = true <-> Server.fileFilter file = inr true)
  /\ (Client.isAllowed (mimetype file) = true <->
      Netlify.Analyze.allowed_has (Some (JStr (mimetype file))) = true)
  /\ (Client.isAllowed (mimetype file) = false <->
      Server.fileFilter file = inl (Error Texts.only_images)).
Proof.
  assert (H : Client.isAllowed (mimetype file) = true
              <-> mimetype file ∈ Server.allowedMimeTypes).
  { rewrite isAllowed_spec. unfold Server.allowedMimeTypes.
    rewrite !elem_of_union, !elem_of_singleton. tauto. }
  unfold Server.fileFilter, Netlify.Analyze.allowed_has.
  change Netlify.Analyze.allowed with Server.allowedMimeTypes.
  destruct (bool_decide_reflect (mimetype file ∈ Server.allowedMimeTypes)) as [Hin|Hout].
  - apply H in Hin. rewrite Hin. repeat split; intros; congruence.
  - assert (Hf : Client.isAllowed (mimetype file) = false).
    { destruct (Client.isAllowed (mimetype file)); [|reflexivity].
      exfalso. apply Hout, H. reflexivity. }
    rewrite Hf. repeat split; intros; congruence.
Qed.

(** * The analysis request of the Express server, path by path *)

(** The upload receiver stores an acceptable file under its new name
    and hands it to the handler. *)
Lemma upload_accepted (w : world) (file : upload) (st : state) :
  Store.acceptable file ->
  write_error w (Store.upload_path (clock w (clock_reads st)) file) = None ->
  Server.upload_single w (Some file) st =
    (inr (Some {| path := Store.upload_path (clock w (clock_reads st)) file;
                  file_mimetype := mimetype file;
                  filename := Server.storage_filename (clock w (clock_reads st)) file |}),
     Store.put (Store.upload_path (clock w (clock_reads st)) file)
               (Bytes (bytes file)) (Store.tick st)).
Proof.
  intros [Hm Hsize] Hw. unfold Server.upload_single, Server.fileFilter.
  rewrite bool_decide_eq_true_2 by assumption. run. cbn -[app Server.fileSize].
  assert (Hle : (Server.fileSize <? N.of_nat (length (bytes file)))%N = false).
  { apply N.ltb_ge. exact Hsize. }
  rewrite Hle. unfold Store.upload_path in Hw. rewrite Hw. reflexivity.
Qed.

(** X5: an acceptable upload, with the key configured and a disk that
    takes both writes: the model is asked once, about the bytes and
    the type of the upload; the answer 200 carries the stored name,
    its URL and the normalized analysis; the archive then holds the
    upload and, under [reports/meta/crop_<time>.json], the record of
    the analysis, stamped with the second reading of the clock. *)
Theorem upload_analysed_and_recorded
        (w : world) (file : upload) (st : state) (text : jsstr) (a : AnalysisResult) :
  Store.acceptable file ->
  api_key_set w = true ->
  write_error w (Store.upload_path (clock w (clock_reads st)) file) = None ->
  write_error w (Store.analysis_meta_path (clock w (clock_reads st))) = None ->
  generateContent w Server.buildAnalysisPrompt (Bytes (bytes file)) (mimetype file)
    = inr text ->
  AnalysisText.interpret text = inr a ->
  Server.post_analyze w (Some file) st =
    (Sent 200
       (JObj [ (Keys.success, JBool true);
               (Keys.imageFilename,
                JStr (Server.storage_filename (clock w (clock_reads st)) file));
               (Keys.imageUrl,
                JStr (Texts.uploads_url
                      ++ Server.storage_filename (clock w (clock_reads st)) file));
               (Keys.analysis, Analysis.to_json a) ]),
     Store.put (Store.analysis_meta_path (clock w (clock_reads st)))
       (AnalysisMeta (clock w (S (clock_reads st)))
                     (Server.storage_filename (clock w (clock_reads st)) file) a)
       (Store.tick
          (Store.asked
             (Store.put (Store.upload_path (clock w (clock_reads st)) file)
                        (Bytes (bytes file)) (Store.tick st))))).
Proof.
  intros Hacc Hkey Hup Hmeta Hgen Hint.
  unfold Server.post_analyze. rewrite (upload_accepted w file st Hacc Hup).
  unfold Server.analyze_handler, Server.analyzeWithGemini.
  rewrite Hkey. run. cbn -[app]. rewrite lookup_insert_eq. cbn -[app].
  rewrite Hgen. cbn -[app]. rewrite Hint. cbn -[app].
  rewrite storage_name_of, <- app_assoc.
  unfold Store.analysis_meta_path in Hmeta. rewrite Hmeta. reflexivity.
Qed.

Lemma upload_analysed_and_recorded_witness :
  Server.post_analyze (Sample.healthy Sample.blight_answer) (Some Sample.leaf) Sample.fresh =
    (Sent 200
       (JObj [ (Keys.success, JBool true);
               (Keys.imageFilename, JStr (Str.lit "crop_1700000000000.jpg"));
               (Keys.imageUrl, JStr (Str.lit "/uploads/crop_1700000000000.jpg"));
               (Keys.analysis, Analysis.to_json Sample.blight) ]),
     Store.put (Str.lit "reports/meta/crop_1700000000000.json")
       (AnalysisMeta 1700000000001 (Str.lit "crop_1700000000000.jpg") Sample.blight)
       (Store.tick
          (Store.asked
             (Store.put (Str.lit "uploads/crop_1700000000000.jpg")
                        (Bytes [255; 216; 255; 224]) (Store.tick Sample.fresh))))).
Proof.
  apply (upload_analysed_and_recorded (Sample.healthy Sample.blight_answer)
           Sample.leaf Sample.fresh Sample.blight_answer Sample.blight).
  - split.
    + unfold Server.allowedMimeTypes.
      rewrite !elem_of_union, !elem_of_singleton. left. left. reflexivity.
    + vm_compute. discriminate.
  - reflexivity.
  - reflexivity.
  - reflexivity.
  - reflexivity.
  - vm_compute. reflexivity.
Defined.

(** X6: without the API key the request fails with 500 and the message
    that names the missing key; the model is not asked and no record
    is written, but the upload stays in the uploads directory. *)
Theorem analysis_without_key (w : world) (file : upload) (st : state) :
  Store.acceptable file ->
  api_key_set w = false ->
  write_error w (Store.upload_path (clock w (clock_reads st)) file) = None ->
  Server.post_analyze w (Some file) st =
    (Sent 500 (Call.error_body Texts.no_key),
     Store.logged (LogError (Error Texts.no_key))
       (Store.put (Store.upload_path (clock w (clock_reads st)) file)
                  (Bytes (bytes file)) (Store.tick st))).
Proof.
  intros Hacc Hkey Hup.
  unfold Server.post_analyze. rewrite (upload_accepted w file st Hacc Hup).
  unfold Server.analyze_handler, Server.analyzeWithGemini.
  rewrite Hkey. reflexivity.
Qed.

Lemma analysis_without_key_witness :
  Server.post_analyze (Env.without_key (Sample.healthy [])) (Some Sample.leaf)
                      Sample.fresh =
    (Sent 500 (Call.error_body Texts.no_key),
     Store.logged (LogError (Error Texts.no_key))
       (Store.put (Str.lit "uploads/crop_1700000000000.jpg")
                  (Bytes [255; 216; 255; 224]) (Store.tick Sample.fresh))).
Proof.
  apply (analysis_without_key (Env.without_key (Sample.healthy [])) Sample.leaf
           Sample.fresh).
  - split.
    + unfold Server.allowedMimeTypes.
      rewrite !elem_of_union, !elem_of_singleton. left. left. reflexivity.
    + vm_compute. discriminate.
  - reflexivity.
  - reflexivity.
Defined.


(** X7: when the call of the model fails, the request fails with 500
    and the message of that error, or [Analysis failed] when the
    error has none; the model was asked once, nothing is retried and
    no record is written. *)
Theorem model_failure_reported
        (w : world) (file : upload) (st : state) (e : js_error) :
  Store.acceptable file ->
  api_key_set w = true ->
  write_error w (Store.upload_path (clock w (clock_reads st)) file) = None ->
  generateContent w Server.buildAnalysisPrompt (Bytes (bytes file)) (mimetype file)
    = inl e ->
  Server.post_analyze w (Some file) st =
    (Sent 500 (Call.error_body (Run.or_text (Run.message w e) Texts.analysis_failed)),
     Store.logged (LogError e)
       (Store.asked
          (Store.put (Store.upload_path (clock w (clock_reads st)) file)
                     (Bytes (bytes file)) (Store.tick st)))).
Proof.
  intros Hacc Hkey Hup Hgen.
  unfold Server.post_analyze. rewrite (upload_accepted w file st Hacc Hup).
  unfold Server.analyze_handler, Server.analyzeWithGemini.
  rewrite Hkey. run. cbn -[app]. rewrite lookup_insert_eq. cbn -[app].
  rewrite Hgen. reflexivity.
Qed.

Lemma model_failure_reported_witness :
  Server.post_analyze
    (Env.with_model_error (Sample.healthy []) (Error (Str.lit "quota exceeded")))
    (Some Sample.leaf) Sample.fresh =
    (Sent 500 (Call.error_body (Str.lit "quota exceeded")),
     Store.logged (LogError (Error (Str.lit "quota exceeded")))
       (Store.asked
          (Store.put (Str.lit "uploads/crop_1700000000000.jpg")
                     (Bytes [255; 216; 255; 224]) (Store.tick Sample.fresh)))).
Proof.
  apply (model_failure_reported
           (Env.with_model_error (Sample.healthy []) (Error (Str.lit "quota exceeded")))
           Sample.leaf Sample.fresh (Error (Str.lit "quota exceeded"))).
  - split.
    + unfold Server.allowedMimeTypes.
      rewrite !elem_of_union, !elem_of_singleton. left. left. reflexivity.
    + vm_compute. discriminate.
  - reflexivity.
  - reflexivity.
  - reflexivity.
Defined.


(** X8: the handler of the analysis request never throws: it answers
    200, 400 or 500, and 400 exactly when the request has no file. It
    asks the model at most once, and exactly once before it answers
    200. Unless it answers 200 it leaves the archive as it was. *)
Theorem analyze_handler_answers (w : world) (file : option req_file) (st : state) :
  exists status body st',
    Server.analyze_handler w file st = (inr (status, body), st')
    /\ (status = 200 \/ status = 400 \/ status = 500)
    /\ (status = 400 <-> file = None)
    /\ (model_calls st' <= S (model_calls st))%nat
    /\ (status = 200 -> model_calls st' = S (model_calls st))
    /\ (status <> 200 -> files st' = files st /\ written st' = written st).
Proof.
  unfold Server.analyze_handler, Server.analyzeWithGemini.
  destruct file as [f|].
  2:{ do 3 eexists. split; [reflexivity|]. cbn.
      repeat split; auto; try discriminate. }
  destruct (api_key_set w).
  2:{ do 3 eexists. split; [reflexivity|]. cbn.
      repeat split; auto; try discriminate. }
  run. destruct (files st !! path f) as [image|] eqn:Himg; cbn -[app].
  2:{ do 3 eexists. split; [reflexivity|]. cbn.
      repeat split; auto; try discriminate. }
  destruct (generateContent w Server.buildAnalysisPrompt image (file_mimetype f))
    as [e|text]; cbn -[app].
  { do 3 eexists. split; [reflexivity|]. cbn. repeat split; auto; try discriminate. }
  destruct (AnalysisText.interpret text) as [e|a]; cbn -[app].
  { do 3 eexists. split; [reflexivity|]. cbn. repeat split; auto; try discriminate. }
  match goal with
  | |- context [write_error w ?p] => destruct (write_error w p) as [e|]
  end; cbn -[app].
  { do 3 eexists. split; [reflexivity|]. cbn. repeat split; auto; try discriminate. }
  do 3 eexists. split; [reflexivity|]. cbn.
  repeat split; auto; try discriminate; try congruence.
Qed.

(** * The report store of the Express server, path by path *)

Lemma server_safeBase_run (w : world) (bn : jsval) (st : state) (base : jsstr) :
  Spec.expected_base bn (clock w (clock_reads st)) = Some base ->
  Server.safeBase w bn st = (inr base, Store.after_base bn st).
Proof.
  unfold Spec.expected_base, Server.safeBase, Server.base_name_or_generated,
    Store.after_base.
  destruct (Js.truthy bn) eqn:Hbn.
  - destruct bn as [[]|]; try discriminate Hbn; try discriminate.
    intros [= <-]. reflexivity.
  - intros [= <-]. run. cbn -[app]. rewrite sanitize_generated. reflexivity.
Qed.

Lemma prefixed_not_empty (url : jsstr) :
  Str.startsWith Texts.pdf_prefix url = true -> url <> [].
Proof. intros H ->. discriminate H. Qed.

(** The document and its metadata never share a name. *)
Lemma pdf_key_not_meta_key (base : jsstr) : Spec.meta_key base <> Spec.pdf_key base.
Proof.
  intros H. apply (f_equal length) in H.
  unfold Spec.pdf_key, Spec.meta_key, Path.join in H.
  rewrite !length_app in H. cbn in H. lia.
Qed.

(** A request with a document: the handler up to the first write. *)
Lemma save_report_server_valid
      (w : world) (reqBody : jsval) (st : state) (url base : jsstr) :
  Spec.field (Spec.body_or_empty reqBody) Keys.pdfDataUrl = Some (JStr url) ->
  Str.startsWith Texts.pdf_prefix url = true ->
  Spec.expected_base (Spec.field (Spec.body_or_empty reqBody) Keys.baseName)
                     (clock w (clock_reads st)) = Some base ->
  Server.save_report_handler w reqBody st =
    Run.try_catch
      (Run.write w (Spec.pdf_key base) (Store.document url);;
       match Spec.field (Spec.body_or_empty reqBody) Keys.analysis with
       | Some a =>
           if Js.truthy (Spec.field (Spec.body_or_empty reqBody) Keys.analysis) then
             Run.write w (Spec.meta_key base)
               (ReportMeta a (Spec.field (Spec.body_or_empty reqBody) Keys.imageFilename))
           else mret tt
       | None => mret tt
       end;;
       mret (200,
             JObj [ (Keys.success, JBool true);
                    (Keys.reportUrl,
                     JStr (Texts.reports_url ++ base ++ Texts.dot_pdf)) ]))
      (fun err =>
         Run.log (LogError err);;
         mret (500, Call.error_body Texts.save_failed))
      (Store.after_base (Spec.field (Spec.body_or_empty reqBody) Keys.baseName) st).
Proof.
  intros Hurl Hpre Hbase.
  unfold Server.save_report_handler.
  change (if Js.truthy reqBody then default (JObj []) reqBody else JObj [])
    with (Spec.body_or_empty reqBody).
  cbv zeta. run.
  rewrite !(get_not_null _ _ (body_or_empty_not_null reqBody)).
  rewrite Hurl, (truthy_string url (prefixed_not_empty url Hpre)).
  cbn -[app]. rewrite Hpre. cbn -[app].
  rewrite (server_safeBase_run w _ st base Hbase).
  rewrite (replace_prefix _ _ Hpre). reflexivity.
Qed.

(** X9: a request with a PDF data URL, on a disk that takes both
    writes, is answered 200 with the URL [/reports/<base>.pdf]; the
    document stored under [reports/<base>.pdf] is the data URL without
    its prefix, and the metadata, when the request carries an analysis,
    lies under [reports/meta/<base>.json] and does not replace the
    document. Without an analysis the document is the only write. The
    model is not asked. *)
Theorem express_report_saved (w : world) (reqBody : jsval) (st : state) (url base : jsstr) :
  Spec.field (Spec.body_or_empty reqBody) Keys.pdfDataUrl = Some (JStr url) ->
  Str.startsWith Texts.pdf_prefix url = true ->
  Spec.expected_base (Spec.field (Spec.body_or_empty reqBody) Keys.baseName)
                     (clock w (clock_reads st)) = Some base ->
  write_error w (Spec.pdf_key base) = None ->
  write_error w (Spec.meta_key base) = None ->
  exists st',
    Server.save_report_handler w reqBody st =
      (inr (200, JObj [ (Keys.success, JBool true);
                        (Keys.reportUrl,
                         JStr (Texts.reports_url ++ base ++ Texts.dot_pdf)) ]),
       st')
    /\ files st' !! Spec.pdf_key base = Some (Store.document url)
    /\ (forall a,
        Spec.field (Spec.body_or_empty reqBody) Keys.analysis = Some a ->
        Js.truthy (Some a) = true ->
        files st' !! Spec.meta_key base
        = Some (ReportMeta a (Spec.field (Spec.body_or_empty reqBody)
                                         Keys.imageFilename)))
    /\ (Js.truthy (Spec.field (Spec.body_or_empty reqBody) Keys.analysis) = false ->
        written st' = written st ++ [(Spec.pdf_key base, Store.document url)])
    /\ model_calls st' = model_calls st
    /\ console st' = console st.
Proof.
  intros Hurl Hpre Hbase Hw1 Hw2.
  rewrite (save_report_server_valid w reqBody st url base Hurl Hpre Hbase).
  assert (Hst : forall st0 : state,
             st0 = Store.after_base
                     (Spec.field (Spec.body_or_empty reqBody) Keys.baseName) st ->
             files st0 = files st /\ written st0 = written st
             /\ model_calls st0 = model_calls st /\ console st0 = console st).
  { intros st0 ->. unfold Store.after_base.
    destruct (Js.truthy _); repeat split; reflexivity. }
  destruct (Hst _ eq_refl) as (Hf & Hwr & Hm & Hc).
  run. rewrite Hw1. cbn -[app].
  destruct (Spec.field (Spec.body_or_empty reqBody) Keys.analysis) as [a|] eqn:Ha;
    cbn -[app].
  - destruct (Js.truthy (Some a)) eqn:Hta; cbn -[app].
    + rewrite Hw2. cbn -[app]. eexists. split; [reflexivity|]. cbn -[app].
      split.
      { rewrite lookup_insert_ne by apply pdf_key_not_meta_key.
        apply lookup_insert_eq. }
      split.
      { intros a' [= <-] _. apply lookup_insert_eq. }
      split; [discriminate|]. split; assumption.
    + eexists. split; [reflexivity|]. cbn -[app].
      split; [apply lookup_insert_eq|].
      split; [intros a' [= <-] H; congruence|].
      split; [intros _; rewrite Hwr; reflexivity|]. split; assumption.
  - eexists. split; [reflexivity|]. cbn -[app].
    split; [apply lookup_insert_eq|].
    split; [intros a' H; discriminate H|].
    split; [intros _; rewrite Hwr; reflexivity|]. split; assumption.
Qed.

Lemma express_report_saved_witness :
  exists st',
    Server.save_report_handler (Sample.healthy []) (Some Sample.report_request)
                               Sample.fresh =
      (inr (200, JObj [ (Keys.success, JBool true);
                        (Keys.reportUrl, JStr (Str.lit "/reports/my_report_1.pdf")) ]),
       st')
    /\ files st' !! Str.lit "reports/my_report_1.pdf"
       = Some (Base64 (Str.lit "JVBERi0="))
    /\ files st' !! Str.lit "reports/meta/my_report_1.json"
       = Some (ReportMeta (JObj [(Analysis.k_disease, JStr (Str.lit "Rust"))])
                          (Some (JStr (Str.lit "crop_1.jpg")))).
Proof.
  destruct (express_report_saved (Sample.healthy []) (Some Sample.report_request) Sample.fresh
              (Str.lit "data:application/pdf;base64,JVBERi0=")
              (Str.lit "my_report_1"))
    as (st' & Hrun & Hdoc & Hmeta & _); try (vm_compute; reflexivity).
  exists st'. split; [exact Hrun|]. split; [exact Hdoc|].
  apply Hmeta; vm_compute; reflexivity.
Defined.

(** X10: when the metadata cannot be written after the document was,
    the request is answered 500 [Failed to save report] although the
    document is stored and stays stored. *)
Theorem report_kept_when_metadata_fails
        (w : world) (reqBody : jsval) (st : state) (url base : jsstr)
        (a : JSON) (e : js_error) :
  Spec.field (Spec.body_or_empty reqBody) Keys.pdfDataUrl = Some (JStr url) ->
  Str.startsWith Texts.pdf_prefix url = true ->
  Spec.expected_base (Spec.field (Spec.body_or_empty reqBody) Keys.baseName)
                     (clock w (clock_reads st)) = Some base ->
  Spec.field (Spec.body_or_empty reqBody) Keys.analysis = Some a ->
  Js.truthy (Some a) = true ->
  write_error w (Spec.pdf_key base) = None ->
  write_error w (Spec.meta_key base) = Some e ->
  Server.save_report_handler w reqBody st =
    (inr (500, Call.error_body Texts.save_failed),
     Store.logged (LogError e)
       (Store.put (Spec.pdf_key base) (Store.document url)
          (Store.after_base (Spec.field (Spec.body_or_empty reqBody) Keys.baseName)
                            st))).
Proof.
  intros Hurl Hpre Hbase Ha Hta Hw1 Hw2.
  rewrite (save_report_server_valid w reqBody st url base Hurl Hpre Hbase).
  run. rewrite Hw1, Ha, Hta. cbn -[app]. rewrite Hw2. reflexivity.
Qed.

Lemma report_kept_when_metadata_fails_witness :
  Server.save_report_handler
    (Env.with_write_error (Sample.healthy [])
       (Env.failing_at (Str.lit "reports/meta/my_report_1.json") Sample.EACCES))
    (Some Sample.report_request) Sample.fresh =
    (inr (500, Call.error_body Texts.save_failed),
     Store.logged (LogError Sample.EACCES)
       (Store.put (Str.lit "reports/my_report_1.pdf") (Base64 (Str.lit "JVBERi0="))
                  Sample.fresh)).
Proof.
  apply (report_kept_when_metadata_fails
           (Env.with_write_error (Sample.healthy [])
              (Env.failing_at (Str.lit "reports/meta/my_report_1.json") Sample.EACCES))
           (Some Sample.report_request) Sample.fresh
           (Str.lit "data:application/pdf;base64,JVBERi0=")
           (Str.lit "my_report_1")
           (JObj [(Analysis.k_disease, JStr (Str.lit "Rust"))])
           Sample.EACCES); vm_compute; reflexivity.
Defined.


(** X11: when the document cannot be written, the request is answered
    500 [Failed to save report], the error is logged, the metadata is
    not tried and the archive stays as it was. *)
Theorem report_write_failure
        (w : world) (reqBody : jsval) (st : state) (url base : jsstr) (e : js_error) :
  Spec.field (Spec.body_or_empty reqBody) Keys.pdfDataUrl = Some (JStr url) ->
  Str.startsWith Texts.pdf_prefix url = true ->
  Spec.expected_base (Spec.field (Spec.body_or_empty reqBody) Keys.baseName)
                     (clock w (clock_reads st)) = Some base ->
  write_error w (Spec.pdf_key base) = Some e ->
  Server.save_report_handler w reqBody st =
    (inr (500, Call.error_body Texts.save_failed),
     Store.logged (LogError e)
       (Store.after_base (Spec.field (Spec.body_or_empty reqBody) Keys.baseName) st)).
Proof.
  intros Hurl Hpre Hbase Hw1.
  rewrite (save_report_server_valid w reqBody st url base Hurl Hpre Hbase).
  run. rewrite Hw1. reflexivity.
Qed.

Lemma report_write_failure_witness :
  Server.save_report_handler
    (Env.with_write_error (Sample.healthy []) (Env.failing_always Sample.EACCES))
    (Some Sample.report_request) Sample.fresh =
    (inr (500, Call.error_body Texts.save_failed),
     Store.logged (LogError Sample.EACCES) Sample.fresh).
Proof.
  apply (report_write_failure
           (Env.with_write_error (Sample.healthy []) (Env.failing_always Sample.EACCES))
           (Some Sample.report_request) Sample.fresh
           (Str.lit "data:application/pdf;base64,JVBERi0=")
           (Str.lit "my_report_1") Sample.EACCES); vm_compute; reflexivity.
Defined.


(** * The Netlify functions and their storage *)

(** X12: the answer of the Netlify save-report function does not
    depend on the blob store: whatever the writes end with, the
    response is the one given when every write succeeds. *)
Theorem netlify_report_response_ignores_storage
        (w : world) (failing : jsstr -> option js_error) (ev : event) (st : state) :
  fst (Netlify.SaveReport.handler (Env.with_write_error w failing) ev st)
  = fst (Netlify.SaveReport.handler w ev st).
Proof.
  unfold Netlify.SaveReport.handler.
  change (Netlify.raw_body (Env.with_write_error w failing))
    with (Netlify.raw_body w).
  change (Netlify.SaveReport.safeBase (Env.with_write_error w failing))
    with (Netlify.SaveReport.safeBase w).
  destruct (Str.eqb (httpMethod ev) Texts.POST); [|reflexivity].
  cbn [negb]. run.
  destruct (Netlify.raw_body w ev (event_body ev)) as [e0|bodyRaw]; [reflexivity|].
  destruct (Netlify.JSON_parse (Run.or_text (default [] bodyRaw) Texts.empty_object))
    as [e1|payload]; [reflexivity|].
  destruct (Js.get payload Keys.pdfDataUrl) as [e|x]; [reflexivity|].
  destruct (Js.get payload Keys.baseName) as [e|bn]; [reflexivity|].
  destruct (Js.get payload Keys.analysis) as [e|an]; [reflexivity|].
  destruct (Js.get payload Keys.imageFilename) as [e|im]; [reflexivity|].
  destruct (Js.truthy x); cbn -[app]; [|reflexivity].
  destruct (Call.string_method Texts.startsWith x) as [e|url]; [reflexivity|].
  cbn -[app].
  destruct (Str.startsWith Texts.pdf_prefix url); cbn -[app]; [|reflexivity].
  destruct (Netlify.SaveReport.safeBase w bn st) as [[e|base] st1]; [reflexivity|].
  fold (Spec.pdf_blob base).
  destruct (save_blobs_cases (Env.with_write_error w failing) base
              (Str.replace_first Texts.pdf_prefix [] url) an im st1)
    as (st2 & H2 & _).
  destruct (save_blobs_cases w base
              (Str.replace_first Texts.pdf_prefix [] url) an im st1)
    as (st3 & H3 & _).
  unfold Run.try_catch, Run.log in H2, H3. rewrite H2, H3. reflexivity.
Qed.

Lemma netlify_safeBase_state (w : world) (bn : jsval) (st st1 : state)
      (r : js_error + jsstr) :
  Netlify.SaveReport.safeBase w bn st = (r, st1) ->
  model_calls st1 = model_calls st
  /\ files st1 = files st /\ written st1 = written st
  /\ (forall e, r = inl e -> st1 = st).
Proof.
  unfold Netlify.SaveReport.safeBase, Netlify.SaveReport.base_name_or_generated.
  destruct (Js.truthy bn) eqn:Hbn; run; cbn -[app].
  - destruct (Call.string_method Texts.replace bn); intros [= <- <-]; auto.
  - intros [= <- <-]. cbn. repeat split. discriminate.
Qed.

(** X13: the Netlify save-report function never throws: it answers
    200, 400, 405 or 500, and 405 exactly when the request is no POST.
    It never asks the model, and unless it answers 200 it leaves the
    blob store, the console and the clock as they were. *)
Theorem netlify_save_report_answers (w : world) (ev : event) (st : state) :
  exists r st',
    Netlify.SaveReport.handler w ev st = (inr r, st')
    /\ (statusCode r = 200 \/ statusCode r = 400 \/ statusCode r = 405
        \/ statusCode r = 500)
    /\ (statusCode r = 405 <-> httpMethod ev <> Texts.POST)
    /\ model_calls st' = model_calls st
    /\ (statusCode r <> 200 -> st' = st).
Proof.
  unfold Netlify.SaveReport.handler, Str.eqb.
  destruct (bool_decide_reflect (httpMethod ev = Texts.POST)) as [Hpost|Hother];
    cbn [negb]; run.
  2:{ answered. }
  destruct (Netlify.raw_body w ev (event_body ev)) as [e0|bodyRaw].
  { answered. }
  destruct (Netlify.JSON_parse (Run.or_text (default [] bodyRaw) Texts.empty_object))
    as [e1|payload].
  { answered. }
  destruct (Js.get payload Keys.pdfDataUrl) as [e|x].
  { answered. }
  destruct (Js.get payload Keys.baseName) as [e|bn].
  { answered. }
  destruct (Js.get payload Keys.analysis) as [e|an].
  { answered. }
  destruct (Js.get payload Keys.imageFilename) as [e|im].
  { answered. }
  destruct (Js.truthy x); cbn -[app].
  2:{ answered. }
  destruct (Call.string_method Texts.startsWith x) as [e|url].
  { answered. }
  cbn -[app]. destruct (Str.startsWith Texts.pdf_prefix url); cbn -[app].
  2:{ answered. }
  destruct (Netlify.SaveReport.safeBase w bn st) as [[e|base] st1] eqn:Hsb;
    destruct (netlify_safeBase_state w bn st st1 _ Hsb) as (Hm & _ & _ & Hst).
  { rewrite (Hst e eq_refl).
    answered. }
  fold (Spec.pdf_blob base).
  assert (Hblobs : exists st2,
             Run.try_catch
               (Netlify.SaveReport.save_blobs w (Spec.pdf_blob base) base
                  (Str.replace_first Texts.pdf_prefix [] url) an im)
               (fun e => Run.log (LogWarn e)) st1 = (inr tt, st2)
             /\ model_calls st2 = model_calls st1).
  { unfold Netlify.SaveReport.save_blobs. run.
    destruct (write_error w (Spec.pdf_blob base)); cbn -[app]; [eauto|].
    destruct an as [a|]; cbn -[app]; [|eauto].
    destruct (Js.truthy (Some a)); cbn -[app]; [|eauto].
    match goal with
    | |- context [write_error w ?p] => destruct (write_error w p)
    end; cbn -[app]; eauto. }
  destruct Hblobs as (st2 & H2 & Hm2).
  unfold Run.try_catch, Run.log in H2. rewrite H2.
  answered.
Qed.

Lemma netlify_safeBase_run (w : world) (bn : jsval) (st : state) (base : jsstr) :
  Spec.expected_base bn (clock w (clock_reads st)) = Some base ->
  Netlify.SaveReport.safeBase w bn st = (inr base, Store.after_base bn st).
Proof.
  unfold Spec.expected_base, Netlify.SaveReport.safeBase,
    Netlify.SaveReport.base_name_or_generated, Store.after_base.
  destruct (Js.truthy bn) eqn:Hbn.
  - destruct bn as [[]|]; try discriminate Hbn; try discriminate.
    intros [= <-]. reflexivity.
  - intros [= <-]. run. cbn -[app]. rewrite sanitize_generated. reflexivity.
Qed.

Lemma pdf_blob_not_meta_blob (base : jsstr) : Spec.meta_blob base <> Spec.pdf_blob base.
Proof. intros H. discriminate H. Qed.

(** X25: a POST with a PDF data URL, on a blob store that takes both
    writes: the Netlify function answers 200 with the URL
    [/.netlify/blobs/reports/<base>.pdf]; the blob [reports/<base>.pdf]
    holds the data URL without its prefix, and the metadata, when the
    request carries an analysis, lies under [meta/<base>.json].
    Nothing is logged. *)
Theorem netlify_report_saved
        (w : world) (ev : event) (st : state) (payload : JSON) (url base : jsstr) :
  Spec.event_payload w ev = Some payload ->
  Spec.field payload Keys.pdfDataUrl = Some (JStr url) ->
  Str.startsWith Texts.pdf_prefix url = true ->
  Spec.expected_base (Spec.field payload Keys.baseName) (clock w (clock_reads st))
    = Some base ->
  write_error w (Spec.pdf_blob base) = None ->
  write_error w (Spec.meta_blob base) = None ->
  exists st',
    Netlify.SaveReport.handler w ev st =
      (inr {| statusCode := 200; headers := Netlify.json_headers;
              body := Stringified
                        (JObj [ (Keys.success, JBool true);
                                (Keys.reportUrl,
                                 JStr (Texts.blobs_url ++ Spec.pdf_blob base)) ]) |},
       st')
    /\ files st' !! Spec.pdf_blob base = Some (Store.document url)
    /\ (forall a,
        Spec.field payload Keys.analysis = Some a ->
        Js.truthy (Some a) = true ->
        files st' !! Spec.meta_blob base
        = Some (ReportMeta a (Spec.field payload Keys.imageFilename)))
    /\ console st' = console st
    /\ model_calls st' = model_calls st.
Proof.
  intros Hev Hurl Hpre Hbase Hw1 Hw2.
  assert (Hnn : payload <> JNull) by (intros ->; discriminate Hurl).
  assert (Hst : forall st0 : state,
             st0 = Store.after_base (Spec.field payload Keys.baseName) st ->
             console st0 = console st /\ model_calls st0 = model_calls st).
  { intros st0 ->. unfold Store.after_base.
    destruct (Js.truthy _); split; reflexivity. }
  destruct (Hst _ eq_refl) as (Hc & Hm).
  unfold Spec.event_payload in Hev. unfold Netlify.SaveReport.handler.
  destruct (Str.eqb (httpMethod ev) Texts.POST); [|discriminate Hev].
  cbn [negb]. run.
  destruct (Netlify.raw_body w ev (event_body ev)) as [e0|bodyRaw]; [discriminate Hev|].
  unfold Netlify.JSON_parse. rewrite Hev.
  rewrite !(get_not_null payload _ Hnn).
  rewrite Hurl, (truthy_string url (prefixed_not_empty url Hpre)).
  cbn -[app]. rewrite Hpre. cbn -[app].
  rewrite (netlify_safeBase_run w _ st base Hbase).
  rewrite (replace_prefix _ _ Hpre).
  unfold Netlify.SaveReport.save_blobs. run.
  fold (Spec.pdf_blob base). fold (Spec.meta_blob base).
  rewrite Hw1. cbn -[app].
  destruct (Spec.field payload Keys.analysis) as [a|] eqn:Ha; cbn -[app].
  - destruct (Js.truthy (Some a)) eqn:Hta; cbn -[app].
    + rewrite Hw2. cbn -[app]. eexists. split; [reflexivity|]. cbn -[app].
      split.
      { rewrite lookup_insert_ne by apply pdf_blob_not_meta_blob.
        apply lookup_insert_eq. }
      split; [intros a' [= <-] _; apply lookup_insert_eq|]. split; assumption.
    + eexists. split; [reflexivity|]. cbn -[app].
      split; [apply lookup_insert_eq|].
      split; [intros a' [= <-] H; congruence|]. split; assumption.
  - eexists. split; [reflexivity|]. cbn -[app].
    split; [apply lookup_insert_eq|].
    split; [intros a' H; discriminate H|]. split; assumption.
Qed.

Lemma netlify_report_saved_witness :
  exists st',
    Netlify.SaveReport.handler (Sample.healthy []) (Sample.post Sample.report_text)
                               Sample.fresh =
      (inr {| statusCode := 200; headers := Netlify.json_headers;
              body := Stringified
                        (JObj [ (Keys.success, JBool true);
                                (Keys.reportUrl,
                                 JStr (Str.lit "/.netlify/blobs/reports/my_report_1.pdf")) ]) |},
       st')
    /\ files st' !! Str.lit "reports/my_report_1.pdf"
       = Some (Base64 (Str.lit "JVBERi0="))
    /\ files st' !! Str.lit "meta/my_report_1.json"
       = Some (ReportMeta (JObj [(Analysis.k_disease, JStr (Str.lit "Rust"))])
                          (Some (JStr (Str.lit "crop_1.jpg")))).
Proof.
  destruct (netlify_report_saved (Sample.healthy []) (Sample.post Sample.report_text)
              Sample.fresh Sample.report_request
              (Str.lit "data:application/pdf;base64,JVBERi0=")
              (Str.lit "my_report_1"))
    as (st' & Hrun & Hdoc & Hmeta & _); try (vm_compute; reflexivity).
  exists st'. split; [exact Hrun|]. split; [exact Hdoc|].
  apply Hmeta; vm_compute; reflexivity.
Defined.

(** X14: the answer of the Netlify analyze function does not depend
    on the blob store either: the image and the record of the
    analysis are stored on a best-effort basis, and the response and
    the number of calls of the model are the same whatever the writes
    end with. *)
Theorem netlify_analysis_response_ignores_storage
        (w : world) (failing : jsstr -> option js_error) (ev : event) (st : state) :
  fst (Netlify.Analyze.handler (Env.with_write_error w failing) ev st)
  = fst (Netlify.Analyze.handler w ev st)
  /\ model_calls (snd (Netlify.Analyze.handler (Env.with_write_error w failing) ev st))
     = model_calls (snd (Netlify.Analyze.handler w ev st)).
Proof.
  unfold Netlify.Analyze.handler, Netlify.Analyze.analyze_payload.
  change (Netlify.raw_body (Env.with_write_error w failing))
    with (Netlify.raw_body w).
  destruct (Str.eqb (httpMethod ev) Texts.POST); [|split; reflexivity].
  cbn [negb]. run. unfold Env.with_write_error. cbn -[app].
  destruct (Netlify.raw_body w ev (Some (default [] (event_body ev)))) as [e0|raw];
    [split; reflexivity|].
  destruct (Json.parse (default [] raw)) as [payload|]; [|split; reflexivity].
  destruct (Js.truthy (Some payload)).
  2:{ change (Js.get (JObj []) Keys.imageDataUrl) with (@inr js_error jsval None).
      change (Js.get (JObj []) Keys.mimeType) with (@inr js_error jsval None).
      change (Js.get (JObj []) Keys.originalName) with (@inr js_error jsval None).
      cbn -[app]. split; reflexivity. }
  destruct (Js.get payload Keys.imageDataUrl) as [e|x]; [split; reflexivity|].
  destruct (Js.get payload Keys.mimeType) as [e|m]; [split; reflexivity|].
  destruct (Js.get payload Keys.originalName) as [e|o]; [split; reflexivity|].
  destruct (negb (Js.truthy x) || negb (Js.truthy m)); [split; reflexivity|].
  destruct (negb (Netlify.Analyze.allowed_has m)); [split; reflexivity|].
  destruct (Call.string_method Texts.replace x) as [e|url]; [split; reflexivity|].
  cbn -[app].
  destruct (generateContent w Netlify.Analyze.buildPrompt
              (Base64 (Netlify.strip_data_url url)) (Analysis.string_or [] m))
    as [e|text]; [split; reflexivity|].
  cbn -[app].
  destruct (AnalysisText.of_json_text (Netlify.Analyze.extract text)) as [e|a];
    [split; reflexivity|].
  cbn -[app].
  match goal with
  | |- context [Call.string_method Texts.replace ?n] =>
      destruct (Call.string_method Texts.replace n) as [e|name]
  end; [split; reflexivity|].
  cbn -[app].
  repeat (match goal with
          | |- context [failing ?p] => destruct (failing p)
          | |- context [write_error w ?p] => destruct (write_error w p)
          end; cbn -[app]);
    split; reflexivity.
Qed.

(** X15: the Netlify analyze function checks its input before it
    asks the model: a payload without an image or without a type is
    answered 400 [Missing imageDataUrl or mimeType], and one whose
    type is not in the allowed set (a type that is no string
    included) 400 [Only JPG, JPEG, PNG are allowed]. In both cases
    nothing else happens: no call of the model, no write, no line on
    the console. A payload that is [null] or no object counts as one
    without fields. *)
Theorem netlify_analyze_checks_input (w : world) (payload : JSON) (st : state) :
  (Js.truthy (Spec.field (Spec.body_or_empty (Some payload)) Keys.imageDataUrl) = false
   \/ Js.truthy (Spec.field (Spec.body_or_empty (Some payload)) Keys.mimeType) = false ->
   Netlify.Analyze.analyze_payload w payload st
   = (inr (Netlify.Analyze.bad_request Texts.missing_image), st))
  /\ (Js.truthy (Spec.field (Spec.body_or_empty (Some payload)) Keys.imageDataUrl) = true ->
      Js.truthy (Spec.field (Spec.body_or_empty (Some payload)) Keys.mimeType) = true ->
      Netlify.Analyze.allowed_has
        (Spec.field (Spec.body_or_empty (Some payload)) Keys.mimeType) = false ->
      Netlify.Analyze.analyze_payload w payload st
      = (inr (Netlify.Analyze.bad_request Texts.only_images), st)).
Proof.
  unfold Netlify.Analyze.analyze_payload.
  change (if Js.truthy (Some payload) then payload else JObj [])
    with (Spec.body_or_empty (Some payload)).
  cbv zeta. run.
  rewrite !(get_not_null _ _ (body_or_empty_not_null (Some payload))).
  split.
  - intros [H|H]; rewrite H; cbn [negb orb]; rewrite ?orb_true_r; reflexivity.
  - intros H1 H2 H3. rewrite H1, H2, H3. reflexivity.
Qed.

Lemma netlify_analyze_checks_input_witness :
  Netlify.Analyze.analyze_payload (Sample.healthy []) JNull Sample.fresh
  = (inr (Netlify.Analyze.bad_request Texts.missing_image), Sample.fresh)
  /\ Netlify.Analyze.analyze_payload (Sample.healthy [])
       (JObj [ (Keys.imageDataUrl, JStr (Str.lit "data:image/gif;base64,R0lG"));
               (Keys.mimeType, JStr (Str.lit "image/gif")) ])
       Sample.fresh
     = (inr (Netlify.Analyze.bad_request Texts.only_images), Sample.fresh).
Proof.
  split.
  - apply (netlify_analyze_checks_input (Sample.healthy []) JNull Sample.fresh).
    left. reflexivity.
  - apply (netlify_analyze_checks_input (Sample.healthy [])
             (JObj [ (Keys.imageDataUrl, JStr (Str.lit "data:image/gif;base64,R0lG"));
                     (Keys.mimeType, JStr (Str.lit "image/gif")) ])
             Sample.fresh); vm_compute; reflexivity.
Defined.

(** X16: a POST whose body is no JSON text (an empty or absent body
    included) is answered 400 [Expected JSON body] with the message of
    the syntax error; the error and the first 200 characters of the
    body are logged, the model is not asked and nothing is stored. *)
Theorem netlify_analyze_malformed_body
        (w : world) (ev : event) (st : state) (raw : jsstr) :
  httpMethod ev = Texts.POST ->
  Netlify.raw_body w ev (Some (default [] (event_body ev))) = inr (Some raw) ->
  Json.parse raw = None ->
  Netlify.Analyze.handler w ev st =
    (inr {| statusCode := 400; headers := Netlify.json_headers;
            body := Stringified
                      (JObj [ (Keys.error, JStr Texts.expected_json);
                              (Keys.details, JStr (error_text w JsonSyntax)) ]) |},
     Store.logged (LogText (take 200 raw))
       (Store.logged (LogError (Thrown JsonSyntax)) st)).
Proof.
  intros Hpost Hraw Hparse. unfold Netlify.Analyze.handler, Str.eqb.
  rewrite bool_decide_eq_true_2 by exact Hpost. cbn [negb]. run.
  rewrite Hraw. cbn -[app]. rewrite Hparse. reflexivity.
Qed.

Lemma netlify_analyze_malformed_body_witness :
  Netlify.Analyze.handler (Sample.healthy [])
    {| httpMethod := Texts.POST; isBase64Encoded := false; event_body := None |}
    Sample.fresh =
    (inr {| statusCode := 400; headers := Netlify.json_headers;
            body := Stringified
                      (JObj [ (Keys.error, JStr Texts.expected_json);
                              (Keys.details, JStr (Str.lit "TypeError")) ]) |},
     Store.logged (LogText [])
       (Store.logged (LogError (Thrown JsonSyntax)) Sample.fresh)).
Proof.
  apply (netlify_analyze_malformed_body (Sample.healthy [])
           {| httpMethod := Texts.POST; isBase64Encoded := false; event_body := None |}
           Sample.fresh []); reflexivity.
Defined.

(** * Data URLs and extensions in the Netlify functions *)

Lemma span_no_semicolon_at (a r : jsstr) :
  ~ In 59 a -> Netlify.span_no_semicolon (a ++ 59 :: r) = (a, 59 :: r).
Proof.
  induction a as [|c a IH]; intros H; [reflexivity|].
  simpl. destruct (c =? 59) eqn:Hc.
  - apply N.eqb_eq in Hc. subst c. exfalso. apply H. left. reflexivity.
  - rewrite IH; [reflexivity|]. intros Hin. apply H. right. exact Hin.
Qed.

(** X17: stripping a base64 data URL gives back its payload, whatever
    the media type (one character at least, no semicolon) and whatever
    the payload; a text that does not begin with [data:] is left as it
    is and goes to the model unchanged. *)
Theorem strip_data_url_payload (mime payload s : jsstr) :
  (mime <> [] -> ~ In 59 mime ->
   Netlify.strip_data_url (Texts.data_ ++ mime ++ Texts.base64_ ++ payload) = payload)
  /\ (Str.startsWith Texts.data_ s = false -> Netlify.strip_data_url s = s).
Proof.
  split.
  - intros Hne Hns. unfold Netlify.strip_data_url.
    rewrite startsWith_app.
    change (drop 5 (Texts.data_ ++ mime ++ Texts.base64_ ++ payload))
      with (mime ++ Texts.base64_ ++ payload).
    change (Texts.base64_ ++ payload)
      with (59 :: Str.lit "base64," ++ payload).
    rewrite (span_no_semicolon_at _ _ Hns).
    destruct mime as [|c mime]; [congruence|].
    change (59 :: Str.lit "base64," ++ payload) with (Texts.base64_ ++ payload).
    rewrite startsWith_app. reflexivity.
  - intros H. unfold Netlify.strip_data_url. rewrite H. reflexivity.
Qed.

Lemma strip_data_url_payload_witness :
  Netlify.strip_data_url (Str.lit "data:image/png;base64,iVBORw0KGgo=")
  = Str.lit "iVBORw0KGgo="
  /\ Netlify.strip_data_url (Str.lit "iVBORw0KGgo=") = Str.lit "iVBORw0KGgo=".
Proof.
  split.
  - apply (strip_data_url_payload (Str.lit "image/png") (Str.lit "iVBORw0KGgo=") []).
    + discriminate.
    + vm_compute. intros H.
      repeat (destruct H as [H|H]; [discriminate H|]). exact H.
  - apply (strip_data_url_payload [] [] (Str.lit "iVBORw0KGgo=")). reflexivity.
Defined.

Lemma strip_extension_at_dot (base ext : jsstr) :
  ext <> [] -> ~ In 46 ext ->
  Netlify.strip_extension (base ++ 46 :: ext) = base.
Proof.
  unfold Netlify.strip_extension.
  intros Hne Hnd. rewrite rev_app_distr. cbn [rev]. rewrite <- app_assoc.
  cbn [app]. rewrite span_no_dot_at_dot by (rewrite <- in_rev; exact Hnd).
  destruct (rev ext) as [|c r] eqn:Hr.
  - exfalso. apply Hne. rewrite <- (rev_involutive ext), Hr. reflexivity.
  - apply rev_involutive.
Qed.

(** X18: removing the extension takes off the last point and what
    follows it, when something follows it: a name built from a base,
    a point and an extension without a point gives back the base; a
    name without a point, or one that ends in a point, is left as it
    is. *)
Theorem strip_extension_base (base ext s : jsstr) :
  (ext <> [] -> ~ In 46 ext ->
   Netlify.strip_extension (base ++ 46 :: ext) = base)
  /\ (~ In 46 s -> Netlify.strip_extension s = s)
  /\ Netlify.strip_extension (s ++ [46]) = s ++ [46].
Proof.
  split; [apply strip_extension_at_dot|]. unfold Netlify.strip_extension. split.
  - intros Hnd.
    destruct (span_no_dot_spec (rev s)) as (Hrev & _ & Hr).
    destruct (Path.span_no_dot (rev s)) as [a r]. cbn [fst snd] in *.
    destruct Hr as [-> | [r' ->]]; [destruct a; reflexivity|].
    exfalso. apply Hnd. apply in_rev. rewrite Hrev, in_app_iff.
    right. left. reflexivity.
  - rewrite rev_app_distr. reflexivity.
Qed.

Lemma strip_extension_base_witness :
  Netlify.strip_extension (Str.lit "my_leaf.v2.png") = Str.lit "my_leaf.v2"
  /\ Netlify.strip_extension (Str.lit "leaf") = Str.lit "leaf".
Proof.
  split.
  - apply (strip_extension_base (Str.lit "my_leaf.v2") (Str.lit "png") []).
    + discriminate.
    + vm_compute. intros H.
      repeat (destruct H as [H|H]; [discriminate H|]). exact H.
  - apply (strip_extension_base [] [] (Str.lit "leaf")).
    vm_compute. intros H.
    repeat (destruct H as [H|H]; [discriminate H|]). exact H.
Defined.

(** X23: an image sent to the Netlify function without a name is
    named [crop_<time>.png]: the sanitizer leaves that name as it is,
    so the image is stored under [uploads/crop_<time>.png], and the
    record of its analysis under [meta/crop_<time>.json]. *)
Theorem netlify_generated_name (originalName : jsval) (t : Z) :
  Js.truthy originalName = false ->
  Call.string_method Texts.replace
    (Netlify.Analyze.original_or_generated originalName t)
  = inr (Texts.crop_ ++ Str.of_Z t ++ Texts.dot_png)
  /\ Str.sanitize (Texts.crop_ ++ Str.of_Z t ++ Texts.dot_png)
     = Texts.crop_ ++ Str.of_Z t ++ Texts.dot_png
  /\ Netlify.strip_extension (Texts.crop_ ++ Str.of_Z t ++ Texts.dot_png)
     = Texts.crop_ ++ Str.of_Z t.
Proof.
  intros H. unfold Netlify.Analyze.original_or_generated. rewrite H.
  split; [reflexivity|]. split.
  - apply sanitize_id. rewrite !forallb_app, of_Z_safe. reflexivity.
  - rewrite app_assoc. change Texts.dot_png with (46 :: Str.lit "png").
    apply strip_extension_at_dot; [discriminate|].
    vm_compute. intros Hin.
    repeat (destruct Hin as [Hin|Hin]; [discriminate Hin|]). exact Hin.
Qed.

Lemma netlify_generated_name_witness :
  Call.string_method Texts.replace
    (Netlify.Analyze.original_or_generated (Some (JStr [])) 1700000000000)
  = inr (Str.lit "crop_1700000000000.png")
  /\ Str.sanitize (Str.lit "crop_1700000000000.png") = Str.lit "crop_1700000000000.png"
  /\ Netlify.strip_extension (Str.lit "crop_1700000000000.png")
     = Str.lit "crop_1700000000000".
Proof.
  apply (netlify_generated_name (Some (JStr [])) 1700000000000). reflexivity.
Defined.

(** X24: an allowed image, an answer of the model that can be read
    and a blob store that takes both writes: the Netlify function
    asks the model once, about the payload of the data URL; it
    stores the image under [uploads/<safe name>] and the record of
    the analysis under [meta/<safe name without extension>.json],
    and answers 200 with the safe name and the analysis. *)
Theorem netlify_analysis_stored
        (w : world) (ms : list (jsstr * JSON)) (st : state)
        (url mime name text : jsstr) (a : AnalysisResult) :
  Js.lookup_member Keys.imageDataUrl ms = Some (JStr url) ->
  url <> [] ->
  Js.lookup_member Keys.mimeType ms = Some (JStr mime) ->
  mime ∈ Netlify.Analyze.allowed ->
  generateContent w Netlify.Analyze.buildPrompt
                  (Base64 (Netlify.strip_data_url url)) mime = inr text ->
  AnalysisText.of_json_text (Netlify.Analyze.extract text) = inr a ->
  Call.string_method Texts.replace
    (Netlify.Analyze.original_or_generated
       (Js.lookup_member Keys.originalName ms) (clock w (clock_reads st))) = inr name ->
  write_error w (Texts.uploads_ ++ Str.sanitize name) = None ->
  write_error w (Texts.meta_ ++ Netlify.strip_extension (Str.sanitize name)
                 ++ Texts.dot_json) = None ->
  Netlify.Analyze.analyze_payload w (JObj ms) st =
    (inr {| statusCode := 200; headers := Netlify.json_headers;
            body := Stringified
                      (JObj [ (Keys.success, JBool true);
                              (Keys.imageFilename, JStr (Str.sanitize name));
                              (Keys.analysis, Analysis.to_json a) ]) |},
     Store.put (Texts.meta_ ++ Netlify.strip_extension (Str.sanitize name)
                ++ Texts.dot_json)
       (AnalysisMeta (clock w (S (clock_reads st))) (Str.sanitize name) a)
       (Store.tick
          (Store.put (Texts.uploads_ ++ Str.sanitize name)
                     (Base64 (Netlify.strip_data_url url))
                     (Store.tick (Store.asked st))))).
Proof.
  intros Hurl Hne Hmime Hal Hgen Ha Hname Hw1 Hw2.
  assert (Hmne : mime <> []).
  { intros ->. revert Hal. unfold Netlify.Analyze.allowed.
    rewrite !elem_of_union, !elem_of_singleton.
    intros [[H|H]|H]; discriminate. }
  unfold Netlify.Analyze.analyze_payload. run.
  change (Js.truthy (Some (JObj ms))) with true. simpl.
  rewrite Hurl, Hmime, !truthy_string by assumption. simpl.
  rewrite bool_decide_eq_true_2 by assumption. simpl.
  rewrite Hgen, Ha. simpl. rewrite Hname. simpl. simpl in Hw1, Hw2.
  rewrite Hw1. simpl. rewrite Hw2. reflexivity.
Qed.

Lemma netlify_analysis_stored_witness :
  Netlify.Analyze.analyze_payload (Sample.healthy Sample.blight_answer)
    (JObj [ (Keys.imageDataUrl, JStr (Str.lit "data:image/png;base64,iVBORw0KGgo="));
            (Keys.mimeType, JStr (Str.lit "image/png"));
            (Keys.originalName, JStr (Str.lit "my leaf.png")) ])
    Sample.fresh =
    (inr {| statusCode := 200; headers := Netlify.json_headers;
            body := Stringified
                      (JObj [ (Keys.success, JBool true);
                              (Keys.imageFilename, JStr (Str.lit "my_leaf.png"));
                              (Keys.analysis, Analysis.to_json Sample.blight) ]) |},
     Store.put (Str.lit "meta/my_leaf.json")
       (AnalysisMeta 1700000000001 (Str.lit "my_leaf.png") Sample.blight)
       (Store.tick
          (Store.put (Str.lit "uploads/my_leaf.png") (Base64 (Str.lit "iVBORw0KGgo="))
                     (Store.tick (Store.asked Sample.fresh))))).
Proof.
  apply (netlify_analysis_stored (Sample.healthy Sample.blight_answer)
           [ (Keys.imageDataUrl, JStr (Str.lit "data:image/png;base64,iVBORw0KGgo="));
             (Keys.mimeType, JStr (Str.lit "image/png"));
             (Keys.originalName, JStr (Str.lit "my leaf.png")) ]
           Sample.fresh
           (Str.lit "data:image/png;base64,iVBORw0KGgo=") (Str.lit "image/png")
           (Str.lit "my leaf.png") Sample.blight_answer Sample.blight);
    try (vm_compute; reflexivity).
  discriminate.
Defined.

(** * The analysis sent to the client *)

(** X19: the analysis object of a response is in normal form: read
    again as a parsed answer, it normalizes to the analysis it was
    built from, so normalization changes nothing the second time. *)
Theorem normalize_to_json (a : AnalysisResult) :
  Analysis.normalize (Analysis.to_json a) = inr a.
Proof. destruct a as [d m ds c]. vm_compute. reflexivity. Qed.

(** * The text handed to the parser *)

Lemma in_trim (c : N) (s : jsstr) : In c (Str.trim s) -> In c s.
Proof.
  unfold Str.trim. intros H.
  destruct (trimStart_suffix s) as [a Ha].
  destruct (trimEnd_prefix (Str.trimStart s)) as [b Hb].
  rewrite Ha, Hb, !in_app_iff. auto.
Qed.

Lemma search_without_tick (s : jsstr) : ~ In 96 s -> Fence.search s = None.
Proof.
  induction s as [|c s IH]; intros H; unfold Fence.search; fold Fence.search.
  - reflexivity.
  - assert (Hm : Fence.match_at (c :: s) = None).
    { unfold Fence.match_at.
      destruct (Str.startsWith Fence.ticks (c :: s)) eqn:Ht; [|reflexivity].
      apply startsWith_ticks in Ht as [r Hr]. injection Hr as -> _.
      exfalso. apply H. left. reflexivity. }
    rewrite Hm. apply IH. intros Hin. apply H. right. exact Hin.
Qed.

(** X20: the text handed to [JSON.parse] has no white space around
    it, and it is the same text on both deployments, which therefore
    read the same analysis, or the same failure, from an answer of
    the model. *)
Theorem extraction_agrees (text : jsstr) :
  Str.trim (Fence.extract text) = Fence.extract text
  /\ Netlify.Analyze.extract text = Fence.extract text
  /\ AnalysisText.of_json_text (Netlify.Analyze.extract text)
     = AnalysisText.interpret text.
Proof.
  split.
  - unfold Fence.extract. destruct (Fence.search (Str.trim text)); apply trim_idem.
  - rewrite netlify_extract_same. split; reflexivity.
Qed.

(** X21: an answer without a backtick has no fenced block: it is
    trimmed and handed to the parser as it is. *)
Theorem answer_without_fence (text : jsstr) :
  ~ In 96 text -> Fence.extract text = Str.trim text.
Proof.
  intros H. unfold Fence.extract.
  rewrite search_without_tick; [reflexivity|].
  intros Hin. apply H. exact (in_trim _ _ Hin).
Qed.

Lemma answer_without_fence_witness :
  Fence.extract (Str.lit "  not json ") = Str.lit "not json".
Proof.
  rewrite (answer_without_fence (Str.lit "  not json ")).
  - vm_compute. reflexivity.
  - vm_compute. intros H.
    repeat (destruct H as [H|H]; [discriminate H|]). exact H.
Defined.

(** * The size limit and the Netlify function *)

(** The Netlify function looks at the type of an image, not at its
    size: whenever the payload carries an image and an allowed type,
    the model is asked, however long the data URL is. *)
Lemma netlify_analyze_asks_model
      (w : world) (ms : list (jsstr * JSON)) (st : state) (url mime : jsstr) :
  Js.lookup_member Keys.imageDataUrl ms = Some (JStr url) ->
  url <> [] ->
  Js.lookup_member Keys.mimeType ms = Some (JStr mime) ->
  mime ∈ Netlify.Analyze.allowed ->
  model_calls (snd (Netlify.Analyze.analyze_payload w (JObj ms) st))
  = S (model_calls st).
Proof.
  intros Hurl Hne Hmime Hal.
  assert (Hmne : mime <> []).
  { intros ->. revert Hal. unfold Netlify.Analyze.allowed.
    rewrite !elem_of_union, !elem_of_singleton.
    intros [[H|H]|H]; discriminate. }
  unfold Netlify.Analyze.analyze_payload. run.
  change (Js.truthy (Some (JObj ms))) with true. cbv iota.
  change (Js.get (JObj ms) Keys.imageDataUrl)
    with (@inr js_error jsval (Js.lookup_member Keys.imageDataUrl ms)).
  change (Js.get (JObj ms) Keys.mimeType)
    with (@inr js_error jsval (Js.lookup_member Keys.mimeType ms)).
  change (Js.get (JObj ms) Keys.originalName)
    with (@inr js_error jsval (Js.lookup_member Keys.originalName ms)).
  cbv iota beta. rewrite Hurl, Hmime, !truthy_string by assumption.
  cbn [negb orb]. unfold Netlify.Analyze.allowed_has.
  rewrite bool_decide_eq_true_2 by assumption. cbn [negb].
  cbn [Call.string_method Analysis.string_or].
  destruct (generateContent w Netlify.Analyze.buildPrompt
              (Base64 (Netlify.strip_data_url url)) mime) as [e|text];
    [reflexivity|].
  cbv iota beta.
  destruct (AnalysisText.of_json_text (Netlify.Analyze.extract text)) as [e|a];
    [reflexivity|].
  cbv iota beta.
  match goal with
  | |- context [Call.string_method Texts.replace ?n] =>
      destruct (Call.string_method Texts.replace n) as [e|name]
  end; [reflexivity|].
  cbv iota beta.
  repeat (match goal with
          | |- context [write_error w ?p] => destruct (write_error w p)
          end; cbv iota beta);
    reflexivity.
Qed.

Lemma oversized_url_not_empty : Oversized.url <> [].
Proof. unfold Oversized.url. discriminate. Qed.

(** C6, as stated, fails on the Netlify function: an image of 10 MB
    and two bytes, sent as a base64 data URL with an allowed type, is
    handed to the model. *)
Lemma netlify_accepts_oversized_image :
  (Server.fileSize < Oversized.decoded_length Oversized.base64)%N
  /\ model_calls
       (snd (Netlify.Analyze.analyze_payload (Sample.healthy (Str.lit "{}"))
               (JObj Oversized.members) Sample.fresh)) = 1%nat.
Proof.
  split.
  - unfold Oversized.decoded_length, Oversized.base64.
    rewrite length_replicate, N2Nat.id. reflexivity.
  - apply (netlify_analyze_asks_model (Sample.healthy (Str.lit "{}"))
             Oversized.members Sample.fresh Oversized.url Texts.image_png).
    + reflexivity.
    + exact oversized_url_not_empty.
    + reflexivity.
    + unfold Netlify.Analyze.allowed.
      rewrite !elem_of_union, !elem_of_singleton. right. reflexivity.
Qed.

(** * Where the documents of the report store go *)

Lemma join_reports (name : jsstr) :
  Path.join Server.reportsDir name = Texts.reports_ ++ name.
Proof. reflexivity. Qed.

Lemma expected_base_named (n : jsstr) (t : Z) :
  n <> [] -> Spec.expected_base (Some (JStr n)) t = Some (Str.sanitize n).
Proof.
  intros Hn. unfold Spec.expected_base. rewrite (truthy_string n Hn). reflexivity.
Qed.

Lemma expected_base_generated (bn : jsval) (t : Z) :
  Js.truthy bn = false ->
  Spec.expected_base bn t = Some (Texts.analysis_ ++ Str.of_Z t).
Proof. intros H. unfold Spec.expected_base. rewrite H. reflexivity. Qed.

(** A request with a document and a base, on a disk that takes the
    document: the Express server stores it under the base. *)
Lemma server_stores_under_base
      (w : world) (reqBody : jsval) (st : state) (url base : jsstr) :
  Spec.field (Spec.body_or_empty reqBody) Keys.pdfDataUrl = Some (JStr url) ->
  Str.startsWith Texts.pdf_prefix url = true ->
  Spec.expected_base (Spec.field (Spec.body_or_empty reqBody) Keys.baseName)
                     (clock w (clock_reads st)) = Some base ->
  write_error w (Texts.reports_ ++ base ++ Texts.dot_pdf) = None ->
  Spec.stores_document st (snd (Server.save_report_handler w reqBody st))
                       (Texts.reports_ ++ base ++ Texts.dot_pdf).
Proof.
  intros Hurl Hpre Hbase Hw1.
  rewrite (save_report_server_valid w reqBody st url base Hurl Hpre Hbase).
  assert (Hwr : written (Store.after_base
                           (Spec.field (Spec.body_or_empty reqBody) Keys.baseName) st)
                = written st).
  { unfold Store.after_base. destruct (Js.truthy _); reflexivity. }
  unfold Spec.pdf_key, Spec.meta_key. rewrite !join_reports.
  run. rewrite Hw1. cbn -[app].
  assert (Hin : forall rest : list (jsstr * content),
             (Texts.reports_ ++ base ++ Texts.dot_pdf, Store.document url)
             ∈ (Texts.reports_ ++ base ++ Texts.dot_pdf, Store.document url) :: rest).
  { intros rest. left. }
  destruct (Spec.field (Spec.body_or_empty reqBody) Keys.analysis) as [a|];
    cbn -[app].
  - destruct (Js.truthy (Some a)); cbn -[app].
    + match goal with
      | |- context [write_error w ?p] => destruct (write_error w p)
      end; cbn -[app].
      * eexists _, _. rewrite Hwr. split; [reflexivity|apply Hin].
      * eexists _, _. rewrite Hwr, <- app_assoc. split; [reflexivity|apply Hin].
    + eexists _, _. rewrite Hwr. split; [reflexivity|apply Hin].
  - eexists _, _. rewrite Hwr. split; [reflexivity|apply Hin].
Qed.

(** The same in the Netlify function. *)
Lemma netlify_stores_under_base
      (w : world) (ev : event) (st : state) (payload : JSON) (url base : jsstr) :
  Spec.event_payload w ev = Some payload ->
  Spec.field payload Keys.pdfDataUrl = Some (JStr url) ->
  Str.startsWith Texts.pdf_prefix url = true ->
  Spec.expected_base (Spec.field payload Keys.baseName) (clock w (clock_reads st))
    = Some base ->
  write_error w (Texts.reports_ ++ base ++ Texts.dot_pdf) = None ->
  Spec.stores_document st (snd (Netlify.SaveReport.handler w ev st))
                       (Texts.reports_ ++ base ++ Texts.dot_pdf).
Proof.
  intros Hev Hurl Hpre Hbase Hw1.
  assert (Hnn : payload <> JNull) by (intros ->; discriminate Hurl).
  assert (Hwr : written (Store.after_base (Spec.field payload Keys.baseName) st)
                = written st).
  { unfold Store.after_base. destruct (Js.truthy _); reflexivity. }
  unfold Spec.event_payload in Hev. unfold Netlify.SaveReport.handler.
  destruct (Str.eqb (httpMethod ev) Texts.POST); [|discriminate Hev].
  cbn [negb]. run.
  destruct (Netlify.raw_body w ev (event_body ev)) as [e0|bodyRaw]; [discriminate Hev|].
  unfold Netlify.JSON_parse. rewrite Hev.
  rewrite !(get_not_null payload _ Hnn).
  rewrite Hurl, (truthy_string url (prefixed_not_empty url Hpre)).
  cbn -[app]. rewrite Hpre. cbn -[app].
  rewrite (netlify_safeBase_run w _ st base Hbase).
  rewrite (replace_prefix _ _ Hpre).
  unfold Netlify.SaveReport.save_blobs. run.
  rewrite Hw1. cbn -[app].
  assert (Hin : forall rest : list (jsstr * content),
             (Texts.reports_ ++ base ++ Texts.dot_pdf, Store.document url)
             ∈ (Texts.reports_ ++ base ++ Texts.dot_pdf, Store.document url) :: rest).
  { intros rest. left. }
  destruct (Spec.field payload Keys.analysis) as [a|]; cbn -[app].
  - destruct (Js.truthy (Some a)); cbn -[app].
    + match goal with
      | |- context [write_error w ?p] => destruct (write_error w p)
      end; cbn -[app].
      * eexists _, _. rewrite Hwr. split; [reflexivity|apply Hin].
      * eexists _, _. rewrite Hwr, <- app_assoc. split; [reflexivity|apply Hin].
    + eexists _, _. rewrite Hwr. split; [reflexivity|apply Hin].
  - eexists _, _. rewrite Hwr. split; [reflexivity|apply Hin].
Qed.

(** C8: a save-report request with a PDF data URL, on the Express
    server or in the Netlify function, stores its document when the
    store takes the write, and every document stored lies under
    [reports/<base>.pdf], where the base has only characters of
    [a-zA-Z0-9_.-]: a base name supplied by the caller gives the base
    that is this name with every other character replaced by an
    underscore, and a request that supplies none gives the base
    [analysis_] followed by the time in milliseconds. *)
Theorem report_document_key (w : world) (st : state) :
  (forall st' p,
      Spec.stores_document st st' p ->
      (forall reqBody r,
          Server.save_report_handler w reqBody st = (r, st') ->
          exists base,
            p = Texts.reports_ ++ base ++ Texts.dot_pdf
            /\ forallb Str.is_safe_char base = true
            /\ Spec.expected_base
                 (Spec.field (Spec.body_or_empty reqBody) Keys.baseName)
                 (clock w (clock_reads st)) = Some base)
      /\ (forall ev r,
          Netlify.SaveReport.handler w ev st = (r, st') ->
          exists payload base,
            Spec.event_payload w ev = Some payload
            /\ p = Texts.reports_ ++ base ++ Texts.dot_pdf
            /\ forallb Str.is_safe_char base = true
            /\ Spec.expected_base (Spec.field payload Keys.baseName)
                                  (clock w (clock_reads st)) = Some base))
  /\ (forall reqBody url name,
      Spec.field (Spec.body_or_empty reqBody) Keys.pdfDataUrl = Some (JStr url) ->
      Str.startsWith Texts.pdf_prefix url = true ->
      Spec.field (Spec.body_or_empty reqBody) Keys.baseName = Some (JStr name) ->
      name <> [] ->
      write_error w (Texts.reports_ ++ Str.sanitize name ++ Texts.dot_pdf) = None ->
      Spec.stores_document st (snd (Server.save_report_handler w reqBody st))
        (Texts.reports_ ++ Str.sanitize name ++ Texts.dot_pdf))
  /\ (forall reqBody url,
      Spec.field (Spec.body_or_empty reqBody) Keys.pdfDataUrl = Some (JStr url) ->
      Str.startsWith Texts.pdf_prefix url = true ->
      Js.truthy (Spec.field (Spec.body_or_empty reqBody) Keys.baseName) = false ->
      write_error w (Texts.reports_
                     ++ (Texts.analysis_ ++ Str.of_Z (clock w (clock_reads st)))
                     ++ Texts.dot_pdf) = None ->
      Spec.stores_document st (snd (Server.save_report_handler w reqBody st))
        (Texts.reports_
         ++ (Texts.analysis_ ++ Str.of_Z (clock w (clock_reads st)))
         ++ Texts.dot_pdf))
  /\ (forall ev payload url name,
      Spec.event_payload w ev = Some payload ->
      Spec.field payload Keys.pdfDataUrl = Some (JStr url) ->
      Str.startsWith Texts.pdf_prefix url = true ->
      Spec.field payload Keys.baseName = Some (JStr name) ->
      name <> [] ->
      write_error w (Texts.reports_ ++ Str.sanitize name ++ Texts.dot_pdf) = None ->
      Spec.stores_document st (snd (Netlify.SaveReport.handler w ev st))
        (Texts.reports_ ++ Str.sanitize name ++ Texts.dot_pdf))
  /\ (forall ev payload url,
      Spec.event_payload w ev = Some payload ->
      Spec.field payload Keys.pdfDataUrl = Some (JStr url) ->
      Str.startsWith Texts.pdf_prefix url = true ->
      Js.truthy (Spec.field payload Keys.baseName) = false ->
      write_error w (Texts.reports_
                     ++ (Texts.analysis_ ++ Str.of_Z (clock w (clock_reads st)))
                     ++ Texts.dot_pdf) = None ->
      Spec.stores_document st (snd (Netlify.SaveReport.handler w ev st))
        (Texts.reports_
         ++ (Texts.analysis_ ++ Str.of_Z (clock w (clock_reads st)))
         ++ Texts.dot_pdf)).
Proof.
  split; [intros st' p Hdoc; exact (stored_document_named w st st' p Hdoc)|].
  split.
  { intros reqBody url name Hurl Hpre Hname Hne Hw1.
    apply (server_stores_under_base w reqBody st url _ Hurl Hpre); [|exact Hw1].
    rewrite Hname. exact (expected_base_named name _ Hne). }
  split.
  { intros reqBody url Hurl Hpre Hbn Hw1.
    apply (server_stores_under_base w reqBody st url _ Hurl Hpre); [|exact Hw1].
    exact (expected_base_generated _ _ Hbn). }
  split.
  { intros ev payload url name Hev Hurl Hpre Hname Hne Hw1.
    apply (netlify_stores_under_base w ev st payload url _ Hev Hurl Hpre);
      [|exact Hw1].
    rewrite Hname. exact (expected_base_named name _ Hne). }
  intros ev payload url Hev Hurl Hpre Hbn Hw1.
  apply (netlify_stores_under_base w ev st payload url _ Hev Hurl Hpre);
    [|exact Hw1].
  exact (expected_base_generated _ _ Hbn).
Qed.

Lemma report_document_key_witness :
  Spec.stores_document Sample.fresh
    (snd (Server.save_report_handler (Sample.healthy []) (Some Report.unnamed)
                                     Sample.fresh))
    (Str.lit "reports/analysis_1700000000000.pdf")
  /\ Spec.stores_document Sample.fresh
       (snd (Netlify.SaveReport.handler (Sample.healthy [])
               (Sample.post Report.unnamed_text) Sample.fresh))
       (Str.lit "reports/analysis_1700000000000.pdf")
  /\ Spec.stores_document Sample.fresh
       (snd (Server.save_report_handler (Sample.healthy [])
               (Some Sample.report_request) Sample.fresh))
       (Str.lit "reports/my_report_1.pdf")
  /\ Spec.stores_document Sample.fresh
       (snd (Netlify.SaveReport.handler (Sample.healthy [])
               (Sample.post Sample.report_text) Sample.fresh))
       (Str.lit "reports/my_report_1.pdf")
  /\ (forall reqBody r st' p,
      Spec.stores_document Sample.fresh st' p ->
      Server.save_report_handler (Sample.healthy []) reqBody Sample.fresh = (r, st') ->
      exists base,
        p = Texts.reports_ ++ base ++ Texts.dot_pdf
        /\ forallb Str.is_safe_char base = true).
Proof.
  destruct (report_document_key (Sample.healthy []) Sample.fresh)
    as (Hall & Hsn & Hsg & Hnn & Hng).
  split.
  { apply (Hsg (Some Report.unnamed) Report.pdf_url); vm_compute; reflexivity. }
  split.
  { apply (Hng (Sample.post Report.unnamed_text) Report.unnamed Report.pdf_url);
      vm_compute; reflexivity. }
  split.
  { apply (Hsn (Some Sample.report_request) Report.pdf_url (Str.lit "my report/1"));
      try (vm_compute; reflexivity). discriminate. }
  split.
  { apply (Hnn (Sample.post Sample.report_text) Sample.report_request
               Report.pdf_url (Str.lit "my report/1"));
      try (vm_compute; reflexivity). discriminate. }
  intros reqBody r st' p Hdoc Hrun.
  destruct (proj1 (Hall st' p Hdoc) reqBody r Hrun) as (base & Hp & Hsafe & _).
  exists base. split; assumption.
Defined.

(** * The image of the report in the arithmetic of doubles *)

(** ** Rounding *)

Section Rounding.

Local Open Scope Z_scope.
Local Open Scope Q_scope.

Lemma pow2_pos (e : Z) : 0 < 2 ^ e.
Proof. apply Qpower_0_lt. reflexivity. Qed.

Lemma pow2_add (a b : Z) : 2 ^ (a + b) == 2 ^ a * 2 ^ b.
Proof. apply Qpower_plus. discriminate. Qed.

Lemma pow2_inject (n : Z) : (0 <= n)%Z -> inject_Z (2 ^ n) == 2 ^ n.
Proof. intros H. rewrite Zpower_Qpower by exact H. reflexivity. Qed.

Lemma inject_xO (p : positive) : inject_Z (Z.pos p~0) == 2 * inject_Z (Z.pos p).
Proof. rewrite Pos2Z.inj_xO, inject_Z_mult. reflexivity. Qed.

Lemma inject_xI (p : positive) : inject_Z (Z.pos p~1) == 2 * inject_Z (Z.pos p) + 1.
Proof. rewrite Pos2Z.inj_xI, inject_Z_plus, inject_Z_mult. reflexivity. Qed.

Lemma shr_1_rep (rec : shr_record) (x : Q) :
  (0 <= shr_m rec)%Z -> Binary64.Rep rec x ->
  (0 <= shr_m (shr_1 rec))%Z /\ Binary64.Rep (shr_1 rec) (x * (1 # 2)).
Proof.
  destruct rec as [m r s]. cbn [shr_m]. intros Hm (sigma & H0 & H1 & Hs & Hx).
  cbn [shr_m shr_r shr_s] in Hs, Hx.
  assert (Hsig : (r || s = false
                  <-> (if r then 1 # 4 else 0) + sigma * (1 # 2) == 0)).
  { destruct r; cbn [orb]; cbv iota.
    - split; [discriminate|]. intros H. exfalso. lra.
    - rewrite Hs. split; intros H; lra. }
  destruct m as [|[p|p|]|p]; try lia; cbn [shr_1 shr_m shr_r shr_s];
    (split; [lia|]);
    exists ((if r then 1 # 4 else 0) + sigma * (1 # 2));
    cbn [shr_m shr_r shr_s];
    (split; [destruct r; cbv iota; lra|]); (split; [destruct r; cbv iota; lra|]);
    (split; [exact Hsig|]).
  - rewrite Hx. change (inject_Z 0) with 0. destruct r; cbv iota; lra.
  - rewrite Hx, inject_xI. destruct r; cbv iota; lra.
  - rewrite Hx, inject_xO. destruct r; cbv iota; lra.
  - rewrite Hx. change (inject_Z 1) with 1. change (inject_Z 0) with 0.
    destruct r; cbv iota; lra.
Qed.

Lemma shr_1_at (rec : shr_record) (e : Z) (X : Q) :
  Binary64.RepAt rec e X -> Binary64.RepAt (shr_1 rec) (e + 1) X.
Proof.
  intros (Hm & x & Hx & HX).
  destruct (shr_1_rep rec x Hm Hx) as [Hm1 Hx1].
  split; [exact Hm1|]. exists (x * (1 # 2)). split; [exact Hx1|].
  rewrite HX, pow2_add. change (2 ^ 1) with 2. ring.
Qed.

Lemma iter_shr_at (p : positive) (rec : shr_record) (e : Z) (X : Q) :
  Binary64.RepAt rec e X -> Binary64.RepAt (SpecFloat.iter_pos shr_1 p rec) (e + Z.pos p) X.
Proof.
  revert rec e. induction p as [p IH|p IH|]; intros rec e H; cbn [SpecFloat.iter_pos].
  - replace (e + Z.pos p~1)%Z with (e + 1 + Z.pos p + Z.pos p)%Z by lia.
    apply IH, IH, shr_1_at, H.
  - replace (e + Z.pos p~0)%Z with (e + Z.pos p + Z.pos p)%Z by lia.
    apply IH, IH, H.
  - apply shr_1_at, H.
Qed.

Lemma rep_of_loc (m : Z) (l : location) (theta : Q) :
  Binary64.Loc l theta -> Binary64.Rep (shr_record_of_loc m l) (inject_Z m + theta).
Proof.
  destruct l as [|[]]; cbn [Binary64.Loc shr_record_of_loc]; intros H.
  - exists 0. cbn [shr_m shr_r shr_s]. repeat split; try lra; try reflexivity.
  - exists 0. cbn [shr_m shr_r shr_s]. repeat split; try lra; try reflexivity.
  - exists theta. cbn [shr_m shr_r shr_s].
    repeat split; try lra; try discriminate.
  - exists (theta - (1 # 2)). cbn [shr_m shr_r shr_s].
    repeat split; try lra; try discriminate.
Qed.

(** Rounding to nearest, ties to even, moves by at most one half. *)
Lemma round_nearest_even_rep (rec : shr_record) (x : Q) :
  Binary64.Rep rec x ->
  (shr_m rec <= round_nearest_even (shr_m rec) (loc_of_shr_record rec)
   <= shr_m rec + 1)%Z
  /\ inject_Z (shr_m rec) <= x /\ x < inject_Z (shr_m rec) + 1
  /\ x - (1 # 2)
     <= inject_Z (round_nearest_even (shr_m rec) (loc_of_shr_record rec))
  /\ inject_Z (round_nearest_even (shr_m rec) (loc_of_shr_record rec))
     <= x + (1 # 2).
Proof.
  destruct rec as [m r s]. intros (sigma & H0 & H1 & Hs & Hx).
  cbn [shr_m shr_r shr_s] in *.
  assert (Hm1 : inject_Z (m + 1) == inject_Z m + 1).
  { rewrite inject_Z_plus. reflexivity. }
  destruct r, s; cbn [loc_of_shr_record round_nearest_even].
  - rewrite Hm1. split; [lia|]. lra.
  - assert (sigma == 0) by (apply Hs; reflexivity).
    destruct (Z.even m); rewrite ?Hm1; (split; [lia|]); lra.
  - split; [lia|]. lra.
  - assert (sigma == 0) by (apply Hs; reflexivity).
    split; [lia|]. lra.
Qed.

Lemma digits2_size (p : positive) : digits2_pos p = Pos.size p.
Proof. induction p as [p IH|p IH|]; cbn; rewrite ?IH; reflexivity. Qed.

Lemma digits_bounds (p : positive) :
  (2 ^ (Z.pos (digits2_pos p) - 1) <= Z.pos p < 2 ^ Z.pos (digits2_pos p))%Z.
Proof.
  rewrite digits2_size. split.
  - pose proof (Pos.size_le p) as H.
    assert (H' : (2 ^ Z.pos (Pos.size p) <= 2 * Z.pos p)%Z).
    { rewrite <- Pos2Z.inj_pow. exact H. }
    replace (Z.pos (Pos.size p)) with (Z.pos (Pos.size p) - 1 + 1)%Z in H' by lia.
    rewrite Z.pow_add_r in H' by lia. lia.
  - pose proof (Pos.size_gt p) as H.
    rewrite <- Pos2Z.inj_pow. exact H.
Qed.

Lemma digits_unique (p : positive) (k : Z) :
  (2 ^ (k - 1) <= Z.pos p < 2 ^ k)%Z -> Z.pos (digits2_pos p) = k.
Proof.
  intros [Hl Hu]. destruct (digits_bounds p) as [Hl' Hu'].
  assert (Hk : (0 < k)%Z).
  { destruct (Z.lt_ge_cases 0%Z k) as [H|H]; [exact H|].
    exfalso. destruct (Z.eq_dec k 0%Z) as [->|Hne]; [cbn in Hu; lia|].
    rewrite Z.pow_neg_r in Hu by lia. lia. }
  destruct (Z.lt_trichotomy (Z.pos (digits2_pos p)) k) as [H|[H|H]];
    [exfalso|exact H|exfalso].
  - assert (2 ^ Z.pos (digits2_pos p) <= 2 ^ (k - 1))%Z
      by (apply Z.pow_le_mono_r; lia).
    lia.
  - assert (2 ^ k <= 2 ^ (Z.pos (digits2_pos p) - 1))%Z
      by (apply Z.pow_le_mono_r; lia).
    lia.
Qed.

Lemma fexp_normal (e : Z) :
  (-1074 <= e - 53)%Z -> fexp prec emax e = (e - 53)%Z.
Proof. unfold fexp, SpecFloat.emin, prec, emax. lia. Qed.

Lemma loc_range (l : location) (theta : Q) : Binary64.Loc l theta -> 0 <= theta /\ theta < 1.
Proof. destruct l as [|[]]; cbn [Binary64.Loc]; intros H; lra. Qed.

Lemma shr_m_of_loc (m : Z) (l : location) : shr_m (shr_record_of_loc m l) = m.
Proof. destruct l as [|[]]; reflexivity. Qed.

Lemma Qmult_le_cancel (a b c : Q) : 0 < c -> a * c <= b * c -> a <= b.
Proof. intros Hc H. apply (Qmult_le_r a b c Hc). exact H. Qed.

Lemma Qmult_lt_cancel (a b c : Q) : 0 < c -> a * c < b * c -> a < b.
Proof. intros Hc H. apply (Qmult_lt_r a b c Hc). exact H. Qed.

(** The first shift of the rounding brings the mantissa to 53 bits. *)
Lemma first_shift (mx ex : Z) (lx : location) (theta : Q) (d : Z) :
  (0 < mx)%Z -> Binary64.Loc lx theta -> Zdigits2 mx = d ->
  (53 <= d)%Z -> (-1074 <= ex + d - 53)%Z ->
  exists rec1,
    shr_fexp prec emax mx ex lx = (rec1, (ex + d - 53)%Z)
    /\ Binary64.RepAt rec1 (ex + d - 53) ((inject_Z mx + theta) * 2 ^ ex).
Proof.
  intros Hmx Hloc Hd H53 Hnorm.
  assert (H0 : Binary64.RepAt (shr_record_of_loc mx lx) ex ((inject_Z mx + theta) * 2 ^ ex)).
  { split; [rewrite shr_m_of_loc; lia|].
    exists (inject_Z mx + theta). split; [apply rep_of_loc, Hloc|reflexivity]. }
  unfold shr_fexp. rewrite Hd, fexp_normal by lia.
  replace (d + ex - 53 - ex)%Z with (d - 53)%Z by lia.
  destruct (d - 53)%Z as [|p|p] eqn:Hn; try lia; cbn [shr].
  - replace (ex + d - 53)%Z with ex by lia. eauto.
  - replace (ex + d - 53)%Z with (ex + Z.pos p)%Z by lia.
    eexists. split; [reflexivity|]. apply iter_shr_at, H0.
Qed.

(** After the first shift the value lies between 2^52 and 2^53. *)
Lemma shifted_range (mx ex d : Z) (theta x : Q) :
  (0 < mx)%Z -> Zdigits2 mx = d -> (53 <= d)%Z ->
  0 <= theta -> theta < 1 ->
  (inject_Z mx + theta) * 2 ^ ex == x * 2 ^ (ex + d - 53) ->
  4503599627370496 <= x /\ x < 9007199254740992.
Proof.
  intros Hmx Hd H53 Ht0 Ht1 Hx.
  pose proof (pow2_pos ex) as HE.
  pose proof (pow2_pos (d - 53)) as HP.
  assert (Hx' : inject_Z mx + theta == x * 2 ^ (d - 53)).
  { apply (Qmult_inj_r _ _ (2 ^ ex)); [lra|].
    rewrite Hx. replace (ex + d - 53)%Z with (ex + (d - 53))%Z by lia.
    rewrite pow2_add. ring. }
  destruct mx as [|p|p]; try lia. cbn [Zdigits2] in Hd.
  destruct (digits_bounds p) as [Hl Hu]. rewrite Hd in Hl, Hu.
  assert (Hl' : (4503599627370496 * 2 ^ (d - 53) <= Z.pos p)%Z).
  { replace (d - 1)%Z with (52 + (d - 53))%Z in Hl by lia.
    rewrite Z.pow_add_r in Hl by lia. exact Hl. }
  assert (Hu' : (Z.pos p + 1 <= 9007199254740992 * 2 ^ (d - 53))%Z).
  { replace d with (53 + (d - 53))%Z in Hu at 1 by lia.
    rewrite Z.pow_add_r in Hu by lia. lia. }
  rewrite Zle_Qle, inject_Z_mult, pow2_inject in Hl' by lia.
  rewrite Zle_Qle, inject_Z_plus, inject_Z_mult, pow2_inject in Hu' by lia.
  change (inject_Z 4503599627370496) with 4503599627370496 in Hl'.
  change (inject_Z 9007199254740992) with 9007199254740992 in Hu'.
  change (inject_Z 1) with 1 in Hu'.
  split.
  - apply (Qmult_le_cancel _ _ (2 ^ (d - 53)) HP). lra.
  - apply (Qmult_lt_cancel _ _ (2 ^ (d - 53)) HP). lra.
Qed.

(** The second shift of the rounding: nothing, or one bit when the
    rounded mantissa has reached 2^53. *)
Lemma second_shift (m2 e1 : Z) :
  (4503599627370496 <= m2 <= 9007199254740992)%Z ->
  (-1074 <= e1 <= 970)%Z ->
  exists m e,
    (let '(mrs, e') := shr_fexp prec emax m2 e1 loc_Exact in
     match shr_m mrs with
     | Z0 => S754_zero false
     | Zpos m => if Z.leb e' (emax - prec) then S754_finite false m e'
                 else S754_infinity false
     | Zneg _ => S754_nan
     end) = S754_finite false m e
    /\ Z.pos (digits2_pos m) = 53%Z
    /\ (e1 <= e <= e1 + 1)%Z
    /\ inject_Z (Z.pos m) * 2 ^ e == inject_Z m2 * 2 ^ e1.
Proof.
  intros Hm He.
  destruct (Z.eq_dec m2 9007199254740992%Z) as [->|Hne].
  - exists 4503599627370496%positive, (e1 + 1)%Z.
    unfold shr_fexp.
    change (Zdigits2 9007199254740992%Z) with 54%Z.
    rewrite fexp_normal by lia.
    replace (54 + e1 - 53 - e1)%Z with 1%Z by lia.
    cbn [shr_record_of_loc shr SpecFloat.iter_pos shr_1 shr_m orb].
    replace (e1 + 1 <=? emax - prec)%Z with true
      by (symmetry; apply Z.leb_le; unfold emax, prec; lia).
    split; [reflexivity|]. split; [reflexivity|]. split; [lia|].
    rewrite pow2_add. change (2 ^ 1) with 2.
    change (inject_Z (Z.pos 4503599627370496)) with 4503599627370496.
    change (inject_Z 9007199254740992) with 9007199254740992. ring.
  - destruct m2 as [|q|q]; try lia.
    assert (Hd : Z.pos (digits2_pos q) = 53%Z).
    { apply digits_unique. change (2 ^ (53 - 1))%Z with 4503599627370496%Z.
      change (2 ^ 53)%Z with 9007199254740992%Z. lia. }
    exists q, e1. unfold shr_fexp. cbn [Zdigits2]. rewrite Hd.
    rewrite fexp_normal by lia.
    replace (53 + e1 - 53 - e1)%Z with 0%Z by lia.
    cbn [shr_record_of_loc shr shr_m].
    replace (e1 <=? emax - prec)%Z with true
      by (symmetry; apply Z.leb_le; unfold emax, prec; lia).
    split; [reflexivity|]. split; [reflexivity|]. split; [lia|reflexivity].
Qed.

(** Rounding to binary64 in the normal range: the result is a number
    of 53 bits within a relative error of 2^-53 of the exact value. *)
Lemma round_aux_spec (mx ex : Z) (lx : location) (theta : Q) (d : Z) :
  (0 < mx)%Z -> Binary64.Loc lx theta -> Zdigits2 mx = d ->
  (53 <= d)%Z -> (-1074 <= ex + d - 53)%Z -> (ex + d <= 1023)%Z ->
  exists m e,
    binary_round_aux prec emax false mx ex lx = S754_finite false m e
    /\ Z.pos (digits2_pos m) = 53%Z
    /\ (ex + d - 53 <= e <= ex + d - 52)%Z
    /\ (inject_Z mx + theta) * 2 ^ ex * (1 - Binary64.u53) <= inject_Z (Z.pos m) * 2 ^ e
    /\ inject_Z (Z.pos m) * 2 ^ e <= (inject_Z mx + theta) * 2 ^ ex * (1 + Binary64.u53).
Proof.
  intros Hmx Hloc Hd H53 Hnorm Hmax.
  destruct (loc_range _ _ Hloc) as [Ht0 Ht1].
  destruct (first_shift mx ex lx theta d Hmx Hloc Hd H53 Hnorm)
    as (rec1 & Hrun1 & Hm1 & x & Hrep & HX).
  destruct (shifted_range mx ex d theta x Hmx Hd H53 Ht0 Ht1 HX) as [Hx52 Hx53].
  destruct (round_nearest_even_rep rec1 x Hrep) as (Hr & Hfl & Hfu & Hrl & Hru).
  set (m2 := round_nearest_even (shr_m rec1) (loc_of_shr_record rec1)) in *.
  assert (Hm2 : (4503599627370496 <= m2 <= 9007199254740992)%Z).
  { assert (H1 : (shr_m rec1 < 9007199254740992)%Z).
    { rewrite Zlt_Qlt. change (inject_Z 9007199254740992) with 9007199254740992. lra. }
    assert (H2 : (4503599627370496 < shr_m rec1 + 1)%Z).
    { rewrite Zlt_Qlt, inject_Z_plus.
      change (inject_Z 4503599627370496) with 4503599627370496.
      change (inject_Z 1) with 1. lra. }
    lia. }
  destruct (second_shift m2 (ex + d - 53)%Z Hm2 ltac:(lia))
    as (m & e & Hrun2 & Hdm & He & Hv).
  exists m, e. unfold binary_round_aux. rewrite Hrun1. fold m2.
  split; [exact Hrun2|]. split; [exact Hdm|]. split; [lia|].
  pose proof (pow2_pos (ex + d - 53)) as HF.
  rewrite Hv, HX. unfold Binary64.u53.
  split.
  - assert (E : x * 2 ^ (ex + d - 53) * (1 - (1 # 9007199254740992))
                == x * (1 - (1 # 9007199254740992)) * 2 ^ (ex + d - 53)) by ring.
    rewrite E. apply Qmult_le_compat_r; lra.
  - assert (E : x * 2 ^ (ex + d - 53) * (1 + (1 # 9007199254740992))
                == x * (1 + (1 # 9007199254740992)) * 2 ^ (ex + d - 53)) by ring.
    rewrite E. apply Qmult_le_compat_r; lra.
Qed.

(** A mantissa of 53 bits. *)
Lemma mantissa_range (m : positive) :
  Z.pos (digits2_pos m) = 53%Z ->
  (4503599627370496 <= Z.pos m < 9007199254740992)%Z.
Proof.
  intros H. pose proof (digits_bounds m) as Hb. rewrite H in Hb. exact Hb.
Qed.

(** The digits of a positive number between two powers of two. *)
Lemma digits_between (p : positive) (lo hi : Z) :
  (0 <= lo)%Z -> (2 ^ lo <= Z.pos p < 2 ^ hi)%Z ->
  (lo < Z.pos (digits2_pos p) <= hi)%Z.
Proof.
  intros H0 [Hl Hu]. destruct (digits_bounds p) as [Hl' Hu']. split.
  - destruct (Z.lt_ge_cases lo (Z.pos (digits2_pos p))) as [H|H]; [exact H|].
    exfalso.
    assert (2 ^ Z.pos (digits2_pos p) <= 2 ^ lo)%Z by (apply Z.pow_le_mono_r; lia).
    lia.
  - destruct (Z.le_gt_cases (Z.pos (digits2_pos p)) hi) as [H|H]; [exact H|].
    exfalso.
    assert (2 ^ hi <= 2 ^ (Z.pos (digits2_pos p) - 1))%Z
      by (apply Z.pow_le_mono_r; lia).
    lia.
Qed.

(** The product of two positive numbers of binary64 in the normal
    range: a number of 53 bits within 2^-53 of the exact product. *)
Lemma SFmul_spec (m1 m2 : positive) (e1 e2 : Z) :
  Z.pos (digits2_pos m1) = 53%Z -> Z.pos (digits2_pos m2) = 53%Z ->
  (-1126 <= e1 + e2)%Z -> (e1 + e2 <= 917)%Z ->
  exists m e,
    SFmul prec emax (S754_finite false m1 e1) (S754_finite false m2 e2)
    = S754_finite false m e
    /\ Z.pos (digits2_pos m) = 53%Z
    /\ (e1 + e2 + 52 <= e <= e1 + e2 + 54)%Z
    /\ inject_Z (Z.pos m1) * 2 ^ e1 * (inject_Z (Z.pos m2) * 2 ^ e2) * (1 - Binary64.u53)
       <= inject_Z (Z.pos m) * 2 ^ e
    /\ inject_Z (Z.pos m) * 2 ^ e
       <= inject_Z (Z.pos m1) * 2 ^ e1 * (inject_Z (Z.pos m2) * 2 ^ e2) * (1 + Binary64.u53).
Proof.
  intros H1 H2 Hlo Hhi.
  pose proof (mantissa_range m1 H1) as R1.
  pose proof (mantissa_range m2 H2) as R2.
  assert (Hd : (104 < Z.pos (digits2_pos (m1 * m2)) <= 106)%Z).
  { apply digits_between; [lia|]. rewrite Pos2Z.inj_mul.
    change (2 ^ 104)%Z with (4503599627370496 * 4503599627370496)%Z.
    change (2 ^ 106)%Z with (9007199254740992 * 9007199254740992)%Z.
    nia. }
  destruct (round_aux_spec (Z.pos (m1 * m2)) (e1 + e2) loc_Exact 0
              (Z.pos (digits2_pos (m1 * m2))))
    as (m & e & Hrun & Hdm & He & Hl & Hu);
    [lia|reflexivity|reflexivity|lia|lia|lia|].
  exists m, e. cbn [SFmul xorb]. split; [exact Hrun|]. split; [exact Hdm|].
  split; [lia|].
  assert (E : (inject_Z (Z.pos (m1 * m2)) + 0) * 2 ^ (e1 + e2)
              == inject_Z (Z.pos m1) * 2 ^ e1 * (inject_Z (Z.pos m2) * 2 ^ e2)).
  { rewrite Pos2Z.inj_mul, inject_Z_mult, pow2_add. ring. }
  rewrite <- E. split; assumption.
Qed.

(** The location of a quotient between two integers, as the division
    of the mantissas records it. *)
Lemma new_location_loc (den r : Z) :
  (0 <= r < den)%Z -> Binary64.Loc (new_location den r) (inject_Z r / inject_Z den).
Proof.
  intros [Hr0 Hr].
  assert (Hden : 0 < inject_Z den).
  { change 0 with (inject_Z 0). rewrite <- Zlt_Qlt. lia. }
  assert (Ht : inject_Z r / inject_Z den * inject_Z den == inject_Z r).
  { field. lra. }
  set (t := inject_Z r / inject_Z den) in *. clearbody t.
  assert (Hlt : forall a b : Z, (a < b)%Z -> inject_Z a < inject_Z b).
  { intros a b H. rewrite <- Zlt_Qlt. exact H. }
  assert (H2 : inject_Z (2 * r) == 2 * t * inject_Z den).
  { rewrite inject_Z_mult. change (inject_Z 2) with 2. lra. }
  assert (Hcases : forall c,
             (2 * r ?= den)%Z = c ->
             r <> 0%Z -> Binary64.Loc (loc_Inexact c) t).
  { intros c Hc Hne. destruct c; cbn [Binary64.Loc].
    - apply Z.compare_eq in Hc.
      rewrite Hc in H2.
      apply (Qmult_inj_r _ _ (inject_Z den)); [lra|]. lra.
    - apply Z.compare_lt_iff in Hc. apply Hlt in Hc.
      assert (H0 : 0 < inject_Z r) by (apply (Hlt 0%Z r); lia).
      split.
      + apply (Qmult_lt_cancel _ _ (inject_Z den) Hden). lra.
      + apply (Qmult_lt_cancel _ _ (inject_Z den) Hden). lra.
    - apply Z.compare_gt_iff in Hc. apply Hlt in Hc. apply Hlt in Hr.
      split.
      + apply (Qmult_lt_cancel _ _ (inject_Z den) Hden). lra.
      + apply (Qmult_lt_cancel _ _ (inject_Z den) Hden). lra. }
  unfold new_location.
  destruct (Z.even den) eqn:Hev;
    unfold new_location_even, new_location_odd;
    (destruct (Z.eqb_spec r 0) as [->|Hne];
     [cbn [Binary64.Loc]; apply (Qmult_inj_r _ _ (inject_Z den)); [lra|];
      rewrite Ht; change (inject_Z 0) with 0; ring|]).
  - apply Hcases; [reflexivity|exact Hne].
  - assert (Hodd : (2 * r <> den)%Z).
    { intros <-. rewrite Z.even_mul in Hev. discriminate Hev. }
    destruct (Z.compare_spec (2 * r + 1) den) as [Hc|Hc|Hc];
      (apply Hcases; [|exact Hne]).
    + apply Z.compare_lt_iff. lia.
    + apply Z.compare_lt_iff. lia.
    + apply Z.compare_gt_iff. lia.
Qed.

(** The quotient of two positive numbers of binary64 in the normal
    range: a number of 53 bits within 2^-53 of the exact quotient
    [X], given by [X * y = x]. *)
Lemma SFdiv_spec (m1 m2 : positive) (e1 e2 : Z) :
  Z.pos (digits2_pos m1) = 53%Z -> Z.pos (digits2_pos m2) = 53%Z ->
  (-1021 <= e1 - e2)%Z -> (e1 - e2 <= 1022)%Z ->
  exists m e X,
    SFdiv prec emax (S754_finite false m1 e1) (S754_finite false m2 e2)
    = S754_finite false m e
    /\ Z.pos (digits2_pos m) = 53%Z
    /\ (e1 - e2 - 53 <= e <= e1 - e2 - 51)%Z
    /\ X * (inject_Z (Z.pos m2) * 2 ^ e2) == inject_Z (Z.pos m1) * 2 ^ e1
    /\ X * (1 - Binary64.u53) <= inject_Z (Z.pos m) * 2 ^ e
    /\ inject_Z (Z.pos m) * 2 ^ e <= X * (1 + Binary64.u53).
Proof.
  intros H1 H2 Hlo Hhi.
  pose proof (mantissa_range m1 H1) as R1.
  pose proof (mantissa_range m2 H2) as R2.
  cbn [SFdiv xorb]. unfold SFdiv_core_binary. cbn [Zdigits2].
  rewrite H1, H2.
  replace (53 + e1 - (53 + e2))%Z with (e1 - e2)%Z by lia.
  rewrite fexp_normal by lia.
  rewrite Z.min_l by lia.
  replace (e1 - e2 - (e1 - e2 - 53))%Z with 53%Z by lia.
  cbv iota beta. rewrite Z.shiftl_mul_pow2 by lia.
  change (2 ^ 53)%Z with 9007199254740992%Z.
  pose proof (Z_div_mod (Z.pos m1 * 9007199254740992) (Z.pos m2) ltac:(lia)) as Hdiv.
  destruct (Z.div_eucl (Z.pos m1 * 9007199254740992) (Z.pos m2)) as [q r].
  destruct Hdiv as [Hq Hr].
  assert (Hqr : (4503599627370496 <= q < 18014398509481984)%Z).
  { split.
    - destruct (Z.lt_ge_cases q 4503599627370496) as [H|H]; [exfalso|lia].
      assert (Z.pos m2 * (q + 1) <= Z.pos m2 * 4503599627370496)%Z
        by (apply Z.mul_le_mono_nonneg_l; lia).
      lia.
    - destruct (Z.lt_ge_cases q 18014398509481984) as [H|H]; [exact H|exfalso].
      assert (Z.pos m2 * 18014398509481984 <= Z.pos m2 * q)%Z
        by (apply Z.mul_le_mono_nonneg_l; lia).
      lia. }
  destruct q as [|pq|pq]; try lia.
  assert (Hd : (52 < Z.pos (digits2_pos pq) <= 54)%Z).
  { apply digits_between; [lia|].
    change (2 ^ 52)%Z with 4503599627370496%Z.
    change (2 ^ 54)%Z with 18014398509481984%Z. lia. }
  destruct (round_aux_spec (Z.pos pq) (e1 - e2 - 53) (new_location (Z.pos m2) r)
              (inject_Z r / inject_Z (Z.pos m2)) (Z.pos (digits2_pos pq)))
    as (m & e & Hrun & Hdm & He & Hl & Hu);
    [lia|apply new_location_loc; lia|reflexivity|lia|lia|lia|].
  exists m, e,
    ((inject_Z (Z.pos pq) + inject_Z r / inject_Z (Z.pos m2)) * 2 ^ (e1 - e2 - 53)).
  split; [exact Hrun|]. split; [exact Hdm|]. split; [lia|].
  split; [|split; assumption].
  assert (Hm2 : 0 < inject_Z (Z.pos m2)) by reflexivity.
  assert (Hz : inject_Z (Z.pos m1) * 9007199254740992
               == inject_Z (Z.pos m2) * inject_Z (Z.pos pq) + inject_Z r).
  { change 9007199254740992 with (inject_Z 9007199254740992).
    rewrite <- !inject_Z_mult, <- inject_Z_plus, Hq. reflexivity. }
  assert (Hp : 2 ^ e1 == 2 ^ (e1 - e2 - 53) * 2 ^ e2 * 9007199254740992).
  { replace e1 with ((e1 - e2 - 53) + e2 + 53)%Z at 1 by lia.
    rewrite !pow2_add. reflexivity. }
  rewrite Hp.
  assert (Hf : (inject_Z (Z.pos pq) + inject_Z r / inject_Z (Z.pos m2))
               * inject_Z (Z.pos m2)
               == inject_Z (Z.pos m1) * 9007199254740992).
  { rewrite Hz. field. lra. }
  assert (E : forall a b c d : Q, a * b * (c * d) == a * c * (b * d))
    by (intros; ring).
  rewrite E, Hf. ring.
Qed.

(** A mantissa of 53 bits in the normal range is left as it is. *)
Lemma round_aux_exact (mx : positive) (ex : Z) :
  Z.pos (digits2_pos mx) = 53%Z -> (-1074 <= ex <= 970)%Z ->
  binary_round_aux prec emax false (Z.pos mx) ex loc_Exact
  = S754_finite false mx ex.
Proof.
  intros Hd He. unfold binary_round_aux, shr_fexp. cbn [Zdigits2]. rewrite Hd.
  rewrite fexp_normal by lia.
  replace (53 + ex - 53 - ex)%Z with 0%Z by lia.
  cbn [shr shr_record_of_loc shr_m loc_of_shr_record round_nearest_even Zdigits2].
  rewrite Hd, fexp_normal by lia.
  replace (53 + ex - 53 - ex)%Z with 0%Z by lia.
  cbn [shr shr_record_of_loc shr_m].
  replace (ex <=? emax - prec)%Z with true
    by (symmetry; apply Z.leb_le; unfold emax, prec; lia).
  reflexivity.
Qed.

Lemma iter_xO (p k : positive) :
  Z.pos (Pos.iter xO p k) = (Z.pos p * 2 ^ Z.pos k)%Z.
Proof.
  induction k as [|k IH] using Pos.peano_ind.
  - cbn [Pos.iter]. lia.
  - rewrite Pos.iter_succ, Pos2Z.inj_xO, IH, Pos2Z.inj_succ, Z.pow_succ_r by lia.
    ring.
Qed.

(** A positive integer below 2^32 is a number of binary64. *)
Lemma normalize_integer (w : Z) :
  (0 < w < 4294967296)%Z ->
  exists m e,
    binary_normalize prec emax w 0 false = S754_finite false m e
    /\ Z.pos (digits2_pos m) = 53%Z
    /\ (-52 <= e <= -21)%Z
    /\ inject_Z (Z.pos m) * 2 ^ e == inject_Z w.
Proof.
  intros Hw. destruct w as [|p|p]; try lia.
  assert (Hd : (0 < Z.pos (digits2_pos p) <= 32)%Z).
  { split; [lia|]. apply (digits_between p 0 32); [lia|].
    change (2 ^ 32)%Z with 4294967296%Z. cbn. lia. }
  destruct (digits_bounds p) as [Hl Hu].
  cbn [binary_normalize]. unfold binary_round.
  rewrite fexp_normal by lia. unfold shl_align.
  replace (Z.pos (digits2_pos p) + 0 - 53 - 0)%Z
    with (Z.pos (digits2_pos p) - 53)%Z by lia.
  destruct (Z.pos (digits2_pos p) - 53)%Z as [|k|k] eqn:Hk; try lia.
  assert (Hm : (Z.pos (Pos.iter xO p k) = Z.pos p * 2 ^ Z.pos k)%Z)
    by apply iter_xO.
  assert (H52 : (2 ^ (Z.pos (digits2_pos p) - 1) * 2 ^ Z.pos k
                 = 4503599627370496)%Z).
  { rewrite <- Z.pow_add_r by lia.
    replace (Z.pos (digits2_pos p) - 1 + Z.pos k)%Z with 52%Z by lia.
    reflexivity. }
  assert (H53 : (2 ^ Z.pos (digits2_pos p) * 2 ^ Z.pos k
                 = 9007199254740992)%Z).
  { rewrite <- Z.pow_add_r by lia.
    replace (Z.pos (digits2_pos p) + Z.pos k)%Z with 53%Z by lia.
    reflexivity. }
  assert (Hpk : (0 < 2 ^ Z.pos k)%Z) by (apply Z.pow_pos_nonneg; lia).
  assert (Hdm : Z.pos (digits2_pos (Pos.iter xO p k)) = 53%Z).
  { apply digits_unique. rewrite Hm.
    change (2 ^ (53 - 1))%Z with 4503599627370496%Z.
    change (2 ^ 53)%Z with 9007199254740992%Z. nia. }
  exists (Pos.iter xO p k), (Z.pos (digits2_pos p) + 0 - 53)%Z.
  split; [apply round_aux_exact; [exact Hdm|lia]|].
  split; [exact Hdm|]. split; [lia|].
  rewrite Hm, inject_Z_mult, pow2_inject by lia.
  replace (Z.pos (digits2_pos p) + 0 - 53)%Z with (- Z.pos k)%Z by lia.
  rewrite Qpower_opp. field.
  pose proof (pow2_pos (Z.pos k)). lra.
Qed.

(** The value of a positive number of binary64. *)
Lemma SFltb_value (m1 m2 : positive) (e1 e2 : Z) :
  Z.pos (digits2_pos m1) = 53%Z -> Z.pos (digits2_pos m2) = 53%Z ->
  (SFltb (S754_finite false m1 e1) (S754_finite false m2 e2) = true ->
   inject_Z (Z.pos m1) * 2 ^ e1 < inject_Z (Z.pos m2) * 2 ^ e2)
  /\ (SFltb (S754_finite false m1 e1) (S754_finite false m2 e2) = false ->
      inject_Z (Z.pos m2) * 2 ^ e2 <= inject_Z (Z.pos m1) * 2 ^ e1).
Proof.
  intros H1 H2.
  pose proof (mantissa_range m1 H1) as R1.
  pose proof (mantissa_range m2 H2) as R2.
  assert (Hq : forall a b : Z, (a < b)%Z -> inject_Z a < inject_Z b).
  { intros a b H. rewrite <- Zlt_Qlt. exact H. }
  assert (Hq' : forall a b : Z, (a <= b)%Z -> inject_Z a <= inject_Z b).
  { intros a b H. rewrite <- Zle_Qle. exact H. }
  assert (Hstep : forall (ma mb : positive) (ea eb : Z),
             (4503599627370496 <= Z.pos mb)%Z ->
             (Z.pos ma < 9007199254740992)%Z -> (ea < eb)%Z ->
             inject_Z (Z.pos ma) * 2 ^ ea < inject_Z (Z.pos mb) * 2 ^ eb).
  { intros ma mb ea eb Hb Ha He.
    pose proof (pow2_pos ea) as Pa.
    assert (Hp : 2 * 2 ^ ea <= 2 ^ eb).
    { change (2 * 2 ^ ea) with (2 ^ 1 * 2 ^ ea). rewrite <- pow2_add.
      apply Qpower_le_compat_l; [lia|lra]. }
    apply Hq in Ha. apply Hq' in Hb.
    change (inject_Z 9007199254740992) with 9007199254740992 in Ha.
    change (inject_Z 4503599627370496) with 4503599627370496 in Hb.
    apply Qlt_le_trans with (9007199254740992 * 2 ^ ea).
    - apply Qmult_lt_compat_r; assumption.
    - apply Qle_trans with (4503599627370496 * 2 ^ eb).
      + lra.
      + apply Qmult_le_compat_r; [exact Hb|]. pose proof (pow2_pos eb). lra. }
  unfold SFltb, SFcompare.
  destruct (Z.compare_spec e1 e2) as [He|He|He].
  - subst e2. pose proof (pow2_pos e1) as P.
    change (Pos.compare_cont Eq m1 m2) with (Pos.compare m1 m2).
    destruct (Pos.compare_spec m1 m2) as [Hm|Hm|Hm].
    + subst m2. split; [discriminate|]. intros _. lra.
    + split; [|discriminate]. intros _.
      apply Qmult_lt_compat_r; [exact P|]. apply Hq. lia.
    + split; [discriminate|]. intros _.
      apply Qmult_le_compat_r; [|lra]. apply Hq'. lia.
  - split; [|discriminate]. intros _. apply Hstep; lia.
  - split; [discriminate|]. intros _. apply Qlt_le_weak. apply Hstep; lia.
Qed.

(** ** The operations of the renderer on positive numbers *)

Lemma normal_value (x : float) (m : positive) (e : Z) :
  Pdf.normal x m e -> Pdf.value x = inject_Z (Z.pos m) * 2 ^ e.
Proof. intros [H _]. unfold Pdf.value. rewrite H. reflexivity. Qed.

Lemma normal_positive (x : float) (m : positive) (e : Z) :
  Pdf.normal x m e -> 0 < Pdf.value x.
Proof.
  intros H. rewrite (normal_value x m e H).
  apply Qmult_lt_0_compat; [reflexivity|apply pow2_pos].
Qed.

Lemma number_normal (w : Z) :
  (0 < w < 4294967296)%Z ->
  exists m e,
    Pdf.normal (Pdf.number w) m e /\ (-52 <= e <= -21)%Z
    /\ Pdf.value (Pdf.number w) == inject_Z w.
Proof.
  intros Hw. destruct (normalize_integer w Hw) as (m & e & Hrun & Hd & He & Hv).
  assert (Hsf : Prim2SF (Pdf.number w) = S754_finite false m e).
  { unfold Pdf.number. rewrite FloatAxioms.of_uint63_spec, Uint63.of_Z_spec.
    rewrite Z.mod_small; [exact Hrun|].
    assert (E : wB = 9223372036854775808%Z) by reflexivity.
    rewrite E. lia. }
  exists m, e. split; [split; assumption|]. split; [exact He|].
  unfold Pdf.value. rewrite Hsf. exact Hv.
Qed.

Lemma div_normal (a b : float) (ma mb : positive) (ea eb : Z) :
  Pdf.normal a ma ea -> Pdf.normal b mb eb ->
  (-1021 <= ea - eb)%Z -> (ea - eb <= 1022)%Z ->
  exists m e X,
    Pdf.normal (a / b)%float m e
    /\ (ea - eb - 53 <= e <= ea - eb - 51)%Z
    /\ X * Pdf.value b == Pdf.value a
    /\ X * (1 - Binary64.u53) <= Pdf.value (a / b)%float
    /\ Pdf.value (a / b)%float <= X * (1 + Binary64.u53).
Proof.
  intros [Ha Hda] [Hb Hdb] Hlo Hhi.
  destruct (SFdiv_spec ma mb ea eb Hda Hdb Hlo Hhi)
    as (m & e & X & Hrun & Hd & He & HX & Hl & Hu).
  assert (Hsf : Prim2SF (a / b)%float = S754_finite false m e).
  { rewrite FloatAxioms.div_spec, Ha, Hb. exact Hrun. }
  exists m, e, X. split; [split; assumption|]. split; [exact He|].
  unfold Pdf.value. rewrite Hsf, Ha, Hb. cbn [Pdf.SFvalue].
  split; [exact HX|]. split; assumption.
Qed.

Lemma mul_normal (a b : float) (ma mb : positive) (ea eb : Z) :
  Pdf.normal a ma ea -> Pdf.normal b mb eb ->
  (-1126 <= ea + eb)%Z -> (ea + eb <= 917)%Z ->
  exists m e,
    Pdf.normal (a * b)%float m e
    /\ Pdf.value a * Pdf.value b * (1 - Binary64.u53) <= Pdf.value (a * b)%float
    /\ Pdf.value (a * b)%float <= Pdf.value a * Pdf.value b * (1 + Binary64.u53).
Proof.
  intros [Ha Hda] [Hb Hdb] Hlo Hhi.
  destruct (SFmul_spec ma mb ea eb Hda Hdb Hlo Hhi)
    as (m & e & Hrun & Hd & He & Hl & Hu).
  assert (Hsf : Prim2SF (a * b)%float = S754_finite false m e).
  { rewrite FloatAxioms.mul_spec, Ha, Hb. exact Hrun. }
  exists m, e. split; [split; assumption|].
  unfold Pdf.value. rewrite Hsf, Ha, Hb. cbn [Pdf.SFvalue].
  split; assumption.
Qed.

Lemma SFeqb_refl (m : positive) (e : Z) :
  SFeqb (S754_finite false m e) (S754_finite false m e) = true.
Proof.
  unfold SFeqb, SFcompare. rewrite Z.compare_refl.
  change (Pos.compare_cont Eq m m) with (Pos.compare m m).
  rewrite Pos.compare_refl. reflexivity.
Qed.

(** [Math.min] of two positive numbers is one of them, and at most
    each of them. *)
Lemma min_normal (a b : float) (ma mb : positive) (ea eb : Z) :
  Pdf.normal a ma ea -> Pdf.normal b mb eb ->
  (Pdf.min a b = a \/ Pdf.min a b = b)
  /\ Pdf.value (Pdf.min a b) <= Pdf.value a
  /\ Pdf.value (Pdf.min a b) <= Pdf.value b.
Proof.
  intros Na Nb.
  pose proof (normal_value a ma ea Na) as Va.
  pose proof (normal_value b mb eb Nb) as Vb.
  destruct Na as [Ha Hda]. destruct Nb as [Hb Hdb].
  destruct (SFltb_value ma mb ea eb Hda Hdb) as [Hab1 Hab2].
  destruct (SFltb_value mb ma eb ea Hdb Hda) as [Hba1 Hba2].
  unfold Pdf.min, PrimFloat.is_nan.
  rewrite !FloatAxioms.eqb_spec, Ha, Hb, !SFeqb_refl. cbn [negb orb].
  rewrite !FloatAxioms.ltb_spec, Ha, Hb.
  destruct (SFltb (S754_finite false ma ea) (S754_finite false mb eb)) eqn:Hab.
  { specialize (Hab1 eq_refl). split; [left; reflexivity|].
    rewrite Va, Vb. split; lra. }
  destruct (SFltb (S754_finite false mb eb) (S754_finite false ma ea)) eqn:Hba.
  { specialize (Hba1 eq_refl). split; [right; reflexivity|].
    rewrite Va, Vb. split; lra. }
  specialize (Hab2 eq_refl). specialize (Hba2 eq_refl).
  destruct (PrimFloat.is_zero a && PrimFloat.get_sign a).
  - split; [left; reflexivity|]. rewrite Va, Vb. split; lra.
  - split; [right; reflexivity|]. rewrite Va, Vb. split; lra.
Qed.

Lemma maxW_normal :
  Pdf.normal Pdf.maxW 4529987906437120 (-43) /\ Pdf.value Pdf.maxW == 515.
Proof. split; [split|]; vm_compute; reflexivity. Qed.

Lemma maxH_normal :
  Pdf.normal Pdf.maxH 4573968371548160 (-44) /\ Pdf.value Pdf.maxH == 260.
Proof. split; [split|]; vm_compute; reflexivity. Qed.

(** One dimension of the drawn image: the product with the scale is
    the exact product up to 2^-53, and at most the side of the box up
    to two roundings. *)
Lemma drawn_side (n : Z) (side x s : float) (c : Q) (ms mside : positive)
      (es eside : Z) :
  (0 < n < 4294967296)%Z ->
  Pdf.normal side mside eside -> (-44 <= eside <= -43)%Z ->
  Pdf.value side == c -> 0 < c ->
  Pdf.normal s ms es -> (-76 <= es <= -42)%Z ->
  Pdf.value s <= Pdf.value (side / Pdf.number n)%float ->
  inject_Z n * Pdf.value s * (1 - Binary64.u53)
    <= Pdf.value (Pdf.number n * s)%float
  /\ Pdf.value (Pdf.number n * s)%float
     <= inject_Z n * Pdf.value s * (1 + Binary64.u53)
  /\ Pdf.value (Pdf.number n * s)%float <= c * (1 + Pdf.eps).
Proof.
  intros Hn Nside Heside Vside Hc Ns Hes Hle.
  destruct (number_normal n Hn) as (mn & en & Nn & Hen & Vn).
  destruct (div_normal side (Pdf.number n) mside mn eside en Nside Nn)
    as (mq & eq & X & Nq & Heq & HX & Hql & Hqu); [lia|lia|].
  destruct (mul_normal (Pdf.number n) s mn ms en es Nn Ns)
    as (mp & ep & Np & Hpl & Hpu); [lia|lia|].
  pose proof (normal_positive s ms es Ns) as Hs.
  assert (Hw : 0 < inject_Z n).
  { change 0 with (inject_Z 0). rewrite <- Zlt_Qlt. lia. }
  rewrite Vn in Hpl, Hpu, HX. rewrite Vside in HX.
  split; [exact Hpl|]. split; [exact Hpu|].
  assert (H1 : inject_Z n * Pdf.value s
               <= inject_Z n * Pdf.value (side / Pdf.number n)%float).
  { apply Qmult_le_l; assumption. }
  assert (H2 : inject_Z n * Pdf.value (side / Pdf.number n)%float
               <= inject_Z n * (X * (1 + Binary64.u53))).
  { apply Qmult_le_l; assumption. }
  assert (H3 : inject_Z n * (X * (1 + Binary64.u53)) == c * (1 + Binary64.u53)).
  { rewrite <- HX. ring. }
  assert (H4 : 0 < inject_Z n * Pdf.value s).
  { apply Qmult_lt_0_compat; assumption. }
  unfold Binary64.u53, Pdf.eps in *. lra.
Qed.

End Rounding.

(** C9, amended: an image of positive width and height (unsigned
    longs) is drawn with both dimensions multiplied by the one factor
    [scale = Math.min(maxW / imgW, maxH / imgH)], which is one of the
    two quotients and at most each of them. In the arithmetic of
    doubles the drawn image fits the box of 515 by 260 and keeps the
    ratio of width to height up to a relative error of 2^-51 each. *)
Theorem image_scaled_to_box (w h : Z) :
  (0 < w < 4294967296)%Z -> (0 < h < 4294967296)%Z ->
  Pdf.drawn (Pdf.number w) (Pdf.number h)
  = ((Pdf.number w * Pdf.scale (Pdf.number w) (Pdf.number h))%float,
     (Pdf.number h * Pdf.scale (Pdf.number w) (Pdf.number h))%float)
  /\ (Pdf.scale (Pdf.number w) (Pdf.number h) = (Pdf.maxW / Pdf.number w)%float
      \/ Pdf.scale (Pdf.number w) (Pdf.number h) = (Pdf.maxH / Pdf.number h)%float)
  /\ (0 < Pdf.value (fst (Pdf.drawn (Pdf.number w) (Pdf.number h))))%Q
  /\ (0 < Pdf.value (snd (Pdf.drawn (Pdf.number w) (Pdf.number h))))%Q
  /\ (Pdf.value (fst (Pdf.drawn (Pdf.number w) (Pdf.number h)))
      <= 515 * (1 + Pdf.eps))%Q
  /\ (Pdf.value (snd (Pdf.drawn (Pdf.number w) (Pdf.number h)))
      <= 260 * (1 + Pdf.eps))%Q
  /\ (Qabs (Pdf.value (fst (Pdf.drawn (Pdf.number w) (Pdf.number h))) * inject_Z h
            - Pdf.value (snd (Pdf.drawn (Pdf.number w) (Pdf.number h))) * inject_Z w)
      <= Pdf.eps
         * (Pdf.value (snd (Pdf.drawn (Pdf.number w) (Pdf.number h))) * inject_Z w))%Q.
Proof.
  intros Hw Hh.
  destruct maxW_normal as [NW VW]. destruct maxH_normal as [NH VH].
  destruct (number_normal w Hw) as (mw & ew & Nw & Hew & Vw).
  destruct (number_normal h Hh) as (mh & eh & Nh & Heh & Vh).
  destruct (div_normal Pdf.maxW (Pdf.number w) _ mw _ ew NW Nw)
    as (ma & ea & Xa & Na & Hea & _); [lia|lia|].
  destruct (div_normal Pdf.maxH (Pdf.number h) _ mh _ eh NH Nh)
    as (mb & eb & Xb & Nb & Heb & _); [lia|lia|].
  destruct (min_normal _ _ ma mb ea eb Na Nb) as (Hmin & Hsa & Hsb).
  fold (Pdf.scale (Pdf.number w) (Pdf.number h)) in Hmin, Hsa, Hsb.
  set (s := Pdf.scale (Pdf.number w) (Pdf.number h)) in *.
  assert (Ns : exists ms es, Pdf.normal s ms es /\ (-76 <= es <= -42)%Z).
  { destruct Hmin as [-> | ->]; [exists ma, ea|exists mb, eb];
      (split; [assumption|lia]). }
  destruct Ns as (ms & es & Ns & Hes).
  destruct (drawn_side w Pdf.maxW (Pdf.number w) s 515 ms _ es _ Hw NW
              ltac:(lia) VW ltac:(reflexivity) Ns Hes Hsa)
    as (Wl & Wu & Wbox).
  destruct (drawn_side h Pdf.maxH (Pdf.number h) s 260 ms _ es _ Hh NH
              ltac:(lia) VH ltac:(reflexivity) Ns Hes Hsb)
    as (Hl & Hu & Hbox).
  pose proof (normal_positive s ms es Ns) as Hs.
  assert (Pw : (0 < inject_Z w)%Q).
  { change 0%Q with (inject_Z 0). rewrite <- Zlt_Qlt. lia. }
  assert (Ph : (0 < inject_Z h)%Q).
  { change 0%Q with (inject_Z 0). rewrite <- Zlt_Qlt. lia. }
  assert (Pws : (0 < inject_Z w * Pdf.value s)%Q)
    by (apply Qmult_lt_0_compat; assumption).
  assert (Phs : (0 < inject_Z h * Pdf.value s)%Q)
    by (apply Qmult_lt_0_compat; assumption).
  unfold Pdf.drawn. fold s. cbn [fst snd].
  set (dw := Pdf.value (Pdf.number w * s)%float) in *.
  set (dh := Pdf.value (Pdf.number h * s)%float) in *.
  split; [reflexivity|]. split; [exact Hmin|].
  unfold Binary64.u53 in *.
  split; [lra|]. split; [lra|]. split; [exact Wbox|]. split; [exact Hbox|].
  set (t := (inject_Z w * inject_Z h * Pdf.value s)%Q).
  assert (Pt : (0 < t)%Q).
  { unfold t. apply Qmult_lt_0_compat; [|exact Hs].
    apply Qmult_lt_0_compat; assumption. }
  assert (F1 : (dw * inject_Z h <= t * (1 + (1 # 9007199254740992)))%Q).
  { apply Qle_trans
      with (inject_Z w * Pdf.value s * (1 + (1 # 9007199254740992)) * inject_Z h)%Q.
    - apply Qmult_le_compat_r; [exact Wu|lra].
    - unfold t. apply Qle_lteq. right. ring. }
  assert (F2 : (t * (1 - (1 # 9007199254740992)) <= dw * inject_Z h)%Q).
  { apply Qle_trans
      with (inject_Z w * Pdf.value s * (1 - (1 # 9007199254740992)) * inject_Z h)%Q.
    - unfold t. apply Qle_lteq. right. ring.
    - apply Qmult_le_compat_r; [exact Wl|lra]. }
  assert (F3 : (dh * inject_Z w <= t * (1 + (1 # 9007199254740992)))%Q).
  { apply Qle_trans
      with (inject_Z h * Pdf.value s * (1 + (1 # 9007199254740992)) * inject_Z w)%Q.
    - apply Qmult_le_compat_r; [exact Hu|lra].
    - unfold t. apply Qle_lteq. right. ring. }
  assert (F4 : (t * (1 - (1 # 9007199254740992)) <= dh * inject_Z w)%Q).
  { apply Qle_trans
      with (inject_Z h * Pdf.value s * (1 - (1 # 9007199254740992)) * inject_Z w)%Q.
    - unfold t. apply Qle_lteq. right. ring.
    - apply Qmult_le_compat_r; [exact Hl|lra]. }
  apply Qabs_Qle_condition. unfold Pdf.eps. clearbody t dw dh. split; lra.
Qed.

Lemma image_scaled_to_box_witness :
  (Pdf.value (fst (Pdf.drawn (Pdf.number 4000) (Pdf.number 8275)))
   <= 515 * (1 + Pdf.eps))%Q
  /\ (Pdf.value (snd (Pdf.drawn (Pdf.number 4000) (Pdf.number 8275)))
      <= 260 * (1 + Pdf.eps))%Q.
Proof.
  destruct (image_scaled_to_box 4000 8275) as (_ & _ & _ & _ & Hw & Hh & _);
    [lia|lia|].
  split; assumption.
Defined.

(** C9, as stated, fails in the arithmetic of doubles: an image of
    4000 by 8275 is drawn higher than the box, and the image of 1 by
    3 is drawn with another ratio than 1 to 3. *)
Lemma image_leaves_box_and_ratio :
  (260 < Pdf.value (snd (Pdf.drawn (Pdf.number 4000) (Pdf.number 8275))))%Q
  /\ PrimFloat.ltb Pdf.maxH (snd (Pdf.drawn (Pdf.number 4000) (Pdf.number 8275)))
     = true
  /\ ~ (Pdf.value (fst (Pdf.drawn (Pdf.number 1) (Pdf.number 3))) * 3
        == Pdf.value (snd (Pdf.drawn (Pdf.number 1) (Pdf.number 3))) * 1)%Q.
Proof.
  split; [vm_compute; reflexivity|]. split; [vm_compute; reflexivity|].
  vm_compute. discriminate.
Qed.
